(** * mobile-test-farm: the mitmproxy mock scripts and the recording compiler

    A shallow embedding of the scripts under [mocks/scripts]:

    - [mitm_to_mockoon.py]   (recorded log -> Mockoon route table)
    - [fallback_mock.py]     (fallback to the mock backend on 5xx)
    - [route_to_mockoon.py]  (pattern routing with force headers)
    - [enhance_responses.py] (merging real and mock data)
    - [selective_record.py]  (allow/deny filter of the recorder)
    - [conditional_mock.py]  (header and query driven mocking)

    Conventions of the embedding.

    - A Python [str] is a [string]; the functions that depend on Unicode
      tables ([lower], [upper], [isdigit], [strip], [repr]) are given on
      ASCII code points.
    - A decoded JSON value is a [json]; numbers are integers.  A floating
      point literal, [NaN], [Infinity] and an escape above [\u00ff] are
      outside the fragment and the decoder rejects them; a statement
      about a decoded body says so in a hypothesis ([plain_body],
      [stored_body]) or takes the decoder's verdict as one.
    - A Python [dict] is an association list in insertion order, updated
      in place as [dict.__setitem__] does.
    - A raised exception is [Raise e]; nothing in the compiler catches one,
      so [Raise] propagates to the caller.  The interception scripts catch
      every exception of their [try] block, which the embedding writes as
      a match on the result.
    - [uuid.uuid4] is a supply [ids : nat -> string]: the n-th call of a run
      returns [ids n].
    - The network ([requests.request], [requests.get]) is a function from
      the call's arguments to [Some reply], or [None] when the call raises. *)

From Stdlib Require Import String Ascii List ZArith Bool Arith Lia DecimalString.
From Stdlib Require Decimal DecimalPos DecimalFacts.
From Stdlib Require Import Permutation.
Import ListNotations.
Local Open Scope list_scope.
Local Open Scope string_scope.

(* ================================================================== *)
(** * Exceptions *)

Inductive exn : Type :=
| JSONDecodeError
| KeyError
| TypeError
| AttributeError
| ValueError
| IndexError
| RequestException.

Inductive result (A : Type) : Type :=
| Ok (a : A)
| Raise (e : exn).

Arguments Ok {A} a.
Arguments Raise {A} e.

Definition bind {A B : Type} (m : result A) (k : A -> result B) : result B :=
  match m with
  | Ok a => k a
  | Raise e => Raise e
  end.

Notation "x <- m ;; k" := (bind m (fun x => k))
  (at level 61, m at next level, right associativity).
Notation "' p <- m ;; k" := (bind m (fun p => k))
  (at level 61, p pattern, m at next level, right associativity).

(* ================================================================== *)
(** * Python strings (ASCII) *)

Module Py.

Definition ord (c : ascii) : nat := nat_of_ascii c.
Definition chr (n : nat) : ascii := ascii_of_nat n.

Definition dquote : ascii := "034"%char.
Definition squote : ascii := "039"%char.
Definition backslash : ascii := "092"%char.

Definition in_range (lo hi : nat) (c : ascii) : bool :=
  Nat.leb lo (ord c) && Nat.leb (ord c) hi.

Definition is_upper (c : ascii) : bool := in_range 65 90 c.
Definition is_lower (c : ascii) : bool := in_range 97 122 c.
Definition is_digit (c : ascii) : bool := in_range 48 57 c.

(** [str.isspace] on ASCII: TAB, LF, VT, FF, CR, FS, GS, RS, US, SPACE. *)
Definition is_space (c : ascii) : bool := in_range 9 13 c || in_range 28 32 c.

Definition lower_char (c : ascii) : ascii :=
  if is_upper c then chr (ord c + 32) else c.
Definition upper_char (c : ascii) : ascii :=
  if is_lower c then chr (ord c - 32) else c.

Fixpoint smap (f : ascii -> ascii) (s : string) : string :=
  match s with
  | EmptyString => EmptyString
  | String c r => String (f c) (smap f r)
  end.

Fixpoint sforall (p : ascii -> bool) (s : string) : bool :=
  match s with
  | EmptyString => true
  | String c r => p c && sforall p r
  end.

Fixpoint contains_char (x : ascii) (s : string) : bool :=
  match s with
  | EmptyString => false
  | String c r => Ascii.eqb c x || contains_char x r
  end.

(** [s.lower()], [s.upper()] *)
Definition lower (s : string) : string := smap lower_char s.
Definition upper (s : string) : string := smap upper_char s.

(** [s.isdigit()]: non-empty and every character a digit. *)
Definition isdigit (s : string) : bool :=
  match s with
  | EmptyString => false
  | _ => sforall is_digit s
  end.

(** [s.lstrip(chars)] for a one-character set, and for white space. *)
Fixpoint lstrip_by (p : ascii -> bool) (s : string) : string :=
  match s with
  | EmptyString => EmptyString
  | String c r => if p c then lstrip_by p r else s
  end.

Definition lstrip (x : ascii) (s : string) : string :=
  lstrip_by (Ascii.eqb x) s.

Fixpoint srev_onto (s acc : string) : string :=
  match s with
  | EmptyString => acc
  | String c r => srev_onto r (String c acc)
  end.

Definition srev (s : string) : string := srev_onto s EmptyString.

(** [s.strip()] *)
Definition strip (s : string) : string :=
  srev (lstrip_by is_space (srev (lstrip_by is_space s))).

(** Truth value of a [str]: non-empty. *)
Definition truthy (s : string) : bool :=
  match s with
  | EmptyString => false
  | _ => true
  end.

(** [s.split(sep)] for a one-character separator. *)
Fixpoint split (sep : ascii) (s : string) : list string :=
  match s with
  | EmptyString => [EmptyString]
  | String c r =>
      if Ascii.eqb c sep then EmptyString :: split sep r
      else match split sep r with
           | h :: t => String c h :: t
           | [] => [String c EmptyString]
           end
  end.

(** [s.split(sep, 1)]: cut at the first separator, if there is one. *)
Fixpoint split1 (sep : ascii) (s : string) : list string :=
  match s with
  | EmptyString => [EmptyString]
  | String c r =>
      if Ascii.eqb c sep then [EmptyString; r]
      else match split1 sep r with
           | h :: t => String c h :: t
           | [] => [String c EmptyString]
           end
  end.

(** [sep.join(parts)] *)
Fixpoint join (sep : string) (parts : list string) : string :=
  match parts with
  | [] => EmptyString
  | [p] => p
  | p :: rest => p ++ sep ++ join sep rest
  end.

(** [str(n)] for an [int]. *)
Definition str_of_Z (z : Z) : string := NilZero.string_of_int (Z.to_int z).
Definition str_of_nat (n : nat) : string := NilZero.string_of_uint (Nat.to_uint n).

Definition hex_digit (n : nat) : ascii :=
  if Nat.ltb n 10 then chr (48 + n) else chr (87 + n).

(** Two lower-case hexadecimal digits of a code point below 256. *)
Definition hex2 (c : ascii) : string :=
  String (hex_digit (ord c / 16)) (String (hex_digit (ord c mod 16)) EmptyString).

(** [repr(s)] of a [str]: apostrophes unless the text has one and no
    quotation mark; backslash, the chosen quote, TAB, LF and CR escaped,
    other control characters as [\xNN]. *)
Definition repr_quote (s : string) : ascii :=
  if contains_char squote s && negb (contains_char dquote s)
  then dquote else squote.

Definition repr_char (q c : ascii) : string :=
  if Ascii.eqb c q || Ascii.eqb c backslash then String backslash (String c EmptyString)
  else if Nat.eqb (ord c) 9 then String backslash "t"
  else if Nat.eqb (ord c) 10 then String backslash "n"
  else if Nat.eqb (ord c) 13 then String backslash "r"
  else if Nat.ltb (ord c) 32 || Nat.ltb 126 (ord c) then String backslash ("x" ++ hex2 c)
  else String c EmptyString.

Fixpoint repr_body (q : ascii) (s : string) : string :=
  match s with
  | EmptyString => EmptyString
  | String c r => repr_char q c ++ repr_body q r
  end.

Definition repr_str (s : string) : string :=
  let q := repr_quote s in
  String q (repr_body q s ++ String q EmptyString).

(** The lines of a text file as [for line in f] yields them: every line
    keeps its line feed, the last one may lack it; in text mode a
    carriage return, alone or before a line feed, is read as a line
    feed.  [line] is the line read so far, last character first. *)
Fixpoint lines_from (text : string) (line : string) : list string :=
  match text with
  | EmptyString =>
      match line with
      | EmptyString => []
      | _ => [srev line]
      end
  | String c rest =>
      if Ascii.eqb c "010" then srev (String "010" line) :: lines_from rest ""
      else if Ascii.eqb c "013" then
        match rest with
        | String c' rest' =>
            if Ascii.eqb c' "010"
            then srev (String "010" line) :: lines_from rest' ""
            else srev (String "010" line) :: lines_from rest ""
        | EmptyString => [srev (String "010" line)]
        end
      else lines_from rest (String c line)
  end.

Definition file_lines (text : string) : list string := lines_from text "".

End Py.

(* ================================================================== *)
(** * Python dictionaries, in insertion order *)

Module Dict.

Section WithValue.
Context {V : Type}.

Definition t := list (string * V).

(** [d.get(k)] *)
Fixpoint get (k : string) (d : t) : option V :=
  match d with
  | [] => None
  | (k', v) :: r => if String.eqb k' k then Some v else get k r
  end.

(** [k in d] *)
Definition mem (k : string) (d : t) : bool :=
  match get k d with
  | Some _ => true
  | None => false
  end.

(** [d[k] = v]: a present key keeps its position, a new key goes last. *)
Fixpoint set (k : string) (v : V) (d : t) : t :=
  match d with
  | [] => [(k, v)]
  | (k', v') :: r =>
      if String.eqb k' k then (k', v) :: r else (k', v') :: set k v r
  end.

(** [d.pop(k, None)], the value dropped. *)
Fixpoint remove (k : string) (d : t) : t :=
  match d with
  | [] => []
  | (k', v') :: r =>
      if String.eqb k' k then r else (k', v') :: remove k r
  end.

(** [{**a, **b}], also [dict(items)] from the empty dictionary. *)
Definition update (a : t) (b : list (string * V)) : t :=
  fold_left (fun d kv => set (fst kv) (snd kv) d) b a.

Definition keys (d : t) : list string := map fst d.

End WithValue.

Arguments t V : clear implicits.

End Dict.

(* ================================================================== *)
(** * JSON values, [json.loads], [json.dumps], [str] *)

Module Json.

#[warnings="-register-all"]
Inductive json : Type :=
| JNull
| JBool (b : bool)
| JInt (z : Z)
| JStr (s : string)
| JArr (l : list json)
| JObj (m : list (string * json)).

(** [isinstance(v, dict)], [isinstance(v, list)] *)
Definition is_dict (v : json) : bool :=
  match v with JObj _ => true | _ => false end.
Definition is_list (v : json) : bool :=
  match v with JArr _ => true | _ => false end.

(** [v[k]] with a [str] key: [KeyError] on a dictionary without the key,
    [TypeError] on every other value. *)
Definition getitem (v : json) (k : string) : result json :=
  match v with
  | JObj m =>
      match Dict.get k m with
      | Some x => Ok x
      | None => Raise KeyError
      end
  | _ => Raise TypeError
  end.

(** [repr(v)]; [str(v)] differs from it on a [str] only. *)
Fixpoint repr (v : json) : string :=
  match v with
  | JNull => "None"
  | JBool true => "True"
  | JBool false => "False"
  | JInt z => Py.str_of_Z z
  | JStr s => Py.repr_str s
  | JArr l => "[" ++ Py.join ", " (map repr l) ++ "]"
  | JObj m =>
      "{" ++ Py.join ", "
               (map (fun kv => Py.repr_str (fst kv) ++ ": " ++ repr (snd kv)) m)
          ++ "}"
  end.

Definition str (v : json) : string :=
  match v with
  | JStr s => s
  | _ => repr v
  end.

(** ** [json.dumps] (default [ensure_ascii]) *)

Definition escape_char (c : ascii) : string :=
  if Ascii.eqb c Py.dquote then String Py.backslash (String Py.dquote EmptyString)
  else if Ascii.eqb c Py.backslash then String Py.backslash (String Py.backslash EmptyString)
  else if Nat.eqb (Py.ord c) 10 then String Py.backslash "n"
  else if Nat.eqb (Py.ord c) 13 then String Py.backslash "r"
  else if Nat.eqb (Py.ord c) 9 then String Py.backslash "t"
  else if Nat.eqb (Py.ord c) 12 then String Py.backslash "f"
  else if Nat.eqb (Py.ord c) 8 then String Py.backslash "b"
  else if Nat.ltb (Py.ord c) 32 || Nat.ltb 126 (Py.ord c)
       then String Py.backslash ("u00" ++ Py.hex2 c)
  else String c EmptyString.

Fixpoint escape_body (s : string) : string :=
  match s with
  | EmptyString => EmptyString
  | String c r => escape_char c ++ escape_body r
  end.

Definition encode_str (s : string) : string :=
  String Py.dquote (escape_body s ++ String Py.dquote EmptyString).

Fixpoint spaces (n : nat) : string :=
  match n with
  | O => EmptyString
  | S k => String " " (spaces k)
  end.

Definition newline : string := String "010" EmptyString.

(** Line break and indentation before an item at nesting [level];
    nothing when [indent] is [None]. *)
Definition break (indent : option nat) (level : nat) : string :=
  match indent with
  | None => EmptyString
  | Some n => newline ++ spaces (n * level)
  end.

Definition item_sep (indent : option nat) (level : nat) : string :=
  match indent with
  | None => ", "
  | Some _ => "," ++ break indent level
  end.

Fixpoint dumps_at (indent : option nat) (level : nat) (v : json) : string :=
  match v with
  | JNull => "null"
  | JBool true => "true"
  | JBool false => "false"
  | JInt z => Py.str_of_Z z
  | JStr s => encode_str s
  | JArr [] => "[]"
  | JArr l =>
      "[" ++ break indent (S level)
          ++ Py.join (item_sep indent (S level))
                     (map (dumps_at indent (S level)) l)
          ++ break indent level ++ "]"
  | JObj [] => "{}"
  | JObj m =>
      "{" ++ break indent (S level)
          ++ Py.join (item_sep indent (S level))
                     (map (fun kv => encode_str (fst kv) ++ ": "
                                       ++ dumps_at indent (S level) (snd kv)) m)
          ++ break indent level ++ "}"
  end.

(** [json.dumps(v)] and [json.dumps(v, indent=n)] *)
Definition dumps (v : json) : string := dumps_at None 0 v.
Definition dumps_indent (n : nat) (v : json) : string := dumps_at (Some n) 0 v.

(** ** [json.loads]

    The decoder works on the list of characters with a fuel bound that
    the length of the text always meets. *)

Definition is_ws (c : ascii) : bool :=
  Nat.eqb (Py.ord c) 32 || Nat.eqb (Py.ord c) 9
  || Nat.eqb (Py.ord c) 10 || Nat.eqb (Py.ord c) 13.

Fixpoint skip_ws (s : list ascii) : list ascii :=
  match s with
  | c :: r => if is_ws c then skip_ws r else s
  | [] => []
  end.

Definition hex_value (c : ascii) : option nat :=
  if Py.is_digit c then Some (Py.ord c - 48)
  else if Py.in_range 97 102 c then Some (Py.ord c - 87)
  else if Py.in_range 65 70 c then Some (Py.ord c - 55)
  else None.

(** A [\uXXXX] escape, for the code points below 256. *)
Definition unicode_escape (a b c d : ascii) : option ascii :=
  match hex_value a, hex_value b, hex_value c, hex_value d with
  | Some 0, Some 0, Some x, Some y => Some (Py.chr (16 * x + y))
  | _, _, _, _ => None
  end.

Definition simple_escape (c : ascii) : option ascii :=
  if Ascii.eqb c Py.dquote then Some Py.dquote
  else if Ascii.eqb c Py.backslash then Some Py.backslash
  else if Ascii.eqb c "/" then Some "/"%char
  else if Ascii.eqb c "b" then Some (Py.chr 8)
  else if Ascii.eqb c "f" then Some (Py.chr 12)
  else if Ascii.eqb c "n" then Some (Py.chr 10)
  else if Ascii.eqb c "r" then Some (Py.chr 13)
  else if Ascii.eqb c "t" then Some (Py.chr 9)
  else None.

(** The text of a string literal after its opening quotation mark. *)
Fixpoint parse_string (s : list ascii) (acc : string) : option (string * list ascii) :=
  match s with
  | [] => None
  | c :: r =>
      if Ascii.eqb c Py.dquote then Some (Py.srev acc, r)
      else if Ascii.eqb c Py.backslash then
        match r with
        | e :: r' =>
            if Ascii.eqb e "u" then
              match r' with
              | h1 :: h2 :: h3 :: h4 :: r'' =>
                  match unicode_escape h1 h2 h3 h4 with
                  | Some x => parse_string r'' (String x acc)
                  | None => None
                  end
              | _ => None
              end
            else
              match simple_escape e with
              | Some x => parse_string r' (String x acc)
              | None => None
              end
        | [] => None
        end
      else if Nat.ltb (Py.ord c) 32 then None
      else parse_string r (String c acc)
  end.

Fixpoint parse_digits (s : list ascii) (acc : Z) : Z * list ascii :=
  match s with
  | c :: r =>
      if Py.is_digit c
      then parse_digits r (10 * acc + Z.of_nat (Py.ord c - 48))%Z
      else (acc, s)
  | [] => (acc, [])
  end.

(** An integer literal: [0], or a non-zero digit and more digits; a
    fraction or an exponent after it makes a float, which is rejected. *)
Definition parse_nat_literal (s : list ascii) : option (Z * list ascii) :=
  match s with
  | c :: r =>
      if Py.is_digit c then
        let '(n, rest) :=
          if Ascii.eqb c "0" then (0%Z, r) else parse_digits s 0%Z in
        match rest with
        | x :: _ =>
            if Ascii.eqb x "." || Ascii.eqb x "e" || Ascii.eqb x "E"
            then None else Some (n, rest)
        | [] => Some (n, rest)
        end
      else None
  | [] => None
  end.

Definition parse_number (s : list ascii) : option (Z * list ascii) :=
  match s with
  | c :: r =>
      if Ascii.eqb c "-" then
        match parse_nat_literal r with
        | Some (n, rest) => Some ((- n)%Z, rest)
        | None => None
        end
      else parse_nat_literal s
  | [] => None
  end.

Definition literal (word : string) (s : list ascii) : option (list ascii) :=
  let w := list_ascii_of_string word in
  if list_eq_dec ascii_dec (firstn (length w) s) w
  then Some (skipn (length w) s) else None.

Fixpoint parse_value (fuel : nat) (s : list ascii) : option (json * list ascii) :=
  match fuel with
  | O => None
  | S f =>
      match skip_ws s with
      | [] => None
      | c :: r =>
          if Ascii.eqb c Py.dquote then
            match parse_string r EmptyString with
            | Some (x, rest) => Some (JStr x, rest)
            | None => None
            end
          else if Ascii.eqb c "[" then
            match skip_ws r with
            | x :: rest =>
                if Ascii.eqb x "]" then Some (JArr [], rest)
                else parse_items f r []
            | [] => None
            end
          else if Ascii.eqb c "{" then
            match skip_ws r with
            | x :: rest =>
                if Ascii.eqb x "}" then Some (JObj [], rest)
                else parse_members f r []
            | [] => None
            end
          else if Ascii.eqb c "n" then
            option_map (fun rest => (JNull, rest)) (literal "null" (c :: r))
          else if Ascii.eqb c "t" then
            option_map (fun rest => (JBool true, rest)) (literal "true" (c :: r))
          else if Ascii.eqb c "f" then
            option_map (fun rest => (JBool false, rest)) (literal "false" (c :: r))
          else
            match parse_number (c :: r) with
            | Some (n, rest) => Some (JInt n, rest)
            | None => None
            end
      end
  end

with parse_items (fuel : nat) (s : list ascii) (acc : list json)
  : option (json * list ascii) :=
  match fuel with
  | O => None
  | S f =>
      match parse_value f s with
      | Some (v, rest) =>
          match skip_ws rest with
          | x :: rest' =>
              if Ascii.eqb x "," then parse_items f rest' (acc ++ [v])%list
              else if Ascii.eqb x "]" then Some (JArr (acc ++ [v])%list, rest')
              else None
          | [] => None
          end
      | None => None
      end
  end

with parse_members (fuel : nat) (s : list ascii) (acc : list (string * json))
  : option (json * list ascii) :=
  match fuel with
  | O => None
  | S f =>
      match skip_ws s with
      | q :: r =>
          if Ascii.eqb q Py.dquote then
            match parse_string r EmptyString with
            | Some (k, rest) =>
                match skip_ws rest with
                | x :: rest' =>
                    if Ascii.eqb x ":" then
                      match parse_value f rest' with
                      | Some (v, rest'') =>
                          match skip_ws rest'' with
                          | y :: rest3 =>
                              if Ascii.eqb y ","
                              then parse_members f rest3 (Dict.set k v acc)
                              else if Ascii.eqb y "}"
                              then Some (JObj (Dict.set k v acc), rest3)
                              else None
                          | [] => None
                          end
                      | None => None
                      end
                    else None
                | [] => None
                end
            | None => None
            end
          else None
      | [] => None
      end
  end.

(** [json.loads(text)] *)
Definition loads (text : string) : result json :=
  let s := list_ascii_of_string text in
  match parse_value (2 * length s + 2) s with
  | Some (v, rest) =>
      match skip_ws rest with
      | [] => Ok v
      | _ :: _ => Raise JSONDecodeError
      end
  | None => Raise JSONDecodeError
  end.

(** Iterating over a value, as [list.extend] does: the elements of a
    list, the characters of a [str], the keys of a dictionary. *)
Fixpoint chars (s : string) : list json :=
  match s with
  | EmptyString => []
  | String c r => JStr (String c EmptyString) :: chars r
  end.

Definition iterate (v : json) : result (list json) :=
  match v with
  | JArr l => Ok l
  | JStr s => Ok (chars s)
  | JObj m => Ok (map (fun kv => JStr (fst kv)) m)
  | _ => Raise TypeError
  end.

End Json.

(** Fixtures are written with an apostrophe wherever the JSON text has a
    quotation mark. *)
Definition jsonl (s : string) : string :=
  Py.smap (fun c => if Ascii.eqb c Py.squote then Py.dquote else c) s.


(* ================================================================== *)
(** * mitmproxy: headers, query, flow *)

(** [mitmproxy.http.Headers]: a sequence of fields, names compared in
    lower case. *)
Module Headers.

Definition t := list (string * string).

Definition same_name (a b : string) : bool :=
  String.eqb (Py.lower a) (Py.lower b).

(** [headers.get_all(name)] *)
Fixpoint get_all (name : string) (h : t) : list string :=
  match h with
  | [] => []
  | (k, v) :: r =>
      if same_name k name then v :: get_all name r else get_all name r
  end.

(** [name in headers] *)
Definition contains (name : string) (h : t) : bool :=
  match get_all name h with
  | [] => false
  | _ :: _ => true
  end.

(** [headers.get(name, default)]: the values of the name folded into one. *)
Definition get (name default : string) (h : t) : string :=
  match get_all name h with
  | [] => default
  | vs => Py.join ", " vs
  end.

(** [headers[name] = value]: the first field of that name takes the value
    and keeps its spelling, later ones are dropped; a new name goes last. *)
Fixpoint set_from (name value : string) (pending : bool) (h : t) : t :=
  match h with
  | [] => if pending then [(name, value)] else []
  | (k, v) :: r =>
      if same_name k name
      then if pending
           then (k, value) :: set_from name value false r
           else set_from name value false r
      else (k, v) :: set_from name value pending r
  end.

Definition set (name value : string) (h : t) : t :=
  set_from name value true h.

(** The names in order of first appearance, each once. *)
Fixpoint names_from (seen : list string) (h : t) : list string :=
  match h with
  | [] => []
  | (k, _) :: r =>
      if existsb (String.eqb (Py.lower k)) seen
      then names_from seen r
      else k :: names_from (Py.lower k :: seen) r
  end.

(** [dict(headers)] *)
Definition to_dict (h : t) : Dict.t string :=
  map (fun k => (k, get k EmptyString h)) (names_from [] h).

End Headers.

(** [flow.request.query]: a multi-valued view, keys compared as they are. *)
Module Query.

Definition t := list (string * string).

(** [key in query] *)
Definition contains (key : string) (q : t) : bool :=
  existsb (fun f => String.eqb (fst f) key) q.

(** [query.get(key, default)]: the first value of the key. *)
Fixpoint get (key default : string) (q : t) : string :=
  match q with
  | [] => default
  | (k, v) :: r => if String.eqb k key then v else get key default r
  end.

(** [query.pop(key, None)]: every field of the key is removed. *)
Definition pop (key : string) (q : t) : t :=
  filter (fun f => negb (String.eqb (fst f) key)) q.

(** Truth value: not empty. *)
Definition truthy (q : t) : bool :=
  match q with
  | [] => false
  | _ :: _ => true
  end.

(** [str(query)]: the class name and the fields as tuples. *)
Definition str (q : t) : string :=
  "MultiDictView["
    ++ Py.join ", "
         (map (fun f => "(" ++ Py.repr_str (fst f) ++ ", "
                            ++ Py.repr_str (snd f) ++ ")") q)
    ++ "]".

(** The keys in order of first appearance, each once. *)
Fixpoint keys_from (seen : list string) (q : t) : list string :=
  match q with
  | [] => []
  | (k, _) :: r =>
      if existsb (String.eqb k) seen then keys_from seen r
      else k :: keys_from (k :: seen) r
  end.

(** [dict(query)]: each key with its first value. *)
Definition to_dict (q : t) : Dict.t string :=
  map (fun k => (k, get k EmptyString q)) (keys_from [] q).

End Query.

Module Request.
(** [path] and [query] are two fields, as the scripts read them.  An
    assignment to [scheme], [host] or [port] sets the field; what
    mitmproxy itself then does to the [Host] field is not part of the
    embedding. *)
Record t : Type := mk {
  method : string;
  scheme : string;
  host : string;
  port : Z;
  path : string;
  query : Query.t;
  headers : Headers.t;
  content : string
}.

Definition with_target (scheme' host' : string) (port' : Z) (r : t) : t :=
  mk (method r) scheme' host' port' (path r) (query r) (headers r) (content r).
Definition with_headers (h : Headers.t) (r : t) : t :=
  mk (method r) (scheme r) (host r) (port r) (path r) (query r) h (content r).
Definition with_query (q : Query.t) (r : t) : t :=
  mk (method r) (scheme r) (host r) (port r) (path r) q (headers r) (content r).
End Request.

Module Response.
(** [content] is the body and [response.text] the same body as text.  An
    assignment to either replaces the body; what mitmproxy itself then does
    to the [content-length] field is not part of the embedding. *)
Record t : Type := mk {
  status_code : Z;
  reason : string;
  content : string;
  headers : Headers.t
}.

Definition with_headers (h : Headers.t) (r : t) : t :=
  mk (status_code r) (reason r) (content r) h.
Definition with_content (c : string) (r : t) : t :=
  mk (status_code r) (reason r) c (headers r).
End Response.

(** [mitmproxy.http.HTTPFlow]; the request hooks read and write the
    request only. *)
Module Flow.
Record t : Type := mk {
  request : Request.t;
  response : Response.t
}.

Definition with_request (r : Request.t) (f : t) : t := mk r (response f).
Definition with_response (r : Response.t) (f : t) : t := mk (request f) r.
End Flow.

(* ================================================================== *)
(** * [re.match] on the patterns of the scripts

    The fragment: literal characters, [.], a star on either, [^] and [$].
    [re.match] anchors at the start of the text and accepts a prefix. *)

Module Re.

Inductive atom : Type :=
| Any
| Chr (c : ascii).

Inductive item : Type :=
| Bol
| Eol
| One (a : atom)
| Star (a : atom).

Definition is_meta (c : ascii) : bool :=
  Py.contains_char c (String Py.backslash "[](){}|+?*").

Definition atom_of (c : ascii) : option atom :=
  if Ascii.eqb c "." then Some Any
  else if is_meta c then None
  else Some (Chr c).

(** [re.compile(pattern)]; [None] outside the fragment. *)
Fixpoint compile (p : string) : option (list item) :=
  match p with
  | EmptyString => Some []
  | String c r =>
      if Ascii.eqb c "^" then option_map (cons Bol) (compile r)
      else if Ascii.eqb c "$" then option_map (cons Eol) (compile r)
      else
        match atom_of c with
        | None => None
        | Some a =>
            match r with
            | String x r' =>
                if Ascii.eqb x "*" then option_map (cons (Star a)) (compile r')
                else option_map (cons (One a)) (compile r)
            | EmptyString => option_map (cons (One a)) (compile r)
            end
        end
  end.

Definition atom_matches (ignorecase : bool) (a : atom) (c : ascii) : bool :=
  match a with
  | Any => negb (Nat.eqb (Py.ord c) 10)
  | Chr x =>
      if ignorecase then Ascii.eqb (Py.lower_char c) (Py.lower_char x)
      else Ascii.eqb c x
  end.

(** [$]: at the end of the text, or before a final line feed. *)
Definition at_end (s : string) : bool :=
  match s with
  | EmptyString => true
  | String c EmptyString => Nat.eqb (Py.ord c) 10
  | _ => false
  end.

(** [at_start] says that nothing of the text has been consumed. *)
Fixpoint match_items (ignorecase : bool) (p : list item)
  : bool -> string -> bool :=
  match p with
  | [] => fun _ _ => true
  | Bol :: p' => fun at_start s => at_start && match_items ignorecase p' at_start s
  | Eol :: p' => fun at_start s => at_end s && match_items ignorecase p' at_start s
  | One a :: p' =>
      fun _ s =>
        match s with
        | String c r => atom_matches ignorecase a c && match_items ignorecase p' false r
        | EmptyString => false
        end
  | Star a :: p' =>
      fix loop (at_start : bool) (s : string) : bool :=
        match_items ignorecase p' at_start s
        || match s with
           | String c r => atom_matches ignorecase a c && loop false r
           | EmptyString => false
           end
  end.

(** Truth value of [re.match(pattern, text)] and of
    [re.match(pattern, text, re.IGNORECASE)]. *)
Definition matches (ignorecase : bool) (pattern text : string) : bool :=
  match compile pattern with
  | Some p => match_items ignorecase p true text
  | None => false
  end.

End Re.

(* ================================================================== *)
(** * [mocks/scripts/mitm_to_mockoon.py] *)

Module MitmToMockoon.
Import Json.

(** One entry [{"key": key, "value": value}] of a response's header list. *)
Module Header.
Record t : Type := mk {
  key : string;
  value : json
}.
End Header.

(** One entry of a route's ["responses"]. *)
Module Variant.
Record t : Type := mk {
  uuid : string;
  body : json;
  latency : Z;
  statusCode : json;
  label : string;
  headers : list Header.t;
  bodyType : string;
  filePath : string;
  databucketID : string;
  sendFileAsBody : bool;
  rules : list json;
  rulesOperator : string;
  disableTemplating : bool;
  fallbackTo404 : bool;
  default : bool
}.
End Variant.

(** One entry of the environment's ["routes"]. *)
Module Route.
Record t : Type := mk {
  uuid : string;
  documentation : string;
  method : string;
  endpoint : string;
  responses : list Variant.t;
  enabled : bool;
  responseMode : option string
}.
End Route.

(** The Mockoon environment written to the output file; its TLS options,
    CORS headers and proxy header lists are constants and left out. *)
Module Config.
Record t : Type := mk {
  uuid : string;
  lastMigration : Z;
  name : string;
  endpointPrefix : string;
  latency : Z;
  port : Z;
  hostname : string;
  folders : list json;
  routes : list Route.t;
  proxyMode : bool;
  cors : bool
}.
End Config.

Definition exclude_headers : list string :=
  ["content-length"; "transfer-encoding"; "connection";
   "keep-alive"; "host"; "content-encoding"].

(** [x in names] on a set or list of strings. *)
Definition mem (x : string) (names : list string) : bool :=
  existsb (String.eqb x) names.

Fixpoint clean_items (items : list (string * json)) : list Header.t :=
  match items with
  | [] => []
  | (key, value) :: rest =>
      if negb (mem (Py.lower key) exclude_headers)
      then Header.mk key value :: clean_items rest
      else clean_items rest
  end.

(** [headers.items()] exists on a dictionary only. *)
Definition clean_headers (headers : json) : result (list Header.t) :=
  match headers with
  | JObj items => Ok (clean_items items)
  | _ => Raise AttributeError
  end.

(** [part.isdigit() or '-' in part and len(part) > 30] *)
Definition looks_like_id (part : string) : bool :=
  Py.isdigit part
  || (Py.contains_char "-" part && Nat.ltb 30 (String.length part)).

Fixpoint endpoint_parts (parts : list string) : list string :=
  match parts with
  | [] => []
  | part :: rest =>
      if negb (Py.truthy part) then endpoint_parts rest
      else if looks_like_id part then ":id" :: endpoint_parts rest
      else part :: endpoint_parts rest
  end.

Definition determine_endpoint (path : string) : string :=
  let parts := Py.split "/" path in
  match endpoint_parts parts with
  | [] => path
  | result => "/" ++ Py.join "/" result
  end.

(** [value.split(';')[0].strip()], which exists on a [str] only. *)
Definition media_type (value : json) : result string :=
  match value with
  | JStr s => Ok (Py.strip (hd EmptyString (Py.split ";" s)))
  | _ => Raise AttributeError
  end.

Fixpoint content_type_of (items : list (string * json)) : result string :=
  match items with
  | [] => Ok "application/json"
  | (key, value) :: rest =>
      if String.eqb (Py.lower key) "content-type" then media_type value
      else content_type_of rest
  end.

Definition get_content_type (headers : json) : result string :=
  match headers with
  | JObj items => content_type_of items
  | _ => Raise AttributeError
  end.

(** The first loop: every line that is not blank is decoded. *)
Fixpoint read_recordings (lines : list string) : result (list json) :=
  match lines with
  | [] => Ok []
  | line :: rest =>
      if Py.truthy (Py.strip line) then
        rec <- loads line ;;
        recordings <- read_recordings rest ;;
        Ok (rec :: recordings)
      else read_recordings rest
  end.

(** [value.lower()] exists on a [str] only. *)
Definition lower_of (value : json) : result string :=
  match value with
  | JStr s => Ok (Py.lower s)
  | _ => Raise AttributeError
  end.

(** The grouping key of a recording. *)
Definition group_key (rec : json) : result string :=
  request <- getitem rec "request" ;;
  m <- getitem request "method" ;;
  method <- lower_of m ;;
  request' <- getitem rec "request" ;;
  path <- getitem request' "path" ;;
  Ok (method ++ ":" ++ str path).

(** [grouped[key].append(rec)] on a [defaultdict(list)] *)
Fixpoint group_append (key : string) (rec : json) (grouped : Dict.t (list json))
  : Dict.t (list json) :=
  match grouped with
  | [] => [(key, [rec])]
  | (k, recs) :: rest =>
      if String.eqb k key then (k, (recs ++ [rec])%list) :: rest
      else (k, recs) :: group_append key rec rest
  end.

Fixpoint group_recordings (recordings : list json) (grouped : Dict.t (list json))
  : result (Dict.t (list json)) :=
  match recordings with
  | [] => Ok grouped
  | rec :: rest =>
      key <- group_key rec ;;
      group_recordings rest (group_append key rec grouped)
  end.

(** The body of the route loop for one group; [n] counts the identifiers
    drawn so far. *)
Definition build_route (ids : nat -> string) (n : nat)
  (key : string) (recs : list json) : result (Route.t * nat) :=
  match Py.split1 ":" key with
  | [method; path] =>
      match recs with
      | [] => Raise IndexError
      | first_rec :: _ =>
          let endpoint := Py.lstrip "/" (determine_endpoint path) in
          response <- getitem first_rec "response" ;;
          recorded_body <- getitem response "body" ;;
          let response_body :=
            if is_dict recorded_body
            then JStr (dumps_indent 2 recorded_body)
            else recorded_body in
          let route_uuid := ids n in
          let variant_uuid := ids (S n) in
          response' <- getitem first_rec "response" ;;
          status_code <- getitem response' "status_code" ;;
          response'' <- getitem first_rec "response" ;;
          recorded_headers <- getitem response'' "headers" ;;
          headers <- clean_headers recorded_headers ;;
          Ok (Route.mk route_uuid
                ("Recorded: " ++ Py.upper method ++ " " ++ path)
                method
                endpoint
                [Variant.mk variant_uuid
                   response_body
                   0
                   status_code
                   ("Recorded response (" ++ Py.str_of_nat (length recs)
                                          ++ " similar)")
                   headers
                   "INLINE" "" "" false [] "OR" false false true]
                true
                None,
              S (S n))
      end
  | _ => Raise ValueError
  end.

Fixpoint build_routes (ids : nat -> string) (n : nat)
  (grouped : Dict.t (list json)) : result (list Route.t * nat) :=
  match grouped with
  | [] => Ok ([], n)
  | (key, recs) :: rest =>
      '(route, n') <- build_route ids n key recs ;;
      '(routes, n'') <- build_routes ids n' rest ;;
      Ok (route :: routes, n'')
  end.

(** [input_file] is the text of the file as its lines; the result is the
    document written to [output_file]. *)
Definition convert_recordings_to_mockoon (ids : nat -> string)
  (input_file : list string) (name : string) : result Config.t :=
  recordings <- read_recordings input_file ;;
  grouped <- group_recordings recordings [] ;;
  '(routes, n) <- build_routes ids 0 grouped ;;
  Ok (Config.mk (ids n) 27 name "" 0 3000 "0.0.0.0" [] routes false true).

Definition default_name : string := "Recorded API Mocks".

(** What a route serves, without the generated identifiers. *)
Definition served (r : Route.t)
  : list (string * string * json * json * list Header.t) :=
  map (fun v => (Route.method r, Route.endpoint r, Variant.body v,
                 Variant.statusCode v, Variant.headers v))
      (Route.responses r).

Definition served_table (c : Config.t)
  : list (string * string * json * json * list Header.t) :=
  flat_map served (Config.routes c).

End MitmToMockoon.

(* ================================================================== *)
(** * [requests]: calls and replies *)

Module Requests.

(** The arguments of [requests.request] and [requests.get] that vary. *)
Record call : Type := mk_call {
  method : string;
  url : string;
  headers : Dict.t string;
  data : string
}.

(** A [requests.Response]; [headers] are the items of its header mapping. *)
Record reply : Type := mk_reply {
  status_code : Z;
  reason : string;
  content : string;
  reply_headers : list (string * string)
}.

(** [reply.ok]: no client or server error status. *)
Definition ok (r : reply) : bool :=
  negb ((400 <=? status_code r)%Z && (status_code r <? 600)%Z).

(** The remote end: [None] when the call raises (refused, timed out). *)
Definition server := call -> option reply.

End Requests.

(* ================================================================== *)
(** * [mocks/scripts/fallback_mock.py] *)

Module FallbackMock.

Definition MOCKOON_URL : string := "http://mockoon:3000".
Definition FALLBACK_STATUS_CODES : list Z := [500; 502; 503; 504]%Z.

Definition skipped : list string :=
  ["content-encoding"; "transfer-encoding"; "content-length"].

(** The loop that updates the headers from the mock's. *)
Fixpoint copy_headers (items : list (string * string)) (h : Headers.t) : Headers.t :=
  match items with
  | [] => h
  | (key, value) :: rest =>
      if negb (existsb (String.eqb (Py.lower key)) skipped)
      then copy_headers rest (Headers.set key value h)
      else copy_headers rest h
  end.

(** The call made to Mockoon for a flow. *)
Definition mock_call (flow : Flow.t) : Requests.call :=
  let request := Flow.request flow in
  let mock_url := MOCKOON_URL ++ Request.path request in
  let mock_url :=
    if Query.truthy (Request.query request)
    then mock_url ++ "?" ++ Query.str (Request.query request)
    else mock_url in
  let headers := Dict.remove "Host" (Headers.to_dict (Request.headers request)) in
  Requests.mk_call (Request.method request) mock_url headers (Request.content request).

Definition response (mockoon : Requests.server) (flow : Flow.t) : Flow.t :=
  let real := Flow.response flow in
  if negb (existsb (Z.eqb (Response.status_code real)) FALLBACK_STATUS_CODES)
  then flow
  else
    match mockoon (mock_call flow) with
    | None => flow
    | Some mock_response =>
        if (Requests.status_code mock_response =? 404)%Z then flow
        else
          let headers :=
            copy_headers (Requests.reply_headers mock_response)
                         (Response.headers real) in
          let headers := Headers.set "X-Fallback-Mock" "true" headers in
          Flow.with_response
            (Response.mk (Requests.status_code mock_response)
                         (Requests.reason mock_response)
                         (Requests.content mock_response)
                         headers)
            flow
    end.

End FallbackMock.

(* ================================================================== *)
(** * [mocks/scripts/route_to_mockoon.py] *)

Module RouteToMockoon.

Definition MOCKOON_HOST : string := "mockoon".
Definition MOCKOON_PORT : Z := 3000.

Definition MOCK_ENDPOINTS : list string :=
  ["^/api/v1/auth/login$";
   "^/api/v1/auth/register$";
   "^/api/v1/user/profile$";
   "^/api/v1/users/.*";
   "^/api/v1/products.*";
   "^/api/v1/orders.*"].

Definition REAL_ENDPOINTS : list string :=
  ["^/api/v1/health$";
   "^/api/v1/metrics$"].

Definition should_mock (path : string) : bool :=
  if existsb (fun pattern => Re.matches false pattern path) REAL_ENDPOINTS
  then false
  else if existsb (fun pattern => Re.matches false pattern path) MOCK_ENDPOINTS
  then true
  else false.

Definition force_mock (flow : Flow.t) : bool :=
  String.eqb
    (Py.lower (Headers.get "X-Force-Mock" "" (Request.headers (Flow.request flow))))
    "true".

Definition force_real (flow : Flow.t) : bool :=
  String.eqb
    (Py.lower (Headers.get "X-Force-Real" "" (Request.headers (Flow.request flow))))
    "true".

(** The condition of the hook's [if]: the request goes to Mockoon. *)
Definition routes_to_mockoon (flow : Flow.t) : bool :=
  force_mock flow
  || (should_mock (Request.path (Flow.request flow)) && negb (force_real flow)).

Definition request (flow : Flow.t) : Flow.t :=
  if routes_to_mockoon flow then
    let r := Request.with_target "http" MOCKOON_HOST MOCKOON_PORT (Flow.request flow) in
    let r := Request.with_headers
               (Headers.set "X-Mocked-By" "mitmproxy-mockoon" (Request.headers r)) r in
    Flow.with_request r flow
  else flow.

Definition response (flow : Flow.t) : Flow.t :=
  if Headers.contains "X-Mocked-By" (Request.headers (Flow.request flow))
  then Flow.with_response
         (Response.with_headers
            (Headers.set "X-Mocked-Response" "true"
                         (Response.headers (Flow.response flow)))
            (Flow.response flow))
         flow
  else flow.

End RouteToMockoon.

(* ================================================================== *)
(** * [mocks/scripts/enhance_responses.py] *)

Module EnhanceResponses.
Import Json.

Definition MOCKOON_URL : string := "http://mockoon:3000".

Fixpoint is_prefix (p s : string) : bool :=
  match p, s with
  | EmptyString, _ => true
  | String a p', String b s' => Ascii.eqb a b && is_prefix p' s'
  | String _ _, EmptyString => false
  end.

Fixpoint is_substring (p s : string) : bool :=
  is_prefix p s
  || match s with
     | EmptyString => false
     | String _ s' => is_substring p s'
     end.

(** [key in value] for a [str] key: a key of a dictionary, an element of
    a list, a part of a [str]; [TypeError] on anything else. *)
Definition contains (key : string) (value : json) : result bool :=
  match value with
  | JObj m => Ok (Dict.mem key m)
  | JArr l => Ok (existsb (fun x => match x with
                                    | JStr s => String.eqb s key
                                    | _ => false
                                    end) l)
  | JStr s => Ok (is_substring key s)
  | _ => Raise TypeError
  end.

Definition enhance_call (flow : Flow.t) : Requests.call :=
  let path := Request.path (Flow.request flow) in
  Requests.mk_call "GET" (MOCKOON_URL ++ "/enhance?path=" ++ path)
                   [("X-Original-Path", path)] "".

Definition enhanced_with (body : json) (flow : Flow.t) : Flow.t :=
  let r := Response.with_content (dumps body) (Flow.response flow) in
  let r := Response.with_headers
             (Headers.set "X-Enhanced" "true" (Response.headers r)) r in
  Flow.with_response r flow.

(** The [if]/[elif] that merges the two decoded values. *)
Definition merge (real_data enhance_data : json) (flow : Flow.t) : result Flow.t :=
  match real_data, enhance_data with
  | JObj real, JObj extra =>
      Ok (enhanced_with (JObj (Dict.update real extra)) flow)
  | JArr real, _ =>
      has_items <- contains "items" enhance_data ;;
      if has_items then
        items <- getitem enhance_data "items" ;;
        more <- iterate items ;;
        Ok (enhanced_with (JArr (real ++ more)%list) flow)
      else Ok flow
  | _, _ => Ok flow
  end.

(** The [try] block: the calls it sends to Mockoon, and its outcome, where
    [Raise] is an exception caught by the handler. *)
Definition enhance (mockoon : Requests.server) (flow : Flow.t)
  : list Requests.call * result Flow.t :=
  match loads (Response.content (Flow.response flow)) with
  | Raise e => ([], Raise e)
  | Ok real_data =>
      let call := enhance_call flow in
      ([call],
       match mockoon call with
       | None => Raise RequestException
       | Some enhance_response =>
           if Requests.ok enhance_response then
             enhance_data <- loads (Requests.content enhance_response) ;;
             merge real_data enhance_data flow
           else Ok flow
       end)
  end.

(** The hook, with the calls it sent. *)
Definition run (mockoon : Requests.server) (flow : Flow.t)
  : list Requests.call * Flow.t :=
  if negb (Response.status_code (Flow.response flow) =? 200)%Z then ([], flow)
  else
    let enhance_requested :=
      String.eqb
        (Py.lower (Headers.get "X-Enhance-Response" ""
                               (Request.headers (Flow.request flow))))
        "true" in
    if negb enhance_requested then ([], flow)
    else
      match enhance mockoon flow with
      | (sent, Ok flow') => (sent, flow')
      | (sent, Raise _) => (sent, flow)
      end.

Definition response (mockoon : Requests.server) (flow : Flow.t) : Flow.t :=
  snd (run mockoon flow).

(** The calls the hook sends to Mockoon for a flow. *)
Definition sent (mockoon : Requests.server) (flow : Flow.t) : list Requests.call :=
  fst (run mockoon flow).

End EnhanceResponses.

(* ================================================================== *)
(** * [mocks/scripts/selective_record.py] *)

Module SelectiveRecord.

Definition RECORD_PATTERNS : list string :=
  ["^/api/v1/.*";
   "^/api/auth/.*";
   "^/graphql$"].

Definition EXCLUDE_PATTERNS : list string :=
  [".*analytics.*";
   ".*tracking.*";
   ".*ads.*";
   ".*metrics.*"].

Definition should_record (path : string) : bool :=
  if existsb (fun pattern => Re.matches true pattern path) EXCLUDE_PATTERNS
  then false
  else if existsb (fun pattern => Re.matches false pattern path) RECORD_PATTERNS
  then true
  else false.

(** A body as the recorder stores it: the decoded value when the text
    decodes, the text itself when it does not.  The decoder is that of
    the fragment: a text with a float or an escape above [\u00ff] is
    outside it. *)
Definition decoded_or_text (text : string) : Json.json :=
  match Json.loads text with
  | Ok value => value
  | Raise _ => Json.JStr text
  end.

Definition strings (d : Dict.t string) : Json.json :=
  Json.JObj (map (fun kv => (fst kv, Json.JStr (snd kv))) d).

(** The dictionary literal of the hook, with the two bodies as they are
    after the inner [try] blocks; [now] is [datetime.now().isoformat()]
    and [url] is [flow.request.url]. *)
Definition entry (now url : string) (flow : Flow.t)
  (request_body response_body : Json.json) : Json.json :=
  let request := Flow.request flow in
  let response := Flow.response flow in
  Json.JObj
    [("timestamp", Json.JStr now);
     ("request",
      Json.JObj
        [("method", Json.JStr (Request.method request));
         ("url", Json.JStr url);
         ("path", Json.JStr (Request.path request));
         ("query", strings (Query.to_dict (Request.query request)));
         ("headers", strings (Headers.to_dict (Request.headers request)));
         ("body", request_body)]);
     ("response",
      Json.JObj
        [("status_code", Json.JInt (Response.status_code response));
         ("headers", strings (Headers.to_dict (Response.headers response)));
         ("body", response_body)])].

(** The recording entry of a flow. *)
Definition recording (now url : string) (flow : Flow.t) : Json.json :=
  entry now url flow
    (decoded_or_text (Request.content (Flow.request flow)))
    (decoded_or_text (Response.content (Flow.response flow))).

(** The hook on the text of the recordings file, for a write that
    succeeds: one line is appended. *)
Definition response (now url : string) (recordings : string) (flow : Flow.t)
  : string :=
  if negb (should_record (Request.path (Flow.request flow))) then recordings
  else recordings ++ Json.dumps (recording now url flow) ++ Json.newline.

End SelectiveRecord.

(* ================================================================== *)
(** * [mocks/scripts/conditional_mock.py] *)

Module ConditionalMock.

Definition MOCKOON_HOST : string := "mockoon".
Definition MOCKOON_PORT : Z := 3000.

Definition mock_mode (flow : Flow.t) : string :=
  Py.lower (Headers.get "X-Mock-Mode" "" (Request.headers (Flow.request flow))).

Definition has_mock_param (flow : Flow.t) : bool :=
  let query := Request.query (Flow.request flow) in
  Query.contains "mock" query
  && existsb (String.eqb (Py.lower (Query.get "mock" "" query)))
             ["true"; "1"; "yes"].

Definition test_scenario (flow : Flow.t) : string :=
  Headers.get "X-Test-Scenario" "" (Request.headers (Flow.request flow)).

(** The [if]/[elif] chain: the value of [should_mock] and the flow after
    it (the third branch pops the query flag). *)
Definition decide (flow : Flow.t) : bool * Flow.t :=
  if String.eqb (mock_mode flow) "mock" || String.eqb (mock_mode flow) "true"
  then (true, flow)
  else if String.eqb (mock_mode flow) "real" || String.eqb (mock_mode flow) "false"
  then (false, flow)
  else if has_mock_param flow
  then (true,
        Flow.with_request
          (Request.with_query (Query.pop "mock" (Request.query (Flow.request flow)))
                              (Flow.request flow))
          flow)
  else if Py.truthy (test_scenario flow)
  then (true, flow)
  else (false, flow).

Definition request (flow : Flow.t) : Flow.t :=
  let scenario := test_scenario flow in
  let '(should_mock, flow) := decide flow in
  if should_mock then
    let r := Request.with_target "http" MOCKOON_HOST MOCKOON_PORT (Flow.request flow) in
    let r := if Py.truthy scenario
             then Request.with_headers
                    (Headers.set "X-Mockoon-Scenario" scenario (Request.headers r)) r
             else r in
    let r := Request.with_headers
               (Headers.set "X-Mocked-By" "mitmproxy-conditional" (Request.headers r)) r in
    Flow.with_request r flow
  else flow.

Definition response (flow : Flow.t) : Flow.t :=
  let set name value f :=
    Flow.with_response
      (Response.with_headers
         (Headers.set name value (Response.headers (Flow.response f)))
         (Flow.response f)) f in
  if Headers.contains "X-Mocked-By" (Request.headers (Flow.request flow)) then
    let flow := set "X-Mock-Mode" "mocked" flow in
    let scenario :=
      Headers.get "X-Mockoon-Scenario" "" (Request.headers (Flow.request flow)) in
    if Py.truthy scenario then set "X-Mock-Scenario" scenario flow else flow
  else set "X-Mock-Mode" "real" flow.

End ConditionalMock.

(* ================================================================== *)
(** * [mocks/mitm-scripts/mitm-1766774200309.py] *)

Module Redirect.

Definition TARGET_DOMAINS : list string := ["jsonplaceholder.typicode.com"].
Definition MOCKOON_HOST : string := "localhost".
Definition MOCKOON_PORT : Z := 3001.

(** [any(domain in host for domain in TARGET_DOMAINS)] *)
Definition is_target (host : string) : bool :=
  existsb (fun domain => EnhanceResponses.is_substring domain host) TARGET_DOMAINS.

(** The hook; [host] is [flow.request.pretty_host], read once before the
    request is touched. *)
Definition request (host : string) (flow : Flow.t) : Flow.t :=
  let flow :=
    if String.eqb host "10.0.2.2"
    then Flow.with_request
           (Request.with_target (Request.scheme (Flow.request flow)) "localhost"
                                (Request.port (Flow.request flow))
                                (Flow.request flow))
           flow
    else flow in
  if is_target host then
    let r := Request.with_target "http" MOCKOON_HOST MOCKOON_PORT (Flow.request flow) in
    let r := Request.with_headers
               (Headers.set "X-Mitmproxy-Intercepted" "true" (Request.headers r)) r in
    let r := Request.with_headers
               (Headers.set "X-Original-Host" host (Request.headers r)) r in
    Flow.with_request r flow
  else flow.

End Redirect.

(* ================================================================== *)
(** * Fixtures *)

Module Fixtures.

Definition ids0 (n : nat) : string := "id-" ++ Py.str_of_nat n.

Definition users42 : string := jsonl
  "{'timestamp': 't1', 'request': {'method': 'GET', 'url': 'https://api.test/api/v1/users/42', 'path': '/api/v1/users/42', 'query': {}, 'headers': {'Accept': '*/*'}, 'body': ''}, 'response': {'status_code': 200, 'headers': {'Content-Type': 'application/json', 'Content-Length': '10', 'Connection': 'keep-alive'}, 'body': {'id': 42}}}".

Definition users17 : string := jsonl
  "{'timestamp': 't2', 'request': {'method': 'GET', 'url': 'https://api.test/api/v1/users/17', 'path': '/api/v1/users/17', 'query': {}, 'headers': {'Accept': '*/*'}, 'body': ''}, 'response': {'status_code': 200, 'headers': {'Content-Type': 'application/json'}, 'body': {'id': 17}}}".

(** A second recording of the path of [users42], with another body. *)
Definition users42_again : string := jsonl
  "{'timestamp': 't3', 'request': {'method': 'get', 'url': 'https://api.test/api/v1/users/42', 'path': '/api/v1/users/42', 'query': {}, 'headers': {}, 'body': ''}, 'response': {'status_code': 404, 'headers': {}, 'body': 'gone'}}".

Definition broken_line : string := "{not json".

Definition a_request (path : string) (query : Query.t) (headers : Headers.t)
  : Request.t :=
  Request.mk "GET" "https" "api.test" 443 path query headers "".

Definition a_response (status : Z) (reason body : string) (headers : Headers.t)
  : Response.t :=
  Response.mk status reason body headers.

(** A health probe that asks for the mock with a value other than [true]. *)
Definition force_mock_one : Flow.t :=
  Flow.mk (a_request "/api/v1/health" [] [("X-Force-Mock", "1")])
          (a_response 200 "OK" "" []).

(** The same probe with both force headers set to [true]. *)
Definition force_both : Flow.t :=
  Flow.mk (a_request "/api/v1/health" []
             [("X-Force-Mock", "TRUE"); ("X-Force-Real", "true")])
          (a_response 200 "OK" "" []).

(** A request with the real mode, the query flag and a scenario at once. *)
Definition real_mode_with_flags : Flow.t :=
  Flow.mk (a_request "/api/v1/orders" [("mock", "true")]
             [("X-Mock-Mode", "Real"); ("X-Test-Scenario", "empty-cart")])
          (a_response 200 "OK" "" []).

Definition bad_gateway : Flow.t :=
  Flow.mk (a_request "/api/v1/orders" [] [("Host", "api.test")])
          (a_response 502 "Bad Gateway" "upstream down"
             [("Content-Type", "text/plain"); ("Content-Length", "13")]).

Definition unavailable : Flow.t :=
  Flow.mk (a_request "/api/v1/orders" [] [("Host", "api.test")])
          (a_response 503 "Service Unavailable" "try later"
             [("Content-Type", "text/plain")]).

(** Mockoon answering every call with a canned order list. *)
Definition mockoon_ok : Requests.server :=
  fun _ => Some (Requests.mk_reply 200 "OK" "[]"
                   [("Content-Type", "application/json");
                    ("Content-Length", "2");
                    ("Connection", "close")]).

(** Mockoon without a route for the call. *)
Definition mockoon_404 : Requests.server :=
  fun _ => Some (Requests.mk_reply 404 "Not Found" "" []).

(** Mockoon unreachable. *)
Definition mockoon_down : Requests.server := fun _ => None.

Definition profile : Flow.t :=
  Flow.mk (a_request "/api/v1/user/profile" [] [("X-Enhance-Response", "True")])
          (a_response 200 "OK" (jsonl "{'name': 'Ann', 'plan': 'free'}") []).

Definition profile_extra : Requests.server :=
  fun _ => Some (Requests.mk_reply 200 "OK"
                   (jsonl "{'plan': 'gold', 'beta': true}") []).

Definition orders : Flow.t :=
  Flow.mk (a_request "/api/v1/orders" [] [("X-Enhance-Response", "true")])
          (a_response 200 "OK" "[1, 2]" []).

Definition orders_extra : Requests.server :=
  fun _ => Some (Requests.mk_reply 200 "OK" (jsonl "{'items': [3, 4]}") []).

(** Mockoon answering with headers of a persistent connection. *)
Definition mockoon_keep_alive : Requests.server :=
  fun _ => Some (Requests.mk_reply 200 "OK" "{}"
                   [("Keep-Alive", "timeout=5");
                    ("Transfer-Encoding", "chunked")]).

(** A call that the recorder leaves out. *)
Definition metrics : Flow.t :=
  Flow.mk (a_request "/api/v1/metrics" [] []) (a_response 200 "OK" "{}" []).

(** Three flows in the order the proxy meets them, each with the time of
    the call and its URL. *)
Definition session : list (string * string * Flow.t) :=
  [("t1", "https://api.test/api/v1/orders", orders);
   ("t2", "https://api.test/api/v1/metrics", metrics);
   ("t3", "https://api.test/api/v1/user/profile", profile)].

(** A call under [/api/v1/] that an exclusion pattern matches. *)
Definition analytics : Flow.t :=
  Flow.mk (a_request "/api/v1/Analytics/events" [] [])
          (a_response 200 "OK" "{}" []).

End Fixtures.

(* ================================================================== *)
(** * Notions used in the statements *)

(** A header name that the fallback's copy loop leaves out. *)
Definition is_skipped (key : string) : bool :=
  existsb (String.eqb (Py.lower key)) FallbackMock.skipped.

(** The value the copy loop leaves under a name: that of the last mock
    header of the name that is not skipped. *)
Fixpoint last_copied (name : string) (items : list (string * string))
  : option string :=
  match items with
  | [] => None
  | (key, value) :: rest =>
      match last_copied name rest with
      | Some v => Some v
      | None =>
          if negb (is_skipped key) && Headers.same_name key name
          then Some value else None
      end
  end.

(** The recording has the grouping key [key]. *)
Definition in_group (key : string) (rec : Json.json) : bool :=
  match MitmToMockoon.group_key rec with
  | Ok k => String.eqb k key
  | Raise _ => false
  end.

(** What a successful pass of the route loop's body has read and built. *)
Definition built_from (ids : nat -> string) (n : nat) (key : string)
  (recs : list Json.json) (route : MitmToMockoon.Route.t) : Prop :=
  exists method path first rest response body status recorded headers,
    Py.split1 ":" key = [method; path]
    /\ recs = first :: rest
    /\ Json.getitem first "response" = Ok response
    /\ Json.getitem response "body" = Ok body
    /\ Json.getitem response "status_code" = Ok status
    /\ Json.getitem response "headers" = Ok recorded
    /\ MitmToMockoon.clean_headers recorded = Ok headers
    /\ route
       = MitmToMockoon.Route.mk (ids n)
           ("Recorded: " ++ Py.upper method ++ " " ++ path)
           method
           (Py.lstrip "/" (MitmToMockoon.determine_endpoint path))
           [MitmToMockoon.Variant.mk (ids (S n))
              (if Json.is_dict body
               then Json.JStr (Json.dumps_indent 2 body) else body)
              0 status
              ("Recorded response (" ++ Py.str_of_nat (length recs) ++ " similar)")
              headers "INLINE" "" "" false [] "OR" false false true]
           true None.

(** The groups after the recordings [seen]: one per key, each holding the
    recordings of its key in recording order. *)
Definition groups_of (seen : list Json.json) (grouped : Dict.t (list Json.json))
  : Prop :=
  NoDup (map fst grouped)
  /\ (forall key recs, In (key, recs) grouped ->
                       recs = filter (in_group key) seen /\ recs <> [])
  /\ (forall rec, In rec seen ->
                  exists key, MitmToMockoon.group_key rec = Ok key
                              /\ In key (map fst grouped)).

(** The route of a group, up to its two identifiers: method and path are
    the parts of the key before and after its first colon, the endpoint is
    the template of the path without its leading slashes, and the one
    response variant takes body, status code and cleaned headers from the
    first recording of the group and its label from the size of the
    group; every other field is the constant of the script. *)
Definition route_for (key : string) (recs : list Json.json)
  (route : MitmToMockoon.Route.t) : Prop :=
  exists method path first response body status recorded headers
         route_uuid variant_uuid,
    Py.split1 ":" key = [method; path]
    /\ hd_error recs = Some first
    /\ Json.getitem first "response" = Ok response
    /\ Json.getitem response "body" = Ok body
    /\ Json.getitem response "status_code" = Ok status
    /\ Json.getitem response "headers" = Ok recorded
    /\ MitmToMockoon.clean_headers recorded = Ok headers
    /\ route
       = MitmToMockoon.Route.mk route_uuid
           ("Recorded: " ++ Py.upper method ++ " " ++ path)
           method
           (Py.lstrip "/" (MitmToMockoon.determine_endpoint path))
           [MitmToMockoon.Variant.mk variant_uuid
              (if Json.is_dict body
               then Json.JStr (Json.dumps_indent 2 body) else body)
              0 status
              ("Recorded response (" ++ Py.str_of_nat (length recs) ++ " similar)")
              headers "INLINE" "" "" false [] "OR" false false true]
           true None.

(** Method, endpoint, and body and label of each response of a route. *)
Definition summary (route : MitmToMockoon.Route.t)
  : string * string * list (Json.json * string) :=
  (MitmToMockoon.Route.method route,
   MitmToMockoon.Route.endpoint route,
   map (fun v => (MitmToMockoon.Variant.body v, MitmToMockoon.Variant.label v))
       (MitmToMockoon.Route.responses route)).

Definition summaries (compiled : result MitmToMockoon.Config.t)
  : option (list (string * string * list (Json.json * string))) :=
  match compiled with
  | Ok table => Some (map summary (MitmToMockoon.Config.routes table))
  | Raise _ => None
  end.

(** The line is not blank: the reader decodes it. *)
Definition is_read (line : string) : bool := Py.truthy (Py.strip line).

(** A segment of a template: not empty, not an identifier, no slash. *)
Definition plain_segment (part : string) : Prop :=
  Py.truthy part = true
  /\ MitmToMockoon.looks_like_id part = false
  /\ Py.contains_char "/" part = false.

(** The keys of a list in order of first appearance, each once; [seen]
    holds the keys met before. *)
Fixpoint first_seen_from (seen keys : list string) : list string :=
  match keys with
  | [] => []
  | key :: rest =>
      if MitmToMockoon.mem key seen then first_seen_from seen rest
      else key :: first_seen_from (key :: seen) rest
  end.

Definition first_seen (keys : list string) : list string :=
  first_seen_from [] keys.

(** The identifiers of a route table in the order of the document: each
    route's, then its responses', and the table's own last. *)
Definition route_identifiers (route : MitmToMockoon.Route.t) : list string :=
  MitmToMockoon.Route.uuid route
  :: map MitmToMockoon.Variant.uuid (MitmToMockoon.Route.responses route).

Definition identifiers (table : MitmToMockoon.Config.t) : list string :=
  (flat_map route_identifiers (MitmToMockoon.Config.routes table)
   ++ [MitmToMockoon.Config.uuid table])%list.

(** The table compiled from a log without recordings. *)
Definition empty_table (ids : nat -> string) (name : string)
  : MitmToMockoon.Config.t :=
  MitmToMockoon.Config.mk (ids 0) 27 name "" 0 3000 "0.0.0.0" [] [] false true.

(** The value of a run of digits read left to right after [acc]. *)
Fixpoint uint_value (d : Decimal.uint) (acc : Z) : Z :=
  match d with
  | Decimal.Nil => acc
  | Decimal.D0 d' => uint_value d' (10 * acc + 0)
  | Decimal.D1 d' => uint_value d' (10 * acc + 1)
  | Decimal.D2 d' => uint_value d' (10 * acc + 2)
  | Decimal.D3 d' => uint_value d' (10 * acc + 3)
  | Decimal.D4 d' => uint_value d' (10 * acc + 4)
  | Decimal.D5 d' => uint_value d' (10 * acc + 5)
  | Decimal.D6 d' => uint_value d' (10 * acc + 6)
  | Decimal.D7 d' => uint_value d' (10 * acc + 7)
  | Decimal.D8 d' => uint_value d' (10 * acc + 8)
  | Decimal.D9 d' => uint_value d' (10 * acc + 9)
  end%Z.

(** What may follow a value in a text: nothing, or a character that
    does not continue a number. *)
Definition follows (rest : list ascii) : Prop :=
  match rest with
  | [] => True
  | c :: _ =>
      Py.is_digit c = false
      /\ c <> "."%char /\ c <> "e"%char /\ c <> "E"%char
  end.

(** A value whose dictionaries have no key twice, at any depth. *)
Fixpoint well_formed (v : Json.json) : Prop :=
  match v with
  | Json.JArr l => fold_right (fun x rest => well_formed x /\ rest) True l
  | Json.JObj m =>
      NoDup (map fst m)
      /\ fold_right (fun kv rest => well_formed (snd kv) /\ rest) True m
  | _ => True
  end.

(** Fuel that suffices to read a value back. *)
Fixpoint cost (v : Json.json) : nat :=
  match v with
  | Json.JArr l => S (list_sum (map (fun x => S (cost x)) l))
  | Json.JObj m => S (list_sum (map (fun kv => S (cost (snd kv))) m))
  | _ => 1
  end.

Definition items_cost (l : list Json.json) : nat :=
  list_sum (map (fun x => S (cost x)) l).

Definition members_cost (m : list (string * Json.json)) : nat :=
  list_sum (map (fun kv => S (cost (snd kv))) m).

(** The text of a member: key, colon, space, value. *)
Definition member_text (level : nat) (kv : string * Json.json) : string :=
  Json.encode_str (fst kv) ++ ": " ++ Json.dumps_at None level (snd kv).

(** The decoder reads the text of the value back, with any fuel from
    [cost] on and before anything that may follow a value. *)
Definition reads_back (v : Json.json) : Prop :=
  forall (level fuel : nat) (rest : list ascii),
    cost v <= fuel ->
    follows rest ->
    Json.parse_value fuel
      (list_ascii_of_string (Json.dumps_at None level v) ++ rest)
    = Some (v, rest).

(** A flow as the recorder meets it, with the time of the call and the
    URL of the request. *)
Definition recorded (entry : string * string * Flow.t) : bool :=
  SelectiveRecord.should_record (Request.path (Flow.request (snd entry))).

Definition entry_of (entry : string * string * Flow.t) : Json.json :=
  SelectiveRecord.recording (fst (fst entry)) (snd (fst entry)) (snd entry).

(** The recordings file after the hook has met the flows in turn. *)
Definition record_all (entries : list (string * string * Flow.t)) (log : string)
  : string :=
  fold_left (fun log entry =>
               SelectiveRecord.response (fst (fst entry)) (snd (fst entry))
                 log (snd entry))
            entries log.

(** The entries of the flows that are recorded, in order. *)
Definition entries_of (entries : list (string * string * Flow.t))
  : list Json.json :=
  map entry_of (filter recorded entries).

(** A segment as the template shows it. *)
Definition template_segment (part : string) : string :=
  if MitmToMockoon.looks_like_id part then ":id" else part.

(** What makes the conditional hook mock a request: [X-Mock-Mode] reads
    [mock] or [true], or it reads neither [real] nor [false] and the
    mock query flag is truthy or [X-Test-Scenario] has a value. *)
Definition asks_for_mock (flow : Flow.t) : Prop :=
  (ConditionalMock.mock_mode flow = "mock"
   \/ ConditionalMock.mock_mode flow = "true")
  \/ (ConditionalMock.mock_mode flow <> "real"
      /\ ConditionalMock.mock_mode flow <> "false"
      /\ (ConditionalMock.has_mock_param flow = true
          \/ ConditionalMock.test_scenario flow <> "")).

(** The path clears the recorder's filter: no exclusion pattern matches
    it, letter case ignored, and some record pattern matches it, letter
    case respected. *)
Definition clears_filter (path : string) : Prop :=
  (forall p, In p SelectiveRecord.EXCLUDE_PATTERNS ->
             Re.matches true p path = false)
  /\ (exists p, In p SelectiveRecord.RECORD_PATTERNS
                /\ Re.matches false p path = true).

(** A recordings file whose last line, if any, ends with its line feed. *)
Definition complete (log : string) : Prop :=
  log = "" \/ exists body, log = body ++ Json.newline.

(** The characters a JSON value can begin with, for [json.loads]: of a
    string, a list, a dictionary, a number, [true], [false], [null],
    [NaN] and [Infinity]. *)
Definition value_starts : list ascii :=
  Py.dquote :: list_ascii_of_string "[{-0123456789tfnNI".

(** The text cannot be JSON: it is blank, or its first character after
    the white space begins no value. *)
Definition starts_no_value (text : string) : bool :=
  match Json.skip_ws (list_ascii_of_string text) with
  | [] => true
  | c :: _ => negb (existsb (Ascii.eqb c) value_starts)
  end.

(** A body within the fragment of the embedding: its text decodes to a
    value of the fragment, or it cannot be JSON at all. *)
Definition plain_body (text : string) : Prop :=
  (exists value, Json.loads text = Ok value) \/ starts_no_value text = true.

(** What the recorder stores for a body of the fragment: the decoded
    value when the text decodes, the text itself when it cannot be JSON. *)
Definition stored_body (text : string) (body : Json.json) : Prop :=
  Json.loads text = Ok body
  \/ (starts_no_value text = true /\ body = Json.JStr text).

Definition plain_bodies (entry : string * string * Flow.t) : Prop :=
  plain_body (Request.content (Flow.request (snd entry)))
  /\ plain_body (Response.content (Flow.response (snd entry))).

(** The line the recorder writes for an entry. *)
Definition line_of (entry : string * string * Flow.t) : string :=
  Json.dumps (entry_of entry) ++ Json.newline.

(** The method of a flow holds no colon, as every HTTP token. *)
Definition plain_method (entry : string * string * Flow.t) : Prop :=
  Py.contains_char ":" (Request.method (Flow.request (snd entry))) = false.

(* ================================================================== *)
(** * Properties *)

(** ** The embedding on small inputs *)

Example determine_endpoint_numeric :
  MitmToMockoon.determine_endpoint "/api/v1/users/42" = "/api/v1/users/:id".
Proof. reflexivity. Qed.

Example determine_endpoint_uuid :
  MitmToMockoon.determine_endpoint
    "/orders/123e4567-e89b-12d3-a456-426614174000/lines//7"
  = "/orders/:id/lines/:id".
Proof. reflexivity. Qed.

Example determine_endpoint_short_dash :
  MitmToMockoon.determine_endpoint "/api/user-profile" = "/api/user-profile".
Proof. reflexivity. Qed.

Example determine_endpoint_root :
  MitmToMockoon.determine_endpoint "/" = "/"
  /\ MitmToMockoon.determine_endpoint "" = "".
Proof. split; reflexivity. Qed.

Example loads_object :
  Json.loads (jsonl " {'a': [1, -20, true, null], 'b': {'c': 'x'}, 'a': 3} ")
  = Ok (Json.JObj [("a", Json.JInt 3);
                   ("b", Json.JObj [("c", Json.JStr "x")])]).
Proof. reflexivity. Qed.

Example loads_rejects :
  Json.loads "[1,]" = Raise JSONDecodeError
  /\ Json.loads "01" = Raise JSONDecodeError
  /\ Json.loads "{} x" = Raise JSONDecodeError.
Proof. repeat split; reflexivity. Qed.

Example dumps_compact :
  Json.dumps (Json.JObj [("a", Json.JArr [Json.JInt 1; Json.JNull]);
                         ("b", Json.JObj [])])
  = jsonl "{'a': [1, null], 'b': {}}".
Proof. reflexivity. Qed.

Example dumps_indented :
  Json.dumps_indent 2 (Json.JObj [("a", Json.JArr [Json.JInt 1])])
  = jsonl ("{" ++ Json.newline ++ "  'a': [" ++ Json.newline
               ++ "    1" ++ Json.newline ++ "  ]" ++ Json.newline ++ "}").
Proof. reflexivity. Qed.

Example str_of_values :
  Json.str (Json.JStr "/a") = "/a"
  /\ Json.str (Json.JInt (-7)) = "-7"
  /\ Json.str Json.JNull = "None"
  /\ Json.str (Json.JArr [Json.JStr "a"; Json.JBool true]) = "['a', True]".
Proof. repeat split; reflexivity. Qed.

Example match_prefix_and_anchor :
  Re.matches false "^/api/v1/users/.*" "/api/v1/users/42" = true
  /\ Re.matches false "^/api/v1/health$" "/api/v1/health" = true
  /\ Re.matches false "^/api/v1/health$" "/api/v1/healthz" = false
  /\ Re.matches false "^/graphql$" "/v2/graphql" = false
  /\ Re.matches true ".*ads.*" "/api/v1/Uploads" = true
  /\ Re.matches false ".*ads.*" "/api/v1/Uploads" = true
  /\ Re.matches false ".*ADS.*" "/api/v1/Uploads" = false.
Proof. repeat split; reflexivity. Qed.

Example patterns_compile :
  Forall (fun p => Re.compile p <> None)
         (RouteToMockoon.MOCK_ENDPOINTS ++ RouteToMockoon.REAL_ENDPOINTS
          ++ SelectiveRecord.RECORD_PATTERNS
          ++ SelectiveRecord.EXCLUDE_PATTERNS)%list.
Proof. repeat constructor; discriminate. Qed.

Example headers_set_and_get :
  Headers.set "x-a" "1" [("X-A", "0"); ("B", "2"); ("x-a", "3")]
  = [("X-A", "1"); ("B", "2")]
  /\ Headers.get "x-a" "" [("X-A", "0"); ("B", "2"); ("x-a", "3")] = "0, 3"
  /\ Headers.get "c" "none" [("X-A", "0")] = "none".
Proof. repeat split; reflexivity. Qed.

Example should_mock_paths :
  RouteToMockoon.should_mock "/api/v1/users/42" = true
  /\ RouteToMockoon.should_mock "/api/v1/health" = false
  /\ RouteToMockoon.should_mock "/other" = false.
Proof. repeat split; reflexivity. Qed.

Example conditional_query_flag :
  let flow := Flow.mk (Fixtures.a_request "/cart" [("mock", "YES"); ("page", "2")] [])
                      (Fixtures.a_response 200 "OK" "" []) in
  Request.host (Flow.request (ConditionalMock.request flow)) = "mockoon"
  /\ Request.query (Flow.request (ConditionalMock.request flow)) = [("page", "2")].
Proof. split; reflexivity. Qed.

Example compile_one_log :
  summaries (MitmToMockoon.convert_recordings_to_mockoon Fixtures.ids0
               [Fixtures.users42; ""; Fixtures.users42_again]
               MitmToMockoon.default_name)
  = Some [("get", "api/v1/users/:id",
           [(Json.JStr (Json.dumps_indent 2 (Json.JObj [("id", Json.JInt 42)])),
             "Recorded response (2 similar)")])].
Proof. vm_compute. reflexivity. Qed.

(** ** Strings and containers *)

Lemma mem_true_iff (x : string) (l : list string) :
  MitmToMockoon.mem x l = true <-> In x l.
Proof.
  unfold MitmToMockoon.mem. rewrite existsb_exists. split.
  - intros [y [Hy He]]. apply String.eqb_eq in He. now subst.
  - intros H. exists x. split; [assumption | apply String.eqb_refl].
Qed.

(** ** The recorder's filter *)

(** The filter answers yes exactly when no exclusion pattern matches the
    path (ignoring case) and some record pattern matches it (case
    respected); so it answers no for a path that an exclusion pattern
    matches whatever the record patterns say, as for a path with
    [analytics] under [/api/v1/]. *)
Lemma should_record_iff :
  forall path : string,
    (SelectiveRecord.should_record path = true <->
       (forall p, In p SelectiveRecord.EXCLUDE_PATTERNS ->
                  Re.matches true p path = false)
       /\ (exists p, In p SelectiveRecord.RECORD_PATTERNS
                     /\ Re.matches false p path = true))
    /\ (forall p, In p SelectiveRecord.EXCLUDE_PATTERNS ->
                  Re.matches true p path = true ->
                  SelectiveRecord.should_record path = false)
    /\ SelectiveRecord.should_record "/api/v1/users/42" = true
    /\ Re.matches false "^/api/v1/.*" "/api/v1/Analytics/events" = true
    /\ SelectiveRecord.should_record "/api/v1/Analytics/events" = false
    /\ SelectiveRecord.should_record "/API/v1/users/42" = false.
Proof.
  intros path.
  assert (Hdeny : forall p, In p SelectiveRecord.EXCLUDE_PATTERNS ->
                            Re.matches true p path = true ->
                            SelectiveRecord.should_record path = false).
  { intros p Hin Hm. unfold SelectiveRecord.should_record.
    replace (existsb (fun pattern => Re.matches true pattern path)
                     SelectiveRecord.EXCLUDE_PATTERNS) with true; [reflexivity|].
    symmetry. apply existsb_exists. now exists p. }
  split; [| split; [exact Hdeny | repeat split; vm_compute; reflexivity]].
  unfold SelectiveRecord.should_record.
  destruct (existsb (fun pattern => Re.matches true pattern path)
                    SelectiveRecord.EXCLUDE_PATTERNS) eqn:Hex.
  - split; [discriminate|].
    intros [Hno _]. apply existsb_exists in Hex as [p [Hin Hm]].
    rewrite (Hno p Hin) in Hm. discriminate.
  - destruct (existsb (fun pattern => Re.matches false pattern path)
                      SelectiveRecord.RECORD_PATTERNS) eqn:Hrec.
    + split; [intros _ | reflexivity]. split.
      * intros p Hin. destruct (Re.matches true p path) eqn:Hm; [|reflexivity].
        assert (existsb (fun pattern => Re.matches true pattern path)
                        SelectiveRecord.EXCLUDE_PATTERNS = true)
          by (apply existsb_exists; now exists p).
        congruence.
      * apply existsb_exists in Hrec. exact Hrec.
    + split; [discriminate|].
      intros [_ [p [Hin Hm]]].
      assert (existsb (fun pattern => Re.matches false pattern path)
                      SelectiveRecord.RECORD_PATTERNS = true)
        by (apply existsb_exists; now exists p).
      congruence.
Qed.


(** ** The conditional engine *)

(** C10. When the [X-Mock-Mode] header reads [real] or [false] in any
    letter case, the conditional hook decides for the real backend and
    leaves the request as it is: target, query flag and headers are
    untouched, whatever the mock query flag and [X-Test-Scenario] say. *)
Theorem real_mode_wins :
  forall flow : Flow.t,
    ConditionalMock.mock_mode flow = "real"
    \/ ConditionalMock.mock_mode flow = "false" ->
    fst (ConditionalMock.decide flow) = false
    /\ ConditionalMock.request flow = flow.
Proof.
  intros flow H. unfold ConditionalMock.request, ConditionalMock.decide.
  destruct H as [H | H]; rewrite H; simpl; split; reflexivity.
Qed.

Lemma real_mode_wins_witness :
  (ConditionalMock.mock_mode Fixtures.real_mode_with_flags = "real"
   \/ ConditionalMock.mock_mode Fixtures.real_mode_with_flags = "false")
  /\ ConditionalMock.has_mock_param Fixtures.real_mode_with_flags = true
  /\ ConditionalMock.test_scenario Fixtures.real_mode_with_flags = "empty-cart"
  /\ fst (ConditionalMock.decide Fixtures.real_mode_with_flags) = false
  /\ ConditionalMock.request Fixtures.real_mode_with_flags
     = Fixtures.real_mode_with_flags.
Proof.
  split; [left; reflexivity|].
  split; [reflexivity|]. split; [reflexivity|].
  apply (real_mode_wins Fixtures.real_mode_with_flags). left. reflexivity.
Defined.

(** ** Header fields *)

Lemma same_name_trans_false (a b c : string) :
  Headers.same_name a b = true ->
  Headers.same_name b c = false ->
  Headers.same_name a c = false.
Proof.
  unfold Headers.same_name. intros Hab Hbc.
  apply String.eqb_eq in Hab. now rewrite Hab.
Qed.

Lemma same_name_trans (a b c : string) :
  Headers.same_name a b = true ->
  Headers.same_name b c = true ->
  Headers.same_name a c = true.
Proof.
  unfold Headers.same_name. intros Hab Hbc.
  apply String.eqb_eq in Hab. now rewrite Hab.
Qed.

Lemma same_name_flip_false (a b c : string) :
  Headers.same_name a b = false ->
  Headers.same_name b c = true ->
  Headers.same_name a c = false.
Proof.
  unfold Headers.same_name. intros Hab Hbc.
  apply String.eqb_eq in Hbc. now rewrite <- Hbc.
Qed.

(** Setting one name leaves the fields of every other name alone. *)
Lemma get_all_set_from_other (name key value : string) (pending : bool)
      (h : Headers.t) :
  Headers.same_name key name = false ->
  Headers.get_all name (Headers.set_from key value pending h)
  = Headers.get_all name h.
Proof.
  intros Hother. revert pending.
  induction h as [| [k v] r IH]; intros pending; simpl.
  - destruct pending; simpl; [rewrite Hother|]; reflexivity.
  - destruct (Headers.same_name k key) eqn:Hk.
    + rewrite (same_name_trans_false _ _ _ Hk Hother).
      destruct pending; simpl.
      * rewrite (same_name_trans_false _ _ _ Hk Hother). apply IH.
      * apply IH.
    + simpl. destruct (Headers.same_name k name); [f_equal|]; apply IH.
Qed.

(** After a set, the name has the new value and no other. *)
Lemma get_all_set_from_same (name key value : string) (pending : bool)
      (h : Headers.t) :
  Headers.same_name key name = true ->
  Headers.get_all name (Headers.set_from key value pending h)
  = if pending then [value] else [].
Proof.
  intros Hsame. revert pending.
  induction h as [| [k v] r IH]; intros pending; simpl.
  - destruct pending; simpl; [rewrite Hsame|]; reflexivity.
  - destruct (Headers.same_name k key) eqn:Hk.
    + destruct pending; simpl.
      * rewrite (same_name_trans _ _ _ Hk Hsame). f_equal. apply (IH false).
      * apply (IH false).
    + simpl. rewrite (same_name_flip_false _ _ _ Hk Hsame). apply IH.
Qed.

Lemma get_set_same (name key value default : string) (h : Headers.t) :
  Headers.same_name key name = true ->
  Headers.get name default (Headers.set key value h) = value.
Proof.
  intros Hsame. unfold Headers.get, Headers.set.
  now rewrite (get_all_set_from_same _ _ _ true h Hsame).
Qed.

Lemma get_all_set_other (name key value : string) (h : Headers.t) :
  Headers.same_name key name = false ->
  Headers.get_all name (Headers.set key value h) = Headers.get_all name h.
Proof. apply get_all_set_from_other. Qed.

(** ** Pattern routing *)

(** C6, as the script has it. A request whose [X-Force-Mock] header reads
    [true] (in any letter case) goes to Mockoon: the target becomes
    [http://mockoon:3000] and [X-Mocked-By] is set, whatever the path
    patterns say and whether or not [X-Force-Real] is set. *)
Theorem force_mock_true_wins :
  forall flow : Flow.t,
    RouteToMockoon.force_mock flow = true ->
    RouteToMockoon.routes_to_mockoon flow = true
    /\ Request.scheme (Flow.request (RouteToMockoon.request flow)) = "http"
    /\ Request.host (Flow.request (RouteToMockoon.request flow))
       = RouteToMockoon.MOCKOON_HOST
    /\ Request.port (Flow.request (RouteToMockoon.request flow))
       = RouteToMockoon.MOCKOON_PORT
    /\ Headers.get "X-Mocked-By" ""
         (Request.headers (Flow.request (RouteToMockoon.request flow)))
       = "mitmproxy-mockoon".
Proof.
  intros flow H.
  assert (Hr : RouteToMockoon.routes_to_mockoon flow = true)
    by (unfold RouteToMockoon.routes_to_mockoon; now rewrite H).
  split; [exact Hr|].
  unfold RouteToMockoon.request. rewrite Hr. simpl.
  repeat split. now apply get_set_same.
Qed.

Lemma force_mock_true_wins_witness :
  RouteToMockoon.force_mock Fixtures.force_both = true
  /\ RouteToMockoon.force_real Fixtures.force_both = true
  /\ RouteToMockoon.should_mock (Request.path (Flow.request Fixtures.force_both))
     = false
  /\ RouteToMockoon.routes_to_mockoon Fixtures.force_both = true
  /\ Request.host (Flow.request (RouteToMockoon.request Fixtures.force_both))
     = "mockoon".
Proof.
  split; [reflexivity|]. split; [reflexivity|]. split; [reflexivity|].
  pose proof (force_mock_true_wins Fixtures.force_both eq_refl) as H.
  split; [apply H | apply H].
Defined.

(** C6 as stated fails: a health probe that carries [X-Force-Mock: 1]
    carries the header, and goes to the real backend untouched. *)
Lemma force_mock_header_alone_is_not_enough :
  Headers.contains "X-Force-Mock"
    (Request.headers (Flow.request Fixtures.force_mock_one)) = true
  /\ RouteToMockoon.routes_to_mockoon Fixtures.force_mock_one = false
  /\ RouteToMockoon.request Fixtures.force_mock_one = Fixtures.force_mock_one
  /\ Request.host (Flow.request (RouteToMockoon.request Fixtures.force_mock_one))
     <> RouteToMockoon.MOCKOON_HOST.
Proof.
  repeat split; try reflexivity. vm_compute. discriminate.
Qed.

(** ** Fallback *)

Lemma in_fallback_codes (status : Z) :
  In status FallbackMock.FALLBACK_STATUS_CODES ->
  existsb (Z.eqb status) FallbackMock.FALLBACK_STATUS_CODES = true.
Proof.
  intros H. apply existsb_exists. exists status. split; [assumption|].
  apply Z.eqb_refl.
Qed.

(** C5. When the real response has a status of the fallback set and
    Mockoon answers 404, or the call to Mockoon raises, the hook returns
    the flow as it came: the original error response with its own headers,
    so no [X-Fallback-Mock] field is added. *)
Theorem fallback_keeps_original_error :
  forall (mockoon : Requests.server) (flow : Flow.t),
    In (Response.status_code (Flow.response flow))
       FallbackMock.FALLBACK_STATUS_CODES ->
    (mockoon (FallbackMock.mock_call flow) = None
     \/ exists reply, mockoon (FallbackMock.mock_call flow) = Some reply
                      /\ Requests.status_code reply = 404%Z) ->
    FallbackMock.response mockoon flow = flow
    /\ Headers.get_all "X-Fallback-Mock"
         (Response.headers (Flow.response (FallbackMock.response mockoon flow)))
       = Headers.get_all "X-Fallback-Mock" (Response.headers (Flow.response flow)).
Proof.
  intros mockoon flow Hcode Hmock.
  assert (E : FallbackMock.response mockoon flow = flow).
  { unfold FallbackMock.response. rewrite (in_fallback_codes _ Hcode). simpl.
    destruct Hmock as [Hnone | [reply [Hsome H404]]].
    - now rewrite Hnone.
    - rewrite Hsome, H404. reflexivity. }
  split; [exact E | now rewrite E].
Qed.

Lemma fallback_keeps_original_error_witness :
  (FallbackMock.response Fixtures.mockoon_404 Fixtures.unavailable
   = Fixtures.unavailable
   /\ Headers.get_all "X-Fallback-Mock"
        (Response.headers
           (Flow.response
              (FallbackMock.response Fixtures.mockoon_404 Fixtures.unavailable)))
      = [])
  /\ FallbackMock.response Fixtures.mockoon_down Fixtures.unavailable
     = Fixtures.unavailable.
Proof.
  split.
  - apply (fallback_keeps_original_error Fixtures.mockoon_404 Fixtures.unavailable).
    + simpl. right. right. left. reflexivity.
    + right. eexists. split; reflexivity.
  - apply (fallback_keeps_original_error Fixtures.mockoon_down Fixtures.unavailable).
    + simpl. right. right. left. reflexivity.
    + left. reflexivity.
Defined.

Lemma copy_headers_get_all (name : string) (items : list (string * string)) :
  forall h : Headers.t,
    Headers.get_all name (FallbackMock.copy_headers items h)
    = match last_copied name items with
      | Some v => [v]
      | None => Headers.get_all name h
      end.
Proof.
  induction items as [| [key value] rest IH]; intros h; [reflexivity|].
  cbn [FallbackMock.copy_headers last_copied].
  change (existsb (String.eqb (Py.lower key)) FallbackMock.skipped)
    with (is_skipped key).
  destruct (is_skipped key) eqn:Hskip; cbn [negb andb].
  - rewrite IH. destruct (last_copied name rest); reflexivity.
  - rewrite IH. destruct (last_copied name rest); [reflexivity|].
    destruct (Headers.same_name key name) eqn:Hsame.
    + unfold Headers.set. now rewrite (get_all_set_from_same _ _ _ true h Hsame).
    + now apply get_all_set_other.
Qed.

Lemma last_copied_skipped (name : string) (items : list (string * string)) :
  is_skipped name = true -> last_copied name items = None.
Proof.
  intros Hname. induction items as [| [key value] rest IH]; [reflexivity|].
  cbn [last_copied].
  rewrite IH. destruct (is_skipped key) eqn:Hkey; cbn [negb andb]; [reflexivity|].
  destruct (Headers.same_name key name) eqn:Hsame; [|reflexivity].
  unfold Headers.same_name in Hsame. apply String.eqb_eq in Hsame.
  unfold is_skipped in *. rewrite Hsame in Hkey. congruence.
Qed.

Lemma last_copied_source (name : string) (items : list (string * string)) :
  forall value,
    last_copied name items = Some value ->
    exists key,
      In (key, value) items
      /\ Headers.same_name key name = true
      /\ is_skipped key = false.
Proof.
  induction items as [| [k v] rest IH]; intros value H; [discriminate|].
  cbn [last_copied] in H.
  destruct (last_copied name rest) as [w|].
  - injection H as <-. destruct (IH w eq_refl) as [key [Hin [Hs Hk]]].
    exists key. repeat split; trivial. now right.
  - destruct (is_skipped k) eqn:Hk; cbn [negb andb] in H; [discriminate|].
    destruct (Headers.same_name k name) eqn:Hs; [|discriminate].
    injection H as <-. exists k. repeat split; trivial. now left.
Qed.

Lemma last_copied_defined (name : string) (items : list (string * string)) :
  forall key value,
    In (key, value) items ->
    is_skipped key = false ->
    Headers.same_name key name = true ->
    last_copied name items <> None.
Proof.
  induction items as [| [k v] rest IH]; intros key value Hin Hskip Hsame;
    [contradiction|].
  cbn [last_copied]. destruct (last_copied name rest) as [w|] eqn:Hrest;
    [discriminate|].
  destruct Hin as [Heq | Hin].
  - injection Heq as -> ->. rewrite Hskip, Hsame. discriminate.
  - exfalso. now apply (IH key value Hin Hskip Hsame).
Qed.

Lemma last_copied_some (name : string) (items : list (string * string)) :
  forall key value,
    In (key, value) items ->
    is_skipped key = false ->
    Headers.same_name key name = true ->
    exists key' value',
      last_copied name items = Some value'
      /\ In (key', value') items
      /\ Headers.same_name key' name = true.
Proof.
  intros key value Hin Hskip Hsame.
  destruct (last_copied name items) as [w|] eqn:E.
  - destruct (last_copied_source _ _ _ E) as [k [Hk [Hs _]]].
    exists k, w. repeat split; trivial.
  - exfalso. now apply (last_copied_defined name items key value).
Qed.

Lemma copy_headers_skips (name : string) (items : list (string * string))
      (h : Headers.t) :
  In (Py.lower name) FallbackMock.skipped ->
  Headers.get_all name (FallbackMock.copy_headers items h) = Headers.get_all name h.
Proof.
  intros Hname.
  assert (Hskip : is_skipped name = true).
  { unfold is_skipped. apply existsb_exists. exists (Py.lower name).
    split; [exact Hname | apply String.eqb_refl]. }
  now rewrite copy_headers_get_all, (last_copied_skipped _ _ Hskip).
Qed.

(** C4, as the script has it. When the real response has a status of the
    fallback set and Mockoon answers with a status [S] other than 404 and a
    body [B], the response the client sees has status [S], Mockoon's reason
    and body [B], and carries [X-Fallback-Mock: true]; every header of
    Mockoon's reply is copied except [content-encoding],
    [transfer-encoding] and [content-length], which the copy loop leaves as
    they were. *)
Theorem fallback_replaces_with_mock :
  forall (mockoon : Requests.server) (flow : Flow.t) (reply : Requests.reply),
    In (Response.status_code (Flow.response flow))
       FallbackMock.FALLBACK_STATUS_CODES ->
    mockoon (FallbackMock.mock_call flow) = Some reply ->
    Requests.status_code reply <> 404%Z ->
    let seen := Flow.response (FallbackMock.response mockoon flow) in
    Response.status_code seen = Requests.status_code reply
    /\ Response.reason seen = Requests.reason reply
    /\ Response.content seen = Requests.content reply
    /\ Headers.get "X-Fallback-Mock" "" (Response.headers seen) = "true"
    /\ (forall key value,
          In (key, value) (Requests.reply_headers reply) ->
          is_skipped key = false ->
          Headers.same_name "X-Fallback-Mock" key = false ->
          exists key' value',
            In (key', value') (Requests.reply_headers reply)
            /\ Headers.same_name key' key = true
            /\ Headers.get_all key (Response.headers seen) = [value'])
    /\ (forall name,
          In (Py.lower name)
             ["content-encoding"; "transfer-encoding"; "content-length"] ->
          Headers.get_all name
            (FallbackMock.copy_headers (Requests.reply_headers reply)
               (Response.headers (Flow.response flow)))
          = Headers.get_all name (Response.headers (Flow.response flow))).
Proof.
  intros mockoon flow reply Hcode Hmock H404.
  unfold FallbackMock.response.
  rewrite (in_fallback_codes _ Hcode), Hmock. simpl.
  apply Z.eqb_neq in H404. rewrite H404. simpl.
  repeat split.
  - now apply get_set_same.
  - intros key value Hin Hskip Htag.
    destruct (last_copied_some key _ key value Hin Hskip) as [k' [v' [E [I S]]]].
    { unfold Headers.same_name. apply String.eqb_refl. }
    exists k', v'. repeat split; trivial.
    rewrite (get_all_set_other _ _ _ _ Htag), copy_headers_get_all, E.
    reflexivity.
  - intros name Hname. now apply copy_headers_skips.
Qed.

Lemma fallback_replaces_with_mock_witness :
  let seen := Flow.response
                (FallbackMock.response Fixtures.mockoon_ok Fixtures.bad_gateway) in
  Response.status_code (Flow.response Fixtures.bad_gateway) = 502%Z
  /\ Response.status_code seen = 200%Z
  /\ Response.content seen = "[]"
  /\ Headers.get "X-Fallback-Mock" "" (Response.headers seen) = "true".
Proof.
  pose proof (fallback_replaces_with_mock Fixtures.mockoon_ok Fixtures.bad_gateway
                (Requests.mk_reply 200 "OK" "[]"
                   [("Content-Type", "application/json");
                    ("Content-Length", "2");
                    ("Connection", "close")])) as H.
  simpl in H.
  destruct H as [Hs [_ [Hc [Ht _]]]].
  - right. left. reflexivity.
  - reflexivity.
  - discriminate.
  - split; [reflexivity|]. split; [exact Hs|]. split; [exact Hc | exact Ht].
Defined.

(** C4 as stated fails on the headers: [Connection] is one of the six
    connection-scoped headers, and the fallback copies Mockoon's
    [Connection: close] into the response that replaces a 502. *)
Lemma fallback_copies_connection_header :
  let seen := Flow.response
                (FallbackMock.response Fixtures.mockoon_ok Fixtures.bad_gateway) in
  In (Response.status_code (Flow.response Fixtures.bad_gateway))
     FallbackMock.FALLBACK_STATUS_CODES
  /\ Response.status_code seen = 200%Z
  /\ In (Py.lower "Connection") MitmToMockoon.exclude_headers
  /\ ~ In ("Connection", "close")
          (Response.headers (Flow.response Fixtures.bad_gateway))
  /\ In ("Connection", "close") (Response.headers seen).
Proof.
  vm_compute. repeat split.
  - right. left. reflexivity.
  - right. right. left. reflexivity.
  - intros [H | [H | []]]; discriminate.
  - right. right. left. reflexivity.
Qed.

(** ** The compiler *)

Lemma bind_ok {A B : Type} (m : result A) (k : A -> result B) (b : B) :
  bind m k = Ok b -> exists a, m = Ok a /\ k a = Ok b.
Proof. destruct m as [a | e]; simpl; [eauto | discriminate]. Qed.

Lemma loads_raises_decode_error (text : string) (e : exn) :
  Json.loads text = Raise e -> e = JSONDecodeError.
Proof.
  unfold Json.loads.
  destruct (Json.parse_value _ _) as [[v rest] |]; [|congruence].
  destruct (Json.skip_ws rest); congruence.
Qed.

Lemma build_route_ok (ids : nat -> string) (n n' : nat) (key : string)
      (recs : list Json.json) (route : MitmToMockoon.Route.t) :
  MitmToMockoon.build_route ids n key recs = Ok (route, n') ->
  built_from ids n key recs route /\ n' = S (S n).
Proof.
  unfold MitmToMockoon.build_route, built_from.
  destruct (Py.split1 ":" key) as [| method [| path [| ? ?]]]; try discriminate.
  destruct recs as [| first rest]; [discriminate|].
  intros H.
  apply bind_ok in H as [response [Hresponse H]].
  apply bind_ok in H as [body [Hbody H]].
  apply bind_ok in H as [response' [Hresponse' H]].
  apply bind_ok in H as [status [Hstatus H]].
  apply bind_ok in H as [response'' [Hresponse'' H]].
  apply bind_ok in H as [recorded [Hrecorded H]].
  apply bind_ok in H as [headers [Hheaders H]].
  assert (response' = response) by congruence.
  assert (response'' = response) by congruence. subst response' response''.
  injection H as <- <-. split; [|reflexivity].
  exists method, path, first, rest, response, body, status, recorded, headers.
  repeat split; assumption.
Qed.

(** Two passes over the same group agree on all but the identifiers. *)
Lemma build_route_same_served (ids1 ids2 : nat -> string) (n1 n2 : nat)
      (key : string) (recs : list Json.json) :
  match MitmToMockoon.build_route ids1 n1 key recs,
        MitmToMockoon.build_route ids2 n2 key recs with
  | Ok (r1, _), Ok (r2, _) => MitmToMockoon.served r1 = MitmToMockoon.served r2
  | Raise e1, Raise e2 => e1 = e2
  | _, _ => False
  end.
Proof.
  unfold MitmToMockoon.build_route.
  destruct (Py.split1 ":" key) as [| method [| path [| ? ?]]]; try reflexivity.
  destruct recs as [| first rest]; [reflexivity|].
  destruct (Json.getitem first "response") as [response |]; simpl; [|reflexivity].
  destruct (Json.getitem response "body") as [body |]; simpl; [|reflexivity].
  destruct (Json.getitem response "status_code") as [status |]; simpl; [|reflexivity].
  destruct (Json.getitem response "headers") as [recorded |]; simpl; [|reflexivity].
  destruct (MitmToMockoon.clean_headers recorded) as [headers |]; simpl; reflexivity.
Qed.

Lemma build_routes_same_served (ids1 ids2 : nat -> string)
      (grouped : Dict.t (list Json.json)) :
  forall n1 n2,
    match MitmToMockoon.build_routes ids1 n1 grouped,
          MitmToMockoon.build_routes ids2 n2 grouped with
    | Ok (rs1, _), Ok (rs2, _) =>
        flat_map MitmToMockoon.served rs1 = flat_map MitmToMockoon.served rs2
    | Raise e1, Raise e2 => e1 = e2
    | _, _ => False
    end.
Proof.
  induction grouped as [| [key recs] rest IH]; intros n1 n2; [reflexivity|].
  cbn [MitmToMockoon.build_routes].
  pose proof (build_route_same_served ids1 ids2 n1 n2 key recs) as Hroute.
  destruct (MitmToMockoon.build_route ids1 n1 key recs) as [[r1 m1] | e1];
    destruct (MitmToMockoon.build_route ids2 n2 key recs) as [[r2 m2] | e2];
    try contradiction; [| exact Hroute].
  cbn [bind]. specialize (IH m1 m2).
  destruct (MitmToMockoon.build_routes ids1 m1 rest) as [[rs1 k1] | e1];
    destruct (MitmToMockoon.build_routes ids2 m2 rest) as [[rs2 k2] | e2];
    try contradiction; [| exact IH].
  cbn [bind flat_map]. now rewrite Hroute, IH.
Qed.

(** C9. Two runs of the compiler on one log, each with its own identifier
    supply, either both fail with the same exception or both produce a
    table, and then the tables list the same (method, endpoint, body,
    status, filtered headers) entries in the same order. *)
Theorem compile_is_deterministic_up_to_identifiers :
  forall (ids1 ids2 : nat -> string) (input_file : list string) (name : string),
    match MitmToMockoon.convert_recordings_to_mockoon ids1 input_file name,
          MitmToMockoon.convert_recordings_to_mockoon ids2 input_file name with
    | Ok table1, Ok table2 =>
        MitmToMockoon.served_table table1 = MitmToMockoon.served_table table2
    | Raise e1, Raise e2 => e1 = e2
    | _, _ => False
    end.
Proof.
  intros ids1 ids2 input_file name.
  unfold MitmToMockoon.convert_recordings_to_mockoon.
  destruct (MitmToMockoon.read_recordings input_file) as [recordings | e];
    [| reflexivity].
  cbn [bind].
  destruct (MitmToMockoon.group_recordings recordings []) as [grouped | e];
    [| reflexivity].
  cbn [bind].
  pose proof (build_routes_same_served ids1 ids2 grouped 0 0) as H.
  destruct (MitmToMockoon.build_routes ids1 0 grouped) as [[rs1 k1] | e1];
    destruct (MitmToMockoon.build_routes ids2 0 grouped) as [[rs2 k2] | e2];
    try contradiction; exact H.
Qed.

Lemma Forall2_from_right {A B : Type} (R : A -> B -> Prop)
      (xs : list A) (ys : list B) :
  Forall2 R xs ys -> forall y, In y ys -> exists x, In x xs /\ R x y.
Proof.
  induction 1 as [| x y' xs ys Hxy _ IH]; intros y Hin; [contradiction|].
  destruct Hin as [<- | Hin].
  - exists x. split; [now left | assumption].
  - destruct (IH y Hin) as [x' [Hx' HR]]. exists x'. split; [now right | assumption].
Qed.

Lemma build_routes_ok (ids : nat -> string) (grouped : Dict.t (list Json.json)) :
  forall n n' routes,
    MitmToMockoon.build_routes ids n grouped = Ok (routes, n') ->
    Forall2 (fun group route =>
               exists m, built_from ids m (fst group) (snd group) route)
            grouped routes.
Proof.
  induction grouped as [| [key recs] rest IH]; intros n n' routes H.
  - injection H as <- <-. constructor.
  - cbn [MitmToMockoon.build_routes] in H.
    apply bind_ok in H as [[route m] [Hroute H]].
    apply bind_ok in H as [[routes' m'] [Hrest H]].
    injection H as <- <-.
    apply build_route_ok in Hroute as [Hbuilt ->].
    constructor; [now exists n | now apply (IH _ _ _ Hrest)].
Qed.

Lemma convert_ok (ids : nat -> string) (input_file : list string)
      (name : string) (table : MitmToMockoon.Config.t) :
  MitmToMockoon.convert_recordings_to_mockoon ids input_file name = Ok table ->
  exists recordings grouped,
    MitmToMockoon.read_recordings input_file = Ok recordings
    /\ MitmToMockoon.group_recordings recordings [] = Ok grouped
    /\ Forall2 (fun group route =>
                  exists m, built_from ids m (fst group) (snd group) route)
               grouped (MitmToMockoon.Config.routes table).
Proof.
  unfold MitmToMockoon.convert_recordings_to_mockoon. intros H.
  apply bind_ok in H as [recordings [Hread H]].
  apply bind_ok in H as [grouped [Hgroup H]].
  apply bind_ok in H as [[routes n] [Hroutes H]].
  injection H as <-. exists recordings, grouped.
  repeat split; trivial. cbn. now apply (build_routes_ok ids grouped 0 n).
Qed.

Lemma clean_items_excludes (items : list (string * Json.json)) :
  Forall (fun header =>
            MitmToMockoon.mem (Py.lower (MitmToMockoon.Header.key header))
                              MitmToMockoon.exclude_headers = false)
         (MitmToMockoon.clean_items items).
Proof.
  induction items as [| [key value] rest IH]; [constructor|].
  cbn [MitmToMockoon.clean_items].
  destruct (MitmToMockoon.mem (Py.lower key) MitmToMockoon.exclude_headers)
    eqn:Hmem; cbn [negb]; [assumption|].
  constructor; [exact Hmem | assumption].
Qed.

Lemma clean_headers_excludes (recorded : Json.json)
      (headers : list MitmToMockoon.Header.t) :
  MitmToMockoon.clean_headers recorded = Ok headers ->
  forall header, In header headers ->
    ~ In (Py.lower (MitmToMockoon.Header.key header)) MitmToMockoon.exclude_headers.
Proof.
  destruct recorded; try discriminate. intros H header Hin Hex.
  injection H as <-.
  pose proof (clean_items_excludes m) as Hall.
  rewrite Forall_forall in Hall. specialize (Hall header Hin).
  apply mem_true_iff in Hex. congruence.
Qed.

(** C3, as the scripts have it. No header whose lower-cased name is one of
    [content-length], [transfer-encoding], [content-encoding],
    [connection], [keep-alive], [host] is in a response variant of a
    compiled route.  The fallback's copy loop leaves out three of them: it
    takes no field named [content-encoding], [transfer-encoding] or
    [content-length] (in any letter case) from Mockoon's reply, so the
    fields of these names are after the loop what they were before.  The
    other three are copied: when the hook replaces a response, every
    header of Mockoon's reply named [connection], [keep-alive] or [host]
    (in any letter case) is on the response the client sees, as the one
    field of its name, with the value of a reply header of that name. *)
Theorem connection_headers_filtered :
  (forall (ids : nat -> string) (input_file : list string) (name : string)
          (table : MitmToMockoon.Config.t),
      MitmToMockoon.convert_recordings_to_mockoon ids input_file name = Ok table ->
      forall route variant header,
        In route (MitmToMockoon.Config.routes table) ->
        In variant (MitmToMockoon.Route.responses route) ->
        In header (MitmToMockoon.Variant.headers variant) ->
        ~ In (Py.lower (MitmToMockoon.Header.key header))
             ["content-length"; "transfer-encoding"; "content-encoding";
              "connection"; "keep-alive"; "host"])
  /\ (forall (mock_headers : list (string * string)) (h : Headers.t)
             (name : string),
        In (Py.lower name)
           ["content-encoding"; "transfer-encoding"; "content-length"] ->
        Headers.get_all name (FallbackMock.copy_headers mock_headers h)
        = Headers.get_all name h)
  /\ (forall (mockoon : Requests.server) (flow : Flow.t)
             (reply : Requests.reply),
        In (Response.status_code (Flow.response flow))
           FallbackMock.FALLBACK_STATUS_CODES ->
        mockoon (FallbackMock.mock_call flow) = Some reply ->
        Requests.status_code reply <> 404%Z ->
        let seen := Flow.response (FallbackMock.response mockoon flow) in
        forall key value,
          In (key, value) (Requests.reply_headers reply) ->
          In (Py.lower key) ["connection"; "keep-alive"; "host"] ->
          exists key' value',
            In (key', value') (Requests.reply_headers reply)
            /\ Headers.same_name key' key = true
            /\ Headers.get_all key (Response.headers seen) = [value']).
Proof.
  split; [| split].
  - intros ids input_file name table Hconv route variant header Hr Hv Hh Hex.
    apply convert_ok in Hconv as [recordings [grouped [_ [_ Hall]]]].
    destruct (Forall2_from_right _ _ _ Hall route Hr)
      as [[key recs] [_ [m Hbuilt]]].
    destruct Hbuilt as (method & path & first & rest & response & body & status
                        & recorded & headers & _ & _ & _ & _ & _ & _ & Hclean & ->).
    cbn in Hv. destruct Hv as [<- | []]. cbn in Hh.
    apply (clean_headers_excludes _ _ Hclean header Hh).
    cbn in Hex |- *. tauto.
  - intros mock_headers h name Hname. now apply copy_headers_skips.
  - intros mockoon flow reply Hcode Hmock H404 seen key value Hin Hname.
    assert (Hskip : is_skipped key = false).
    { unfold is_skipped. cbn [In] in Hname.
      destruct Hname as [<- | [<- | [<- | []]]]; reflexivity. }
    assert (Htag : Headers.same_name "X-Fallback-Mock" key = false).
    { unfold Headers.same_name. cbn [In] in Hname.
      destruct Hname as [<- | [<- | [<- | []]]]; reflexivity. }
    destruct (last_copied_some key _ key value Hin Hskip) as [k' [v' [E [I S]]]].
    { unfold Headers.same_name. apply String.eqb_refl. }
    exists k', v'. split; [exact I|]. split; [exact S|].
    subst seen. unfold FallbackMock.response.
    rewrite (in_fallback_codes _ Hcode), Hmock. cbn [negb].
    apply Z.eqb_neq in H404. rewrite H404.
    cbn [Flow.response Flow.with_response Response.headers].
    rewrite (get_all_set_other _ _ _ _ Htag), copy_headers_get_all, E.
    reflexivity.
Qed.

(** ** Grouping *)

Lemma group_append_keys (key : string) (rec : Json.json)
      (grouped : Dict.t (list Json.json)) :
  (In key (map fst grouped)
   /\ map fst (MitmToMockoon.group_append key rec grouped) = map fst grouped)
  \/ (~ In key (map fst grouped)
      /\ map fst (MitmToMockoon.group_append key rec grouped)
         = (map fst grouped ++ [key])%list).
Proof.
  induction grouped as [| [k recs] rest IH]; cbn.
  - right. split; [tauto | reflexivity].
  - destruct (String.eqb_spec k key) as [-> | Hne]; cbn.
    + left. split; [now left | reflexivity].
    + destruct IH as [[Hin E] | [Hnot E]]; rewrite E.
      * left. split; [now right | reflexivity].
      * right. split; [| reflexivity]. intros [H | H]; [now apply Hne | now apply Hnot].
Qed.

Lemma group_append_entries (key : string) (rec : Json.json)
      (grouped : Dict.t (list Json.json)) :
  NoDup (map fst grouped) ->
  forall k recs',
    In (k, recs') (MitmToMockoon.group_append key rec grouped) ->
    (k <> key /\ In (k, recs') grouped)
    \/ (k = key /\ exists recs, In (k, recs) grouped /\ recs' = (recs ++ [rec])%list)
    \/ (k = key /\ ~ In key (map fst grouped) /\ recs' = [rec]).
Proof.
  induction grouped as [| [k0 r0] rest IH]; intros Hnd k recs' Hin; cbn in Hin.
  - destruct Hin as [Heq | []]. injection Heq as <- <-.
    right. right. repeat split. tauto.
  - inversion Hnd as [| ? ? Hfresh Hnd']; subst.
    destruct (String.eqb_spec k0 key) as [-> | Hne].
    + destruct Hin as [Heq | Hin].
      * injection Heq as <- <-. right. left. split; [reflexivity|].
        exists r0. split; [now left | reflexivity].
      * left. split; [| now right].
        intros ->. apply Hfresh. apply in_map_iff. now exists (key, recs').
    + destruct Hin as [Heq | Hin].
      * injection Heq as <- <-. left. split; [assumption | now left].
      * destruct (IH Hnd' k recs' Hin) as [[Hk H] | [[Hk [recs [H E]]] | [Hk [Hnot E]]]].
        -- left. split; [assumption | now right].
        -- right. left. split; [assumption|]. exists recs. split; [now right | assumption].
        -- right. right. repeat split; trivial.
           intros [H | H]; [now apply Hne | now apply Hnot].
Qed.

Lemma in_group_own_key (key : string) (rec : Json.json) :
  MitmToMockoon.group_key rec = Ok key -> in_group key rec = true.
Proof. unfold in_group. intros ->. apply String.eqb_refl. Qed.

Lemma in_group_other_key (key k : string) (rec : Json.json) :
  MitmToMockoon.group_key rec = Ok key -> k <> key -> in_group k rec = false.
Proof.
  unfold in_group. intros -> Hne. apply String.eqb_neq. congruence.
Qed.

Lemma filter_in_group_fresh (key : string) (seen : list Json.json)
      (keys : list string) :
  (forall rec, In rec seen ->
               exists k, MitmToMockoon.group_key rec = Ok k /\ In k keys) ->
  ~ In key keys ->
  filter (in_group key) seen = [].
Proof.
  intros Hseen Hnot. induction seen as [| r rs IH]; [reflexivity|].
  cbn. destruct (Hseen r (or_introl eq_refl)) as [k [Hk Hin]].
  assert (Hne : key <> k) by (intros ->; contradiction).
  rewrite (in_group_other_key _ _ _ Hk Hne).
  apply IH. intros r' Hr'. apply Hseen. now right.
Qed.

Lemma groups_of_append (seen : list Json.json) (grouped : Dict.t (list Json.json))
      (key : string) (rec : Json.json) :
  groups_of seen grouped ->
  MitmToMockoon.group_key rec = Ok key ->
  groups_of (seen ++ [rec]) (MitmToMockoon.group_append key rec grouped).
Proof.
  intros (Hnd & Hgroups & Hseen) Hkey. split; [| split].
  - destruct (group_append_keys key rec grouped) as [[_ E] | [Hnot E]]; rewrite E.
    + assumption.
    + apply NoDup_app; [assumption | repeat constructor; tauto |].
      intros x Hx [<- | []]. contradiction.
  - intros k recs' Hin.
    destruct (group_append_entries key rec grouped Hnd k recs' Hin)
      as [[Hk Hold] | [[-> [recs0 [Hold ->]]] | [-> [Hnot ->]]]];
      rewrite filter_app; cbn [filter].
    + rewrite (in_group_other_key _ _ _ Hkey Hk), app_nil_r.
      now apply Hgroups.
    + rewrite (in_group_own_key _ _ Hkey). split.
      * f_equal. now apply Hgroups.
      * now destruct recs0.
    + rewrite (in_group_own_key _ _ Hkey).
      rewrite (filter_in_group_fresh key seen (map fst grouped) Hseen Hnot).
      split; [reflexivity | discriminate].
  - intros r Hr. apply in_app_or in Hr.
    destruct (group_append_keys key rec grouped) as [[Hin E] | [Hnot E]]; rewrite E.
    + destruct Hr as [Hr | [<- | []]]; [now apply Hseen | now exists key].
    + destruct Hr as [Hr | [<- | []]].
      * destruct (Hseen r Hr) as [k [Hk Hin]]. exists k. split; [assumption|].
        apply in_or_app. now left.
      * exists key. split; [assumption|]. apply in_or_app. right. now left.
Qed.

Lemma group_recordings_groups (recordings : list Json.json) :
  forall seen grouped grouped',
    groups_of seen grouped ->
    MitmToMockoon.group_recordings recordings grouped = Ok grouped' ->
    groups_of (seen ++ recordings) grouped'.
Proof.
  induction recordings as [| rec rest IH]; intros seen grouped grouped' Hinv H.
  - injection H as <-. now rewrite app_nil_r.
  - cbn [MitmToMockoon.group_recordings] in H.
    apply bind_ok in H as [key [Hkey H]].
    replace (seen ++ rec :: rest)%list with ((seen ++ [rec]) ++ rest)%list
      by (rewrite <- app_assoc; reflexivity).
    apply (IH _ _ _ (groups_of_append _ _ _ _ Hinv Hkey) H).
Qed.

Lemma groups_of_empty : groups_of [] [].
Proof.
  split; [constructor | split]; intros; contradiction.
Qed.

(** [key.split(':', 1)] undoes the way the key was put together. *)
Lemma split1_joins (sep : ascii) (s a b : string) :
  Py.split1 sep s = [a; b] -> s = a ++ String sep b.
Proof.
  revert a. induction s as [| c r IH]; intros a H; cbn in H; [discriminate|].
  destruct (Ascii.eqb_spec c sep) as [-> | Hne].
  - injection H as <- <-. reflexivity.
  - destruct (Py.split1 sep r) as [| h [| h2 [| ? ?]]] eqn:E; try discriminate.
    injection H as <- <-. cbn. f_equal. now apply IH.
Qed.

Lemma built_route_for (ids : nat -> string) (n : nat) (key : string)
      (recs : list Json.json) (route : MitmToMockoon.Route.t) :
  built_from ids n key recs route -> route_for key recs route.
Proof.
  intros (method & path & first & rest & response & body & status & recorded
          & headers & Hsplit & -> & Hresponse & Hbody & Hstatus & Hrecorded
          & Hclean & ->).
  exists method, path, first, response, body, status, recorded, headers,
    (ids n), (ids (S n)).
  repeat split; assumption.
Qed.

(** C1, as the compiler has it. The route table has one route for each
    grouping key (the lower-cased method, a colon, the recorded path as it
    is) and no two groups share a key; a group holds every recording of its
    key in the order of the log, the route takes method and path from the
    key (cut at its first colon), body, status code and headers from the
    first recording of the group, and the label from the size of the
    group: up to its two identifiers the route is determined by the key
    and the first recording.
    Routes are not merged by endpoint template: the log of GET
    /api/v1/users/42 and GET /api/v1/users/17 gives two routes, both with
    endpoint [api/v1/users/:id] and a label of 1 similar recording, and a
    log with two recordings of /api/v1/users/42 gives one route with the
    body of the first and a label of 2 similar recordings. *)
Theorem one_route_per_recorded_path :
  (forall (ids : nat -> string) (input_file : list string) (name : string)
          (table : MitmToMockoon.Config.t),
      MitmToMockoon.convert_recordings_to_mockoon ids input_file name = Ok table ->
      exists recordings grouped,
        MitmToMockoon.read_recordings input_file = Ok recordings
        /\ MitmToMockoon.group_recordings recordings [] = Ok grouped
        /\ NoDup (map fst grouped)
        /\ (forall key recs, In (key, recs) grouped ->
                             recs = filter (in_group key) recordings /\ recs <> [])
        /\ (forall rec, In rec recordings ->
                        exists key, MitmToMockoon.group_key rec = Ok key
                                    /\ In key (map fst grouped))
        /\ Forall2 (fun group route => route_for (fst group) (snd group) route)
                   grouped (MitmToMockoon.Config.routes table))
  /\ (forall (ids : nat -> string) (name : string),
        summaries (MitmToMockoon.convert_recordings_to_mockoon ids
                     [Fixtures.users42; Fixtures.users17] name)
        = Some
            [("get", "api/v1/users/:id",
              [(Json.JStr (Json.dumps_indent 2 (Json.JObj [("id", Json.JInt 42)])),
                "Recorded response (1 similar)")]);
             ("get", "api/v1/users/:id",
              [(Json.JStr (Json.dumps_indent 2 (Json.JObj [("id", Json.JInt 17)])),
                "Recorded response (1 similar)")])])
  /\ (forall (ids : nat -> string) (name : string),
        summaries (MitmToMockoon.convert_recordings_to_mockoon ids
                     [Fixtures.users42; Fixtures.users42_again] name)
        = Some
            [("get", "api/v1/users/:id",
              [(Json.JStr (Json.dumps_indent 2 (Json.JObj [("id", Json.JInt 42)])),
                "Recorded response (2 similar)")])]).
Proof.
  split; [| split; intros ids name; vm_compute; reflexivity].
  intros ids input_file name table Hconv.
  pose proof Hconv as Hparts.
  apply convert_ok in Hparts as [recordings [grouped [Hread [Hgroup Hall]]]].
  destruct (group_recordings_groups recordings [] [] grouped groups_of_empty Hgroup)
    as (Hnd & Hgroups & Hseen).
  exists recordings, grouped. repeat split; trivial.
  - now apply Hgroups.
  - now apply (Hgroups key recs).
  - eapply Forall2_impl; [| exact Hall].
    intros [key recs] route [m Hbuilt]. now apply (built_route_for ids m).
Qed.

Lemma one_route_per_recorded_path_witness :
  exists table,
    MitmToMockoon.convert_recordings_to_mockoon Fixtures.ids0
      [Fixtures.users42; Fixtures.users17; Fixtures.users42_again]
      MitmToMockoon.default_name = Ok table
    /\ length (MitmToMockoon.Config.routes table) = 2
    /\ exists recordings grouped,
        MitmToMockoon.read_recordings
          [Fixtures.users42; Fixtures.users17; Fixtures.users42_again]
        = Ok recordings
        /\ MitmToMockoon.group_recordings recordings [] = Ok grouped
        /\ NoDup (map fst grouped)
        /\ (forall key recs, In (key, recs) grouped ->
                             recs = filter (in_group key) recordings /\ recs <> [])
        /\ (forall rec, In rec recordings ->
                        exists key, MitmToMockoon.group_key rec = Ok key
                                    /\ In key (map fst grouped))
        /\ Forall2 (fun group route => route_for (fst group) (snd group) route)
                   grouped (MitmToMockoon.Config.routes table).
Proof.
  eexists. split; [vm_compute; reflexivity|]. split; [reflexivity|].
  apply (proj1 one_route_per_recorded_path Fixtures.ids0
           [Fixtures.users42; Fixtures.users17; Fixtures.users42_again]
           MitmToMockoon.default_name).
  vm_compute. reflexivity.
Defined.

(** C1 as stated fails: the log of GET /api/v1/users/42 and GET
    /api/v1/users/17 compiles to two routes, and both have the method
    [get] and the endpoint [api/v1/users/:id]. *)
Lemma two_routes_share_a_template :
  exists table r1 r2,
    MitmToMockoon.convert_recordings_to_mockoon Fixtures.ids0
      [Fixtures.users42; Fixtures.users17] MitmToMockoon.default_name = Ok table
    /\ MitmToMockoon.Config.routes table = [r1; r2]
    /\ r1 <> r2
    /\ (MitmToMockoon.Route.method r1, MitmToMockoon.Route.endpoint r1)
       = (MitmToMockoon.Route.method r2, MitmToMockoon.Route.endpoint r2)
    /\ MitmToMockoon.Route.endpoint r1 = "api/v1/users/:id"
    /\ map MitmToMockoon.Variant.label (MitmToMockoon.Route.responses r1)
       = ["Recorded response (1 similar)"].
Proof.
  eexists. eexists. eexists.
  split; [vm_compute; reflexivity|].
  split; [reflexivity|].
  split; [discriminate|].
  repeat split.
Qed.

(** ** Reading the log *)

Lemma read_recordings_skips_blank (lines : list string) :
  MitmToMockoon.read_recordings lines
  = MitmToMockoon.read_recordings (filter is_read lines).
Proof.
  induction lines as [| line rest IH]; [reflexivity|].
  cbn [MitmToMockoon.read_recordings filter]. unfold is_read at 1.
  destruct (Py.truthy (Py.strip line)) eqn:Hread.
  - cbn [MitmToMockoon.read_recordings]. rewrite Hread, IH. reflexivity.
  - exact IH.
Qed.

Lemma read_recordings_aborts (lines : list string) (line : string) :
  In line lines ->
  is_read line = true ->
  Json.loads line = Raise JSONDecodeError ->
  MitmToMockoon.read_recordings lines = Raise JSONDecodeError.
Proof.
  intros Hin Hread Hbad. induction lines as [| l rest IH]; [contradiction|].
  cbn [MitmToMockoon.read_recordings].
  destruct (Py.truthy (Py.strip l)) eqn:Hl.
  - destruct (Json.loads l) as [rec | e] eqn:Hloads; cbn [bind].
    + destruct Hin as [-> | Hin]; [congruence|].
      now rewrite (IH Hin).
    + now rewrite (loads_raises_decode_error _ _ Hloads).
  - destruct Hin as [-> | Hin]; [unfold is_read in Hread; congruence|].
    now apply IH.
Qed.

(** C2, as the compiler has it. The reader skips blank lines and decodes
    every other line; when a line that is not blank fails to decode, the
    decode error leaves the compiler and no route table is produced,
    whatever the other lines hold. *)
Theorem malformed_line_aborts_the_batch :
  forall (ids : nat -> string) (input_file : list string) (name : string),
    MitmToMockoon.convert_recordings_to_mockoon ids input_file name
    = MitmToMockoon.convert_recordings_to_mockoon ids
        (filter is_read input_file) name
    /\ (forall line,
          In line input_file ->
          is_read line = true ->
          Json.loads line = Raise JSONDecodeError ->
          MitmToMockoon.convert_recordings_to_mockoon ids input_file name
          = Raise JSONDecodeError).
Proof.
  intros ids input_file name. unfold MitmToMockoon.convert_recordings_to_mockoon.
  split.
  - now rewrite <- read_recordings_skips_blank.
  - intros line Hin Hread Hbad.
    now rewrite (read_recordings_aborts _ _ Hin Hread Hbad).
Qed.

Lemma malformed_line_aborts_the_batch_witness :
  In Fixtures.broken_line
     [Fixtures.users42; " "; Fixtures.broken_line; Fixtures.users17]
  /\ is_read Fixtures.broken_line = true
  /\ Json.loads Fixtures.broken_line = Raise JSONDecodeError
  /\ MitmToMockoon.convert_recordings_to_mockoon Fixtures.ids0
       [Fixtures.users42; " "; Fixtures.broken_line; Fixtures.users17]
       MitmToMockoon.default_name
     = Raise JSONDecodeError.
Proof.
  assert (Hin : In Fixtures.broken_line
                   [Fixtures.users42; " "; Fixtures.broken_line; Fixtures.users17])
    by (right; right; left; reflexivity).
  split; [exact Hin|]. split; [reflexivity|]. split; [reflexivity|].
  exact (proj2 (malformed_line_aborts_the_batch Fixtures.ids0
                  [Fixtures.users42; " "; Fixtures.broken_line; Fixtures.users17]
                  MitmToMockoon.default_name)
               Fixtures.broken_line Hin eq_refl eq_refl).
Defined.

(** C2 as stated fails: with one malformed line between two well-formed
    ones the compiler raises and writes nothing, though the two
    well-formed lines alone compile to two routes. *)
Lemma malformed_line_is_not_skipped :
  Json.loads Fixtures.broken_line = Raise JSONDecodeError
  /\ MitmToMockoon.convert_recordings_to_mockoon Fixtures.ids0
       [Fixtures.users42; Fixtures.broken_line; Fixtures.users17]
       MitmToMockoon.default_name
     = Raise JSONDecodeError
  /\ exists table,
       MitmToMockoon.convert_recordings_to_mockoon Fixtures.ids0
         [Fixtures.users42; Fixtures.users17] MitmToMockoon.default_name
       = Ok table
       /\ length (MitmToMockoon.Config.routes table) = 2.
Proof.
  split; [reflexivity|]. split; [vm_compute; reflexivity|].
  eexists. split; [vm_compute; reflexivity | reflexivity].
Qed.

Lemma connection_headers_filtered_witness :
  exists table,
    MitmToMockoon.convert_recordings_to_mockoon Fixtures.ids0
      [Fixtures.users42] MitmToMockoon.default_name = Ok table
    /\ (forall route variant header,
          In route (MitmToMockoon.Config.routes table) ->
          In variant (MitmToMockoon.Route.responses route) ->
          In header (MitmToMockoon.Variant.headers variant) ->
          ~ In (Py.lower (MitmToMockoon.Header.key header))
               ["content-length"; "transfer-encoding"; "content-encoding";
                "connection"; "keep-alive"; "host"])
    /\ Headers.get_all "Transfer-Encoding"
         (FallbackMock.copy_headers
            [("Keep-Alive", "timeout=5"); ("Transfer-Encoding", "chunked")]
            [("Content-Type", "text/plain")])
       = []
    /\ exists key' value',
         In (key', value') [("Keep-Alive", "timeout=5")]
         /\ Headers.same_name key' "Keep-Alive" = true
         /\ Headers.get_all "Keep-Alive"
              (Response.headers
                 (Flow.response
                    (FallbackMock.response
                       (fun _ => Some (Requests.mk_reply 200 "OK" "[]"
                                         [("Keep-Alive", "timeout=5")]))
                       Fixtures.unavailable)))
            = [value'].
Proof.
  eexists. split; [vm_compute; reflexivity|]. split; [| split].
  - apply (proj1 connection_headers_filtered Fixtures.ids0 [Fixtures.users42]
             MitmToMockoon.default_name).
    vm_compute. reflexivity.
  - rewrite (proj1 (proj2 connection_headers_filtered)
               [("Keep-Alive", "timeout=5"); ("Transfer-Encoding", "chunked")]
               [("Content-Type", "text/plain")] "Transfer-Encoding").
    + reflexivity.
    + right. left. reflexivity.
  - apply (proj2 (proj2 connection_headers_filtered)
             (fun _ => Some (Requests.mk_reply 200 "OK" "[]"
                               [("Keep-Alive", "timeout=5")]))
             Fixtures.unavailable
             (Requests.mk_reply 200 "OK" "[]" [("Keep-Alive", "timeout=5")])
             ltac:(cbn; tauto) eq_refl ltac:(discriminate)
             "Keep-Alive" "timeout=5" ltac:(now left)
             ltac:(right; left; reflexivity)).
Defined.

(** C3 as stated fails on the fallback: [keep-alive] is one of the six
    names, and the response that replaces a 503 carries Mockoon's
    [Keep-Alive] header, which the original response did not have. *)
Lemma fallback_copies_keep_alive_header :
  let seen := Flow.response
                (FallbackMock.response Fixtures.mockoon_keep_alive
                                       Fixtures.unavailable) in
  In (Py.lower "Keep-Alive")
     ["content-length"; "transfer-encoding"; "content-encoding";
      "connection"; "keep-alive"; "host"]
  /\ Headers.get_all "Keep-Alive"
       (Response.headers (Flow.response Fixtures.unavailable)) = []
  /\ Headers.get "X-Fallback-Mock" "" (Response.headers seen) = "true"
  /\ In ("Keep-Alive", "timeout=5") (Response.headers seen).
Proof.
  vm_compute. repeat split.
  - do 4 right. left. reflexivity.
  - right. left. reflexivity.
Qed.

(** ** Merging *)

Section DictFacts.
Context {V : Type}.

Lemma dict_get_set_same (key : string) (value : V) (d : Dict.t V) :
  Dict.get key (Dict.set key value d) = Some value.
Proof.
  induction d as [| [k v] r IH]; cbn.
  - now rewrite String.eqb_refl.
  - destruct (String.eqb_spec k key) as [-> | Hne]; cbn.
    + now rewrite String.eqb_refl.
    + destruct (String.eqb_spec k key); [contradiction | exact IH].
Qed.

Lemma dict_get_set_other (key k' : string) (value : V) (d : Dict.t V) :
  k' <> key ->
  Dict.get key (Dict.set k' value d) = Dict.get key d.
Proof.
  intros Hne. induction d as [| [k v] r IH]; cbn.
  - destruct (String.eqb_spec k' key); [contradiction | reflexivity].
  - destruct (String.eqb_spec k k') as [-> | Hk]; cbn.
    + destruct (String.eqb_spec k' key); [contradiction | reflexivity].
    + destruct (String.eqb_spec k key); [reflexivity | exact IH].
Qed.

Lemma dict_mem_cons (key k : string) (v : V) (d : Dict.t V) :
  Dict.mem key ((k, v) :: d) = if String.eqb k key then true else Dict.mem key d.
Proof. unfold Dict.mem. cbn. now destruct (String.eqb k key). Qed.

(** A key that the update does not have keeps the value it had. *)
Lemma dict_update_keeps (extra : list (string * V)) :
  forall (real : Dict.t V) (key : string),
    Dict.mem key extra = false ->
    Dict.get key (Dict.update real extra) = Dict.get key real.
Proof.
  induction extra as [| [k v] rest IH]; intros real key Hmem; [reflexivity|].
  rewrite dict_mem_cons in Hmem.
  destruct (String.eqb_spec k key) as [-> | Hne]; [discriminate|].
  unfold Dict.update in *. cbn [fold_left fst snd].
  rewrite (IH _ _ Hmem). now apply dict_get_set_other.
Qed.

(** A key of the update takes a value of the update. *)
Lemma dict_update_overrides (extra : list (string * V)) :
  forall (real : Dict.t V) (key : string),
    Dict.mem key extra = true ->
    exists value,
      In (key, value) extra
      /\ Dict.get key (Dict.update real extra) = Some value.
Proof.
  induction extra as [| [k v] rest IH]; intros real key Hmem; [discriminate|].
  destruct (Dict.mem key rest) eqn:Hrest.
  - destruct (IH (Dict.set k v real) key Hrest) as [value [Hin Hget]].
    exists value. split; [now right | exact Hget].
  - rewrite dict_mem_cons, Hrest in Hmem.
    destruct (String.eqb_spec k key) as [-> | Hne]; [|discriminate].
    exists v. split; [now left|].
    unfold Dict.update in *. cbn [fold_left fst snd].
    pose proof (dict_update_keeps rest (Dict.set key v real) key Hrest) as H.
    unfold Dict.update in H. rewrite H. apply dict_get_set_same.
Qed.

End DictFacts.

Lemma enhance_sent_means_requested (mockoon : Requests.server) (flow : Flow.t) :
  EnhanceResponses.sent mockoon flow <> [] ->
  EnhanceResponses.run mockoon flow
  = match EnhanceResponses.enhance mockoon flow with
    | (sent, Ok flow') => (sent, flow')
    | (sent, Raise _) => (sent, flow)
    end.
Proof.
  unfold EnhanceResponses.sent, EnhanceResponses.run.
  destruct (negb (Response.status_code (Flow.response flow) =? 200)%Z);
    [intros H; now contradiction H|].
  destruct (negb _); [intros H; now contradiction H | reflexivity].
Qed.

(** C7. Take a flow whose real response has status 200 and a decodable
    body, whose request carries [X-Enhance-Response], and for which the
    hook fetches a supplemental value: it sends its call to Mockoon, the
    reply is not an error and decodes.  If both values are dictionaries the
    client sees the serialised shallow merge: a key of the supplemental
    value has a supplemental value, every other key keeps the real one.  If
    the real value is a list and the supplemental dictionary has [items],
    the client sees the real list followed by the items in their order
    (the order in which [extend] iterates over them: for a list of items,
    its elements). *)
Theorem enhancer_merges :
  forall (mockoon : Requests.server) (flow : Flow.t) (reply : Requests.reply)
         (real_data enhance_data : Json.json),
    Response.status_code (Flow.response flow) = 200%Z ->
    Headers.contains "X-Enhance-Response" (Request.headers (Flow.request flow))
    = true ->
    Json.loads (Response.content (Flow.response flow)) = Ok real_data ->
    In (EnhanceResponses.enhance_call flow) (EnhanceResponses.sent mockoon flow) ->
    mockoon (EnhanceResponses.enhance_call flow) = Some reply ->
    Requests.ok reply = true ->
    Json.loads (Requests.content reply) = Ok enhance_data ->
    let seen := Flow.response (EnhanceResponses.response mockoon flow) in
    (forall real extra,
        real_data = Json.JObj real ->
        enhance_data = Json.JObj extra ->
        Response.content seen = Json.dumps (Json.JObj (Dict.update real extra))
        /\ (forall key,
              Dict.mem key extra = true ->
              exists value,
                In (key, value) extra
                /\ Dict.get key (Dict.update real extra) = Some value)
        /\ (forall key,
              Dict.mem key extra = false ->
              Dict.get key (Dict.update real extra) = Dict.get key real))
    /\ (forall real extra items more,
          real_data = Json.JArr real ->
          enhance_data = Json.JObj extra ->
          Dict.get "items" extra = Some items ->
          Json.iterate items = Ok more ->
          Response.content seen = Json.dumps (Json.JArr (real ++ more)%list))
    /\ (forall items, Json.iterate (Json.JArr items) = Ok items).
Proof.
  intros mockoon flow reply real_data enhance_data Hstatus Hheader Hreal Hsent
         Hreply Hok Hextra seen.
  assert (Hrun : EnhanceResponses.run mockoon flow
                 = match EnhanceResponses.enhance mockoon flow with
                   | (sent, Ok flow') => (sent, flow')
                   | (sent, Raise _) => (sent, flow)
                   end).
  { apply enhance_sent_means_requested. intros E. now rewrite E in Hsent. }
  subst seen. unfold EnhanceResponses.response. rewrite Hrun.
  unfold EnhanceResponses.enhance.
  rewrite Hreal, Hreply, Hok, Hextra. cbn [bind].
  split.
  - intros real extra -> ->. cbn. split; [reflexivity|]. split.
    + intros key. apply dict_update_overrides.
    + intros key. apply dict_update_keeps.
  - split; [| reflexivity].
    intros real extra items more -> -> Hitems Hmore. cbn.
    unfold Dict.mem. rewrite Hitems. cbn. rewrite Hmore. reflexivity.
Qed.

Lemma enhancer_merges_witness :
  Response.content
    (Flow.response
       (EnhanceResponses.response Fixtures.profile_extra Fixtures.profile))
  = Json.dumps (Json.JObj [("name", Json.JStr "Ann"); ("plan", Json.JStr "gold");
                           ("beta", Json.JBool true)])
  /\ Response.content
       (Flow.response
          (EnhanceResponses.response Fixtures.orders_extra Fixtures.orders))
     = Json.dumps (Json.JArr [Json.JInt 1; Json.JInt 2; Json.JInt 3; Json.JInt 4]).
Proof.
  split.
  - refine (proj1 (proj1 (enhancer_merges Fixtures.profile_extra Fixtures.profile
                     (Requests.mk_reply 200 "OK"
                        (jsonl "{'plan': 'gold', 'beta': true}") [])
                     (Json.JObj [("name", Json.JStr "Ann"); ("plan", Json.JStr "free")])
                     (Json.JObj [("plan", Json.JStr "gold"); ("beta", Json.JBool true)])
                     eq_refl eq_refl eq_refl (or_introl eq_refl) eq_refl eq_refl eq_refl)
                  _ _ eq_refl eq_refl)).
  - refine (proj1 (proj2 (enhancer_merges Fixtures.orders_extra Fixtures.orders
                     (Requests.mk_reply 200 "OK" (jsonl "{'items': [3, 4]}") [])
                     (Json.JArr [Json.JInt 1; Json.JInt 2])
                     (Json.JObj [("items", Json.JArr [Json.JInt 3; Json.JInt 4])])
                     eq_refl eq_refl eq_refl (or_introl eq_refl) eq_refl eq_refl eq_refl))
                  _ _ _ _ eq_refl eq_refl eq_refl eq_refl).
Defined.

(* ================================================================== *)
(** * Further properties of the scripts *)

(** ** More on header fields *)

Lemma same_name_refl (a : string) : Headers.same_name a a = true.
Proof. unfold Headers.same_name. apply String.eqb_refl. Qed.

Lemma set_from_false_twice (key value : string) (h : Headers.t) :
  Headers.set_from key value false (Headers.set_from key value false h)
  = Headers.set_from key value false h.
Proof.
  induction h as [| [k v] r IH]; cbn; [reflexivity|].
  destruct (Headers.same_name k key) eqn:Hk; [exact IH|].
  cbn. rewrite Hk. now f_equal.
Qed.

Lemma set_from_true_after_false (key value : string) (h : Headers.t) :
  Headers.set_from key value false (Headers.set_from key value true h)
  = Headers.set_from key value false h.
Proof.
  induction h as [| [k v] r IH]; cbn.
  - now rewrite same_name_refl.
  - destruct (Headers.same_name k key) eqn:Hk; cbn; rewrite Hk.
    + apply set_from_false_twice.
    + now f_equal.
Qed.

Lemma set_twice (key value : string) (h : Headers.t) :
  Headers.set key value (Headers.set key value h) = Headers.set key value h.
Proof.
  unfold Headers.set. induction h as [| [k v] r IH]; cbn.
  - now rewrite same_name_refl.
  - destruct (Headers.same_name k key) eqn:Hk; cbn; rewrite Hk.
    + f_equal. apply set_from_false_twice.
    + now f_equal.
Qed.

Lemma get_set_other (name key value default : string) (h : Headers.t) :
  Headers.same_name key name = false ->
  Headers.get name default (Headers.set key value h) = Headers.get name default h.
Proof.
  intros H. unfold Headers.get. now rewrite get_all_set_other.
Qed.

Lemma contains_set_other (name key value : string) (h : Headers.t) :
  Headers.same_name key name = false ->
  Headers.contains name (Headers.set key value h) = Headers.contains name h.
Proof.
  intros H. unfold Headers.contains. now rewrite get_all_set_other.
Qed.

Lemma contains_set_same (name key value : string) (h : Headers.t) :
  Headers.same_name key name = true ->
  Headers.contains name (Headers.set key value h) = true.
Proof.
  intros H. unfold Headers.contains, Headers.set.
  now rewrite (get_all_set_from_same _ _ _ true h H).
Qed.

(** ** Pattern routing, continued *)

(** X1. A path is routed to Mockoon by its patterns exactly when no
    always-real pattern matches it and some mock pattern does: the
    always-real list is consulted first and wins over the mock list. *)
Theorem should_mock_iff :
  forall path : string,
    RouteToMockoon.should_mock path = true <->
    (forall p, In p RouteToMockoon.REAL_ENDPOINTS -> Re.matches false p path = false)
    /\ (exists p, In p RouteToMockoon.MOCK_ENDPOINTS
                  /\ Re.matches false p path = true).
Proof.
  intros path. unfold RouteToMockoon.should_mock.
  destruct (existsb (fun pattern => Re.matches false pattern path)
                    RouteToMockoon.REAL_ENDPOINTS) eqn:Hreal.
  - split; [discriminate|].
    intros [Hno _]. apply existsb_exists in Hreal as [p [Hin Hm]].
    rewrite (Hno p Hin) in Hm. discriminate.
  - destruct (existsb (fun pattern => Re.matches false pattern path)
                      RouteToMockoon.MOCK_ENDPOINTS) eqn:Hmock.
    + split; [intros _ | reflexivity]. split.
      * intros p Hin. destruct (Re.matches false p path) eqn:Hm; [|reflexivity].
        assert (existsb (fun pattern => Re.matches false pattern path)
                        RouteToMockoon.REAL_ENDPOINTS = true)
          by (apply existsb_exists; now exists p).
        congruence.
      * now apply existsb_exists in Hmock.
    + split; [discriminate|].
      intros [_ [p [Hin Hm]]].
      assert (existsb (fun pattern => Re.matches false pattern path)
                      RouteToMockoon.MOCK_ENDPOINTS = true)
        by (apply existsb_exists; now exists p).
      congruence.
Qed.

(** X2. A request whose [X-Force-Real] header reads [true], and whose
    [X-Force-Mock] header does not, is left as it is by the routing hook,
    also when its path matches a mock pattern. *)
Theorem force_real_wins_over_patterns :
  forall flow : Flow.t,
    RouteToMockoon.force_real flow = true ->
    RouteToMockoon.force_mock flow = false ->
    RouteToMockoon.routes_to_mockoon flow = false
    /\ RouteToMockoon.request flow = flow.
Proof.
  intros flow Hreal Hmock.
  assert (H : RouteToMockoon.routes_to_mockoon flow = false).
  { unfold RouteToMockoon.routes_to_mockoon. rewrite Hreal, Hmock.
    cbn. apply andb_false_r. }
  split; [exact H|]. unfold RouteToMockoon.request. now rewrite H.
Qed.

Lemma force_real_wins_over_patterns_witness :
  let flow := Flow.mk (Fixtures.a_request "/api/v1/users/42" []
                         [("x-force-real", "True")])
                      (Fixtures.a_response 200 "OK" "" []) in
  RouteToMockoon.should_mock (Request.path (Flow.request flow)) = true
  /\ RouteToMockoon.routes_to_mockoon flow = false
  /\ RouteToMockoon.request flow = flow.
Proof.
  split; [reflexivity|].
  apply (force_real_wins_over_patterns
           (Flow.mk (Fixtures.a_request "/api/v1/users/42" []
                       [("x-force-real", "True")])
                    (Fixtures.a_response 200 "OK" "" []))); reflexivity.
Defined.

(** X3. The routing hook never touches method, path, query, body or the
    response of a flow, and the only request header it assigns is
    [X-Mocked-By]: the fields of every name other than it and [Host]
    (which follows the target) stay as they were. *)
Theorem routing_keeps_the_request_content :
  forall flow : Flow.t,
    let after := RouteToMockoon.request flow in
    Request.method (Flow.request after) = Request.method (Flow.request flow)
    /\ Request.path (Flow.request after) = Request.path (Flow.request flow)
    /\ Request.query (Flow.request after) = Request.query (Flow.request flow)
    /\ Request.content (Flow.request after) = Request.content (Flow.request flow)
    /\ Flow.response after = Flow.response flow
    /\ (forall name,
          Headers.same_name "X-Mocked-By" name = false ->
          Headers.same_name "Host" name = false ->
          Headers.get_all name (Request.headers (Flow.request after))
          = Headers.get_all name (Request.headers (Flow.request flow))).
Proof.
  intros flow. unfold RouteToMockoon.request.
  destruct (RouteToMockoon.routes_to_mockoon flow); cbn; repeat split.
  intros name Hname _. now apply get_all_set_other.
Qed.

Lemma routing_reads_survive (flow : Flow.t) (r : Request.t) (value : string) :
  Request.path r = Request.path (Flow.request flow) ->
  Request.headers r
  = Headers.set "X-Mocked-By" value (Request.headers (Flow.request flow)) ->
  RouteToMockoon.routes_to_mockoon (Flow.with_request r flow)
  = RouteToMockoon.routes_to_mockoon flow.
Proof.
  intros Hpath Hheaders.
  unfold RouteToMockoon.routes_to_mockoon, RouteToMockoon.force_mock,
    RouteToMockoon.force_real.
  cbn [Flow.request Flow.with_request]. rewrite Hpath, Hheaders.
  now rewrite !get_set_other by reflexivity.
Qed.

(** X4. Running the routing hook a second time changes nothing: a
    request already sent to Mockoon is sent there again with the same
    target and a single [X-Mocked-By] field. *)
Theorem routing_is_idempotent :
  forall flow : Flow.t,
    RouteToMockoon.request (RouteToMockoon.request flow)
    = RouteToMockoon.request flow.
Proof.
  intros flow. unfold RouteToMockoon.request at 2.
  destruct (RouteToMockoon.routes_to_mockoon flow) eqn:Hr.
  - unfold RouteToMockoon.request.
    rewrite (routing_reads_survive flow _ "mitmproxy-mockoon") by reflexivity.
    rewrite Hr. cbn -[Headers.set]. now rewrite set_twice.
  - unfold RouteToMockoon.request. now rewrite Hr.
Qed.

(** X5. The two routing hooks together: the response of a request that
    the request hook sent to Mockoon is tagged [X-Mocked-Response: true]
    and keeps status and body; the response of a request that stayed real
    and came without [X-Mocked-By] is not touched. *)
Theorem routed_responses_are_tagged :
  forall flow : Flow.t,
    let after := RouteToMockoon.response (RouteToMockoon.request flow) in
    (RouteToMockoon.routes_to_mockoon flow = true ->
     Headers.get "X-Mocked-Response" "" (Response.headers (Flow.response after))
     = "true"
     /\ Response.status_code (Flow.response after)
        = Response.status_code (Flow.response flow)
     /\ Response.content (Flow.response after)
        = Response.content (Flow.response flow))
    /\ (RouteToMockoon.routes_to_mockoon flow = false ->
        Headers.contains "X-Mocked-By" (Request.headers (Flow.request flow))
        = false ->
        after = flow).
Proof.
  intros flow. unfold RouteToMockoon.request, RouteToMockoon.response. split.
  - intros Hr. rewrite Hr. cbn -[Headers.set Headers.contains Headers.get].
    rewrite contains_set_same by reflexivity.
    cbn -[Headers.set Headers.get].
    repeat split. now apply get_set_same.
  - intros Hr Hclient. now rewrite Hr, Hclient.
Qed.

Lemma routed_responses_are_tagged_witness :
  Headers.get "X-Mocked-Response" ""
    (Response.headers
       (Flow.response
          (RouteToMockoon.response (RouteToMockoon.request Fixtures.force_both))))
  = "true"
  /\ RouteToMockoon.response (RouteToMockoon.request Fixtures.force_mock_one)
     = Fixtures.force_mock_one.
Proof.
  split.
  - apply (proj1 (routed_responses_are_tagged Fixtures.force_both)). reflexivity.
  - apply (proj2 (routed_responses_are_tagged Fixtures.force_mock_one));
      reflexivity.
Defined.

(** ** The conditional engine, continued *)

Lemma query_pop_removes (key : string) (q : Query.t) :
  Query.contains key (Query.pop key q) = false.
Proof.
  unfold Query.contains, Query.pop.
  induction q as [| [k v] r IH]; cbn; [reflexivity|].
  destruct (String.eqb k key) eqn:Hk; cbn; [exact IH|].
  now rewrite Hk.
Qed.

Lemma query_pop_keeps (key other default : string) (q : Query.t) :
  other <> key ->
  Query.get other default (Query.pop key q) = Query.get other default q.
Proof.
  intros Hne. unfold Query.pop.
  induction q as [| [k v] r IH]; cbn; [reflexivity|].
  destruct (String.eqb_spec k key) as [-> | Hk]; cbn.
  - destruct (String.eqb_spec key other); [congruence | exact IH].
  - destruct (String.eqb k other); [reflexivity | exact IH].
Qed.

(** The value of [should_mock] after the [if]/[elif] chain. *)
Lemma decide_iff :
  forall flow : Flow.t,
    (fst (ConditionalMock.decide flow) = true <->
       (ConditionalMock.mock_mode flow = "mock"
        \/ ConditionalMock.mock_mode flow = "true")
       \/ (ConditionalMock.mock_mode flow <> "real"
           /\ ConditionalMock.mock_mode flow <> "false"
           /\ (ConditionalMock.has_mock_param flow = true
               \/ ConditionalMock.test_scenario flow <> "")))
    /\ (fst (ConditionalMock.decide flow) = false ->
        ConditionalMock.request flow = flow).
Proof.
  intros flow. unfold ConditionalMock.request, ConditionalMock.decide.
  destruct (String.eqb_spec (ConditionalMock.mock_mode flow) "mock") as [Hm | Hm];
    [cbn; split; [tauto | discriminate]|].
  destruct (String.eqb_spec (ConditionalMock.mock_mode flow) "true") as [Ht | Ht];
    [cbn; split; [tauto | discriminate]|].
  destruct (String.eqb_spec (ConditionalMock.mock_mode flow) "real") as [Hr | Hr];
    [cbn; split; [|reflexivity]; split; [discriminate | tauto]|].
  destruct (String.eqb_spec (ConditionalMock.mock_mode flow) "false") as [Hf | Hf];
    [cbn; split; [|reflexivity]; split; [discriminate | tauto]|].
  cbn [orb].
  destruct (ConditionalMock.has_mock_param flow) eqn:Hp;
    [cbn; split; [tauto | discriminate]|].
  destruct (ConditionalMock.test_scenario flow) eqn:Hs; cbn.
  - split; [|reflexivity]. split; [discriminate|].
    intros [[H | H] | [_ [_ [H | H]]]]; congruence.
  - split; [|discriminate]. split; [intros _ | reflexivity].
    right. repeat split; trivial. right. discriminate.
Qed.

Lemma decide_keeps (flow : Flow.t) :
  let kept := snd (ConditionalMock.decide flow) in
  Request.method (Flow.request kept) = Request.method (Flow.request flow)
  /\ Request.content (Flow.request kept) = Request.content (Flow.request flow)
  /\ Flow.response kept = Flow.response flow.
Proof.
  unfold ConditionalMock.decide.
  destruct (String.eqb (ConditionalMock.mock_mode flow) "mock"
            || String.eqb (ConditionalMock.mock_mode flow) "true")%bool;
    [cbn; tauto|].
  destruct (String.eqb (ConditionalMock.mock_mode flow) "real"
            || String.eqb (ConditionalMock.mock_mode flow) "false")%bool;
    [cbn; tauto|].
  destruct (ConditionalMock.has_mock_param flow); [cbn; tauto|].
  destruct (Py.truthy (ConditionalMock.test_scenario flow)); cbn; tauto.
Qed.

Lemma request_redirects (flow : Flow.t) :
  fst (ConditionalMock.decide flow) = true ->
  let after := ConditionalMock.request flow in
  Request.scheme (Flow.request after) = "http"
  /\ Request.host (Flow.request after) = ConditionalMock.MOCKOON_HOST
  /\ Request.port (Flow.request after) = ConditionalMock.MOCKOON_PORT
  /\ Headers.get "X-Mocked-By" "" (Request.headers (Flow.request after))
     = "mitmproxy-conditional"
  /\ Request.method (Flow.request after) = Request.method (Flow.request flow)
  /\ Request.content (Flow.request after) = Request.content (Flow.request flow)
  /\ Flow.response after = Flow.response flow.
Proof.
  intros Hmock. destruct (decide_keeps flow) as (Hmethod & Hcontent & Hresponse).
  unfold ConditionalMock.request.
  destruct (ConditionalMock.decide flow) as [should_mock kept].
  cbn [fst snd] in *. subst should_mock.
  destruct (Py.truthy (ConditionalMock.test_scenario flow));
    cbn -[Headers.set Headers.get]; repeat split; trivial;
    now apply get_set_same.
Qed.

(** X6. The conditional hook sends a request to Mockoon exactly when
    [X-Mock-Mode] reads [mock] or [true], or, [X-Mock-Mode] reading
    neither [real] nor [false], the mock query flag is truthy or an
    [X-Test-Scenario] header has a value: such a request leaves the hook
    pointed at [http://mockoon:3000] and tagged [X-Mocked-By:
    mitmproxy-conditional], with its method, body and response as they
    came.  Every other request is left as it is. *)
Theorem conditional_decision :
  forall flow : Flow.t,
    (fst (ConditionalMock.decide flow) = true <-> asks_for_mock flow)
    /\ (asks_for_mock flow ->
        let after := ConditionalMock.request flow in
        Request.scheme (Flow.request after) = "http"
        /\ Request.host (Flow.request after) = ConditionalMock.MOCKOON_HOST
        /\ Request.port (Flow.request after) = ConditionalMock.MOCKOON_PORT
        /\ Headers.get "X-Mocked-By" "" (Request.headers (Flow.request after))
           = "mitmproxy-conditional"
        /\ Request.method (Flow.request after) = Request.method (Flow.request flow)
        /\ Request.content (Flow.request after)
           = Request.content (Flow.request flow)
        /\ Flow.response after = Flow.response flow)
    /\ (~ asks_for_mock flow -> ConditionalMock.request flow = flow).
Proof.
  intros flow. destruct (decide_iff flow) as [Hiff Hreal].
  fold (asks_for_mock flow) in Hiff.
  split; [exact Hiff | split].
  - intros Hasks. apply request_redirects. now apply Hiff.
  - intros Hno. apply Hreal.
    destruct (fst (ConditionalMock.decide flow)); [| reflexivity].
    exfalso. apply Hno. now apply Hiff.
Qed.

Lemma conditional_decision_witness :
  Request.host
    (Flow.request
       (ConditionalMock.request
          (Flow.mk (Fixtures.a_request "/cart" [] [("X-Mock-Mode", "Mock")])
                   (Fixtures.a_response 200 "OK" "" []))))
  = "mockoon"
  /\ ConditionalMock.request Fixtures.force_mock_one = Fixtures.force_mock_one.
Proof.
  split.
  - destruct (proj1 (proj2 (conditional_decision
                              (Flow.mk (Fixtures.a_request "/cart" []
                                          [("X-Mock-Mode", "Mock")])
                                       (Fixtures.a_response 200 "OK" "" []))))
                (or_introl (or_introl eq_refl)))
      as (_ & Hhost & _).
    exact Hhost.
  - apply (proj2 (proj2 (conditional_decision Fixtures.force_mock_one))).
    intros [[H | H] | [_ [_ [H | H]]]]; try discriminate H.
    now apply H.
Defined.

(** X7. When the mock query flag is what sends a request to Mockoon
    ([X-Mock-Mode] reads none of its four values and the flag is truthy),
    the hook strips every [mock] parameter from the query, keeps the other
    parameters, and points the request at [http://mockoon:3000]. *)
Theorem query_flag_is_stripped :
  forall flow : Flow.t,
    ~ In (ConditionalMock.mock_mode flow) ["mock"; "true"; "real"; "false"] ->
    ConditionalMock.has_mock_param flow = true ->
    let after := Flow.request (ConditionalMock.request flow) in
    Query.contains "mock" (Request.query after) = false
    /\ (forall key default,
          key <> "mock" ->
          Query.get key default (Request.query after)
          = Query.get key default (Request.query (Flow.request flow)))
    /\ Request.scheme after = "http"
    /\ Request.host after = ConditionalMock.MOCKOON_HOST
    /\ Request.port after = ConditionalMock.MOCKOON_PORT.
Proof.
  intros flow Hmode Hparam.
  unfold ConditionalMock.request, ConditionalMock.decide.
  destruct (String.eqb_spec (ConditionalMock.mock_mode flow) "mock") as [H | _];
    [exfalso; apply Hmode; rewrite H; cbn; tauto|].
  destruct (String.eqb_spec (ConditionalMock.mock_mode flow) "true") as [H | _];
    [exfalso; apply Hmode; rewrite H; cbn; tauto|].
  destruct (String.eqb_spec (ConditionalMock.mock_mode flow) "real") as [H | _];
    [exfalso; apply Hmode; rewrite H; cbn; tauto|].
  destruct (String.eqb_spec (ConditionalMock.mock_mode flow) "false") as [H | _];
    [exfalso; apply Hmode; rewrite H; cbn; tauto|].
  cbn [orb]. rewrite Hparam.
  destruct (Py.truthy (ConditionalMock.test_scenario flow));
    cbn -[Query.pop Query.contains Query.get]; repeat split;
    try apply query_pop_removes; intros; now apply query_pop_keeps.
Qed.

Lemma query_flag_is_stripped_witness :
  let flow := Flow.mk (Fixtures.a_request "/cart"
                         [("mock", "1"); ("page", "2"); ("mock", "no")] [])
                      (Fixtures.a_response 200 "OK" "" []) in
  Request.query (Flow.request (ConditionalMock.request flow)) = [("page", "2")]
  /\ Query.contains "mock"
       (Request.query (Flow.request (ConditionalMock.request flow))) = false.
Proof.
  split; [reflexivity|].
  apply (query_flag_is_stripped
           (Flow.mk (Fixtures.a_request "/cart"
                       [("mock", "1"); ("page", "2"); ("mock", "no")] [])
                    (Fixtures.a_response 200 "OK" "" []))).
  - cbn. intros [H | [H | [H | [H | []]]]]; discriminate.
  - reflexivity.
Defined.

(** X8. When [X-Mock-Mode] reads [mock] or [true] the request goes to
    Mockoon with its query as it came: a [mock] parameter is stripped only
    when it is the parameter that triggers the mocking. *)
Theorem mock_mode_keeps_the_query :
  forall flow : Flow.t,
    ConditionalMock.mock_mode flow = "mock"
    \/ ConditionalMock.mock_mode flow = "true" ->
    let after := Flow.request (ConditionalMock.request flow) in
    Request.host after = ConditionalMock.MOCKOON_HOST
    /\ Request.port after = ConditionalMock.MOCKOON_PORT
    /\ Request.scheme after = "http"
    /\ Request.query after = Request.query (Flow.request flow)
    /\ Headers.get "X-Mocked-By" "" (Request.headers after)
       = "mitmproxy-conditional".
Proof.
  intros flow Hmode.
  unfold ConditionalMock.request, ConditionalMock.decide.
  replace (String.eqb (ConditionalMock.mock_mode flow) "mock"
           || String.eqb (ConditionalMock.mock_mode flow) "true")%bool with true
    by (destruct Hmode as [-> | ->]; reflexivity).
  destruct (Py.truthy (ConditionalMock.test_scenario flow));
    cbn -[Headers.set Headers.get]; repeat split; now apply get_set_same.
Qed.

Lemma mock_mode_keeps_the_query_witness :
  let flow := Flow.mk (Fixtures.a_request "/cart" [("mock", "true")]
                         [("X-Mock-Mode", "MOCK")])
                      (Fixtures.a_response 200 "OK" "" []) in
  Request.host (Flow.request (ConditionalMock.request flow)) = "mockoon"
  /\ Request.query (Flow.request (ConditionalMock.request flow))
     = [("mock", "true")].
Proof.
  pose proof (mock_mode_keeps_the_query
                (Flow.mk (Fixtures.a_request "/cart" [("mock", "true")]
                            [("X-Mock-Mode", "MOCK")])
                         (Fixtures.a_response 200 "OK" "" []))
                (or_introl eq_refl)) as H.
  split; [apply H | apply H].
Defined.

(** X9. The two conditional hooks together, for a request sent to
    Mockoon: a scenario named by [X-Test-Scenario] is forwarded as
    [X-Mockoon-Scenario], the response then reads [X-Mock-Mode: mocked],
    and a named scenario comes back as [X-Mock-Scenario]. *)
Theorem scenario_is_forwarded_and_echoed :
  forall flow : Flow.t,
    fst (ConditionalMock.decide flow) = true ->
    let sent := ConditionalMock.request flow in
    let seen := ConditionalMock.response sent in
    Headers.get "X-Mock-Mode" "" (Response.headers (Flow.response seen))
    = "mocked"
    /\ (ConditionalMock.test_scenario flow <> "" ->
        Headers.get "X-Mockoon-Scenario" "" (Request.headers (Flow.request sent))
        = ConditionalMock.test_scenario flow
        /\ Headers.get "X-Mock-Scenario" "" (Response.headers (Flow.response seen))
           = ConditionalMock.test_scenario flow).
Proof.
  intros flow Hdecide.
  unfold ConditionalMock.request.
  destruct (ConditionalMock.decide flow) as [should_mock flow'] eqn:Hd.
  cbn in Hdecide. subst should_mock.
  destruct (ConditionalMock.test_scenario flow) as [| c s] eqn:Hs.
  - cbn -[Headers.set Headers.get Headers.contains ConditionalMock.response].
    split; [| intros H; now contradiction H].
    unfold ConditionalMock.response.
    cbn -[Headers.set Headers.get Headers.contains].
    rewrite contains_set_same by reflexivity.
    cbn -[Headers.set Headers.get Headers.contains].
    destruct (Py.truthy _); cbn -[Headers.set Headers.get].
    + rewrite get_set_other by reflexivity. now apply get_set_same.
    + now apply get_set_same.
  - cbn -[Headers.set Headers.get Headers.contains ConditionalMock.response].
    unfold ConditionalMock.response.
    cbn -[Headers.set Headers.get Headers.contains].
    rewrite contains_set_same by reflexivity.
    cbn -[Headers.set Headers.get Headers.contains].
    rewrite (get_set_other "X-Mockoon-Scenario" "X-Mocked-By") by reflexivity.
    rewrite (get_set_same "X-Mockoon-Scenario" "X-Mockoon-Scenario")
      by reflexivity.
    cbn -[Headers.set Headers.get]. split.
    + rewrite get_set_other by reflexivity. now apply get_set_same.
    + intros _. split; [reflexivity | now apply get_set_same].
Qed.

Lemma scenario_is_forwarded_and_echoed_witness :
  let flow := Flow.mk (Fixtures.a_request "/cart" []
                         [("X-Test-Scenario", "empty-cart")])
                      (Fixtures.a_response 200 "OK" "" []) in
  Headers.get "X-Mock-Mode" ""
    (Response.headers
       (Flow.response (ConditionalMock.response (ConditionalMock.request flow))))
  = "mocked".
Proof.
  apply (scenario_is_forwarded_and_echoed
           (Flow.mk (Fixtures.a_request "/cart" []
                       [("X-Test-Scenario", "empty-cart")])
                    (Fixtures.a_response 200 "OK" "" []))).
  reflexivity.
Defined.

(** X10. The conditional response hook always leaves exactly one
    [X-Mock-Mode] field on the response: [mocked] when the request carries
    [X-Mocked-By], [real] when it does not; status and body are kept. *)
Theorem response_mode_is_reported :
  forall flow : Flow.t,
    let seen := Flow.response (ConditionalMock.response flow) in
    Headers.get_all "X-Mock-Mode" (Response.headers seen)
    = [if Headers.contains "X-Mocked-By" (Request.headers (Flow.request flow))
       then "mocked" else "real"]
    /\ Response.status_code seen = Response.status_code (Flow.response flow)
    /\ Response.content seen = Response.content (Flow.response flow).
Proof.
  intros flow. unfold ConditionalMock.response.
  destruct (Headers.contains "X-Mocked-By" _);
    cbn -[Headers.set Headers.get Headers.get_all].
  - destruct (Py.truthy _); cbn -[Headers.set Headers.get_all]; repeat split.
    + rewrite get_all_set_other by reflexivity.
      apply (get_all_set_from_same _ _ _ true). reflexivity.
    + apply (get_all_set_from_same _ _ _ true). reflexivity.
  - repeat split. apply (get_all_set_from_same _ _ _ true). reflexivity.
Qed.

(** ** Fallback, continued *)

(** X11. The fallback hook never touches the request, and it changes the
    response only for a status of the fallback set to which Mockoon gave a
    reply other than 404: a response with any other status passes
    through whatever Mockoon would say. *)
Theorem fallback_only_on_server_errors :
  forall (mockoon : Requests.server) (flow : Flow.t),
    Flow.request (FallbackMock.response mockoon flow) = Flow.request flow
    /\ (~ In (Response.status_code (Flow.response flow))
             FallbackMock.FALLBACK_STATUS_CODES ->
        FallbackMock.response mockoon flow = flow)
    /\ (FallbackMock.response mockoon flow <> flow ->
        In (Response.status_code (Flow.response flow))
           FallbackMock.FALLBACK_STATUS_CODES
        /\ exists reply,
            mockoon (FallbackMock.mock_call flow) = Some reply
            /\ Requests.status_code reply <> 404%Z).
Proof.
  intros mockoon flow. unfold FallbackMock.response.
  assert (Hkept : Flow.request flow = Flow.request flow
                  /\ (~ In (Response.status_code (Flow.response flow))
                           FallbackMock.FALLBACK_STATUS_CODES -> flow = flow)
                  /\ (flow <> flow ->
                      In (Response.status_code (Flow.response flow))
                         FallbackMock.FALLBACK_STATUS_CODES
                      /\ exists reply,
                          mockoon (FallbackMock.mock_call flow) = Some reply
                          /\ Requests.status_code reply <> 404%Z)).
  { split; [reflexivity | split; [reflexivity |]].
    intros Hne. now contradiction Hne. }
  destruct (existsb (Z.eqb (Response.status_code (Flow.response flow)))
                    FallbackMock.FALLBACK_STATUS_CODES) eqn:Hcode; cbn [negb];
    [| exact Hkept].
  apply existsb_exists in Hcode as [code [Hin Heq]].
  apply Z.eqb_eq in Heq. subst code.
  destruct (mockoon (FallbackMock.mock_call flow)) as [reply |] eqn:Hreply;
    [| exact Hkept].
  destruct (Z.eqb_spec (Requests.status_code reply) 404) as [H404 | H404];
    [exact Hkept |].
  split; [reflexivity | split].
  - intros Hnot. contradiction.
  - intros _. split; [exact Hin |]. exists reply. now split.
Qed.

Lemma fallback_only_on_server_errors_witness :
  let flow := Flow.mk (Fixtures.a_request "/api/v1/orders" [] [])
                      (Fixtures.a_response 404 "Not Found" "" []) in
  FallbackMock.response Fixtures.mockoon_ok flow = flow.
Proof.
  apply (proj1 (proj2 (fallback_only_on_server_errors Fixtures.mockoon_ok
                         (Flow.mk (Fixtures.a_request "/api/v1/orders" [] [])
                                  (Fixtures.a_response 404 "Not Found" "" []))))).
  cbn. intros [H | [H | [H | [H | []]]]]; discriminate.
Defined.

Lemma names_from_fresh (h : Headers.t) :
  forall seen,
    NoDup (Headers.names_from seen h)
    /\ (forall k, In k (Headers.names_from seen h) -> ~ In (Py.lower k) seen).
Proof.
  induction h as [| [k v] r IH]; intros seen; cbn.
  - split; [constructor | intros k []].
  - destruct (existsb (String.eqb (Py.lower k)) seen) eqn:Hseen; [apply IH|].
    destruct (IH (Py.lower k :: seen)) as [Hnd Hfresh]. split.
    + constructor; [| exact Hnd].
      intros Hin. apply (Hfresh k Hin). now left.
    + intros k' [<- | Hin].
      * intros Hk.
        assert (Hex : existsb (String.eqb (Py.lower k)) seen = true).
        { apply existsb_exists. exists (Py.lower k). split; [assumption|].
          apply String.eqb_refl. }
        congruence.
      * intros Hk. apply (Hfresh k' Hin). now right.
Qed.

Lemma dict_get_of_map {V : Type} (f : string -> V) (names : list string)
      (name : string) :
  Dict.get name (map (fun k => (k, f k)) names)
  = if existsb (String.eqb name) names then Some (f name) else None.
Proof.
  induction names as [| k r IH]; cbn; [reflexivity|].
  rewrite (String.eqb_sym name k).
  destruct (String.eqb_spec k name) as [-> | Hne]; [reflexivity | exact IH].
Qed.

Lemma dict_get_remove_same {V : Type} (key : string) (d : Dict.t V) :
  NoDup (map fst d) -> Dict.get key (Dict.remove key d) = None.
Proof.
  induction d as [| [k v] r IH]; intros Hnd; cbn; [reflexivity|].
  inversion Hnd as [| ? ? Hfresh Hnd']; subst.
  destruct (String.eqb_spec k key) as [-> | Hne].
  - clear IH Hnd Hnd'. induction r as [| [k' v'] r' IH']; cbn; [reflexivity|].
    destruct (String.eqb_spec k' key) as [-> | Hne'].
    + exfalso. apply Hfresh. now left.
    + apply IH'. intros H. apply Hfresh. now right.
  - cbn. destruct (String.eqb_spec k key); [contradiction | now apply IH].
Qed.

Lemma dict_get_remove_other {V : Type} (key other : string) (d : Dict.t V) :
  other <> key -> Dict.get other (Dict.remove key d) = Dict.get other d.
Proof.
  intros Hne. induction d as [| [k v] r IH]; cbn; [reflexivity|].
  destruct (String.eqb_spec k key) as [-> | Hk]; cbn.
  - destruct (String.eqb_spec key other); [congruence | reflexivity].
  - destruct (String.eqb k other); [reflexivity | exact IH].
Qed.

(** X12. The call the fallback sends to Mockoon has the method and the
    body of the request and no header spelled [Host]; every other header
    name of the request (in its first spelling) is forwarded with the
    folded value of its fields. *)
Theorem fallback_call_drops_host :
  forall flow : Flow.t,
    let call := FallbackMock.mock_call flow in
    let sent := Request.headers (Flow.request flow) in
    Requests.method call = Request.method (Flow.request flow)
    /\ Requests.data call = Request.content (Flow.request flow)
    /\ Dict.get "Host" (Requests.headers call) = None
    /\ (forall name,
          name <> "Host" ->
          In name (Headers.names_from [] sent) ->
          Dict.get name (Requests.headers call)
          = Some (Headers.get name "" sent)).
Proof.
  intros flow. unfold FallbackMock.mock_call. cbn. repeat split.
  - apply dict_get_remove_same. unfold Headers.to_dict.
    rewrite map_map. cbn. rewrite map_id. apply names_from_fresh.
  - intros name Hne Hin. rewrite dict_get_remove_other by congruence.
    unfold Headers.to_dict. rewrite dict_get_of_map.
    replace (existsb (String.eqb name) _) with true; [reflexivity|].
    symmetry. apply existsb_exists. exists name. split; [assumption|].
    apply String.eqb_refl.
Qed.

Lemma fallback_call_drops_host_witness :
  let flow := Flow.mk (Fixtures.a_request "/api/v1/orders" []
                         [("Host", "api.test"); ("Accept", "a"); ("accept", "b")])
                      (Fixtures.a_response 502 "Bad Gateway" "" []) in
  Requests.headers (FallbackMock.mock_call flow) = [("Accept", "a, b")]
  /\ Dict.get "Accept" (Requests.headers (FallbackMock.mock_call flow))
     = Some "a, b".
Proof.
  split; [reflexivity|].
  apply (fallback_call_drops_host
           (Flow.mk (Fixtures.a_request "/api/v1/orders" []
                       [("Host", "api.test"); ("Accept", "a"); ("accept", "b")])
                    (Fixtures.a_response 502 "Bad Gateway" "" []))).
  - discriminate.
  - cbn. right. left. reflexivity.
Defined.

(** ** Enhancing, continued *)

Lemma merge_outcome (real_data enhance_data : Json.json) (flow flow' : Flow.t) :
  EnhanceResponses.merge real_data enhance_data flow = Ok flow' ->
  flow' = flow
  \/ exists body, flow' = EnhanceResponses.enhanced_with body flow.
Proof.
  unfold EnhanceResponses.merge.
  destruct real_data; try (intros H; injection H as <-; now left).
  - destruct (EnhanceResponses.contains "items" enhance_data) as [[|] | e];
      cbn [bind]; try discriminate.
    + destruct (Json.getitem enhance_data "items") as [items | e];
        cbn [bind]; [|discriminate].
      destruct (Json.iterate items) as [more | e]; cbn [bind]; [|discriminate].
      intros H. injection H as <-. right. eauto.
    + intros H. injection H as <-. now left.
  - destruct enhance_data; intros H; injection H as <-; try now left.
    right. eauto.
Qed.

Lemma run_outcome (mockoon : Requests.server) (flow : Flow.t) :
  EnhanceResponses.response mockoon flow = flow
  \/ exists body,
      EnhanceResponses.response mockoon flow
      = EnhanceResponses.enhanced_with body flow.
Proof.
  unfold EnhanceResponses.response, EnhanceResponses.run.
  destruct (negb (Response.status_code (Flow.response flow) =? 200)%Z);
    [now left|].
  destruct (negb _); [now left|].
  unfold EnhanceResponses.enhance.
  destruct (Json.loads (Response.content (Flow.response flow)))
    as [real_data | e]; [| now left].
  destruct (mockoon (EnhanceResponses.enhance_call flow)) as [reply |];
    [| now left].
  destruct (Requests.ok reply); [| now left].
  destruct (Json.loads (Requests.content reply)) as [enhance_data | e];
    cbn [bind]; [| now left].
  destruct (EnhanceResponses.merge real_data enhance_data flow) as [flow' | e]
    eqn:Hmerge; [| now left].
  cbn [snd]. now apply (merge_outcome real_data enhance_data).
Qed.

(** X13. Whatever Mockoon does, the enhancer returns either the flow
    untouched or the flow with a new body and [X-Enhanced: true]; it
    never changes the request, the status or the reason, so a failure of
    the enhancement never reaches the client. *)
Theorem enhancer_fails_safe :
  forall (mockoon : Requests.server) (flow : Flow.t),
    let after := EnhanceResponses.response mockoon flow in
    Flow.request after = Flow.request flow
    /\ Response.status_code (Flow.response after)
       = Response.status_code (Flow.response flow)
    /\ Response.reason (Flow.response after) = Response.reason (Flow.response flow)
    /\ (after = flow
        \/ Headers.get "X-Enhanced" "" (Response.headers (Flow.response after))
           = "true").
Proof.
  intros mockoon flow.
  destruct (run_outcome mockoon flow) as [E | [body E]]; cbn zeta; rewrite E.
  - repeat split. now left.
  - unfold EnhanceResponses.enhanced_with. cbn -[Headers.set Headers.get].
    repeat split. right. now apply get_set_same.
Qed.

(** X14. The enhancer leaves the flow untouched when the status is not
    200, when the real body does not decode, when the call to Mockoon
    raises, when Mockoon's reply is an error, and when the supplemental
    text does not decode. *)
Theorem enhancer_keeps_flow_on_failure :
  forall (mockoon : Requests.server) (flow : Flow.t),
    Response.status_code (Flow.response flow) <> 200%Z
    \/ (exists e, Json.loads (Response.content (Flow.response flow)) = Raise e)
    \/ mockoon (EnhanceResponses.enhance_call flow) = None
    \/ (exists reply,
          mockoon (EnhanceResponses.enhance_call flow) = Some reply
          /\ (Requests.ok reply = false
              \/ exists e, Json.loads (Requests.content reply) = Raise e)) ->
    EnhanceResponses.response mockoon flow = flow.
Proof.
  intros mockoon flow H.
  unfold EnhanceResponses.response, EnhanceResponses.run.
  destruct (Z.eqb_spec (Response.status_code (Flow.response flow)) 200)
    as [H200 | H200]; cbn [negb]; [| reflexivity].
  destruct (negb _); [reflexivity|].
  unfold EnhanceResponses.enhance.
  destruct (Json.loads (Response.content (Flow.response flow)))
    as [real_data | e0] eqn:Hreal; [| reflexivity].
  destruct H as [H | [[e H] | [H | [reply [Hreply [H | [e H]]]]]]].
  - contradiction.
  - discriminate.
  - now rewrite H.
  - now rewrite Hreply, H.
  - rewrite Hreply, H. now destruct (Requests.ok reply).
Qed.

Lemma enhancer_keeps_flow_on_failure_witness :
  EnhanceResponses.response Fixtures.mockoon_404 Fixtures.profile
  = Fixtures.profile
  /\ EnhanceResponses.response Fixtures.mockoon_down Fixtures.orders
     = Fixtures.orders.
Proof.
  split.
  - apply (enhancer_keeps_flow_on_failure Fixtures.mockoon_404 Fixtures.profile).
    right. right. right. eexists. split; [reflexivity|]. left. reflexivity.
  - apply (enhancer_keeps_flow_on_failure Fixtures.mockoon_down Fixtures.orders).
    right. right. left. reflexivity.
Defined.

(** X15. The enhancer sends at most one call, a GET of
    [/enhance?path=<path>] with the path in [X-Original-Path], and it
    sends it exactly when the status is 200, [X-Enhance-Response] reads
    [true] in any letter case, and the real body decodes. *)
Theorem enhancer_calls_once :
  forall (mockoon : Requests.server) (flow : Flow.t),
    (EnhanceResponses.sent mockoon flow = []
     \/ EnhanceResponses.sent mockoon flow = [EnhanceResponses.enhance_call flow])
    /\ (EnhanceResponses.sent mockoon flow <> [] <->
        Response.status_code (Flow.response flow) = 200%Z
        /\ Py.lower (Headers.get "X-Enhance-Response" ""
                                 (Request.headers (Flow.request flow))) = "true"
        /\ exists real_data,
            Json.loads (Response.content (Flow.response flow)) = Ok real_data)
    /\ Requests.url (EnhanceResponses.enhance_call flow)
       = "http://mockoon:3000/enhance?path=" ++ Request.path (Flow.request flow).
Proof.
  intros mockoon flow. unfold EnhanceResponses.sent, EnhanceResponses.run.
  destruct (Z.eqb_spec (Response.status_code (Flow.response flow)) 200)
    as [H200 | H200]; cbn [negb fst].
  - destruct (String.eqb_spec
                (Py.lower (Headers.get "X-Enhance-Response" ""
                                       (Request.headers (Flow.request flow))))
                "true") as [Htrue | Htrue]; cbn [negb fst].
    + unfold EnhanceResponses.enhance.
      destruct (Json.loads (Response.content (Flow.response flow)))
        as [real_data | e].
      * destruct (mockoon _) as [reply |]; [destruct (Requests.ok reply);
          [destruct (bind _ _) |] |];
          (split; [now right | split; [| reflexivity]];
           split; [intros _; repeat split; eauto | discriminate]).
      * split; [now left | split; [| reflexivity]].
        split; [intros H; now contradiction H | intros [_ [_ [v H]]]; discriminate].
    + split; [now left | split; [| reflexivity]].
      split; [intros H; now contradiction H | intros [_ [H _]]; contradiction].
  - split; [now left | split; [| reflexivity]].
    split; [intros H; now contradiction H | intros [H _]; contradiction].
Qed.

(** ** The domain redirect *)

(** X16. The redirect hook passes every other request through: a host
    that is not the emulator alias and contains no target domain leaves
    the flow untouched.  A host that contains a target domain is sent to
    [http://localhost:3001] with method, path, query and body kept, tagged
    [X-Mitmproxy-Intercepted: true] and [X-Original-Host: <host>].  The
    emulator alias [10.0.2.2] becomes [localhost], with scheme, port,
    path, query and body as they came. *)
Theorem redirect_passes_or_intercepts :
  forall (host : string) (flow : Flow.t),
    (host <> "10.0.2.2" -> Redirect.is_target host = false ->
     Redirect.request host flow = flow)
    /\ (Redirect.is_target host = true ->
        let after := Flow.request (Redirect.request host flow) in
        Request.scheme after = "http"
        /\ Request.host after = "localhost"
        /\ Request.port after = 3001%Z
        /\ Request.method after = Request.method (Flow.request flow)
        /\ Request.path after = Request.path (Flow.request flow)
        /\ Request.query after = Request.query (Flow.request flow)
        /\ Request.content after = Request.content (Flow.request flow)
        /\ Headers.get "X-Original-Host" "" (Request.headers after) = host
        /\ Headers.get "X-Mitmproxy-Intercepted" "" (Request.headers after)
           = "true")
    /\ (let after := Flow.request (Redirect.request "10.0.2.2" flow) in
        Request.host after = "localhost"
        /\ Request.scheme after = Request.scheme (Flow.request flow)
        /\ Request.port after = Request.port (Flow.request flow)
        /\ Request.path after = Request.path (Flow.request flow)
        /\ Request.query after = Request.query (Flow.request flow)
        /\ Request.content after = Request.content (Flow.request flow)).
Proof.
  intros host flow. split; [| split; [| cbn; repeat split]];
    unfold Redirect.request.
  - intros Hhost Htarget. rewrite Htarget.
    destruct (String.eqb_spec host "10.0.2.2"); [contradiction | reflexivity].
  - intros Htarget. rewrite Htarget.
    destruct (String.eqb host "10.0.2.2");
      cbn -[Headers.set Headers.get]; repeat split;
      try (now apply get_set_same);
      (rewrite get_set_other by reflexivity; now apply get_set_same).
Qed.

Lemma redirect_passes_or_intercepts_witness :
  Redirect.request "api.test" Fixtures.bad_gateway = Fixtures.bad_gateway
  /\ Request.host
       (Flow.request
          (Redirect.request "jsonplaceholder.typicode.com:443" Fixtures.bad_gateway))
     = "localhost".
Proof.
  split.
  - apply (proj1 (redirect_passes_or_intercepts "api.test" Fixtures.bad_gateway));
      [discriminate | reflexivity].
  - apply (proj1 (proj2 (redirect_passes_or_intercepts
                           "jsonplaceholder.typicode.com:443"
                           Fixtures.bad_gateway))).
    reflexivity.
Defined.

(** ** Endpoint templates *)

Lemma split_cons (sep c : ascii) (s : string) :
  Py.split sep (String c s)
  = if Ascii.eqb c sep then EmptyString :: Py.split sep s
    else match Py.split sep s with
         | h :: t => String c h :: t
         | [] => [String c EmptyString]
         end.
Proof. reflexivity. Qed.

Lemma split_not_nil (sep : ascii) (s : string) : Py.split sep s <> [].
Proof.
  induction s as [| c r IH]; [discriminate|].
  rewrite split_cons. destruct (Ascii.eqb c sep); [discriminate|].
  destruct (Py.split sep r); [contradiction | discriminate].
Qed.

(** No part of a split holds the separator. *)
Lemma split_parts_clean (sep : ascii) (s : string) :
  Forall (fun part => Py.contains_char sep part = false) (Py.split sep s).
Proof.
  induction s as [| c r IH]; [repeat constructor|].
  rewrite split_cons. destruct (Ascii.eqb c sep) eqn:Hc.
  - constructor; [reflexivity | exact IH].
  - destruct (Py.split sep r) as [| h t]; [repeat constructor; cbn; now rewrite Hc|].
    inversion IH as [| ? ? Hh Ht]; subst.
    constructor; [cbn; now rewrite Hc | exact Ht].
Qed.

Lemma split_clean (sep : ascii) (s : string) :
  Py.contains_char sep s = false -> Py.split sep s = [s].
Proof.
  induction s as [| c r IH]; [reflexivity|].
  cbn [Py.contains_char]. intros H. apply orb_false_elim in H as [Hc Hr].
  rewrite split_cons, Hc, (IH Hr). reflexivity.
Qed.

Lemma split_app_sep (sep : ascii) (p r : string) :
  Py.contains_char sep p = false ->
  Py.split sep (p ++ String sep r) = p :: Py.split sep r.
Proof.
  induction p as [| c p' IH]; intros H.
  - cbn [append]. rewrite split_cons, Ascii.eqb_refl. reflexivity.
  - cbn [Py.contains_char] in H. apply orb_false_elim in H as [Hc Hp].
    cbn [append]. rewrite split_cons, Hc, (IH Hp). reflexivity.
Qed.

(** Splitting undoes joining, for parts without the separator. *)
Lemma split_join (sep : ascii) (parts : list string) :
  parts <> [] ->
  Forall (fun part => Py.contains_char sep part = false) parts ->
  Py.split sep (Py.join (String sep EmptyString) parts) = parts.
Proof.
  induction parts as [| p rest IH]; intros Hne Hclean; [contradiction|].
  inversion Hclean as [| ? ? Hp Hrest]; subst.
  destruct rest as [| q rest'].
  - cbn. now apply split_clean.
  - change (Py.join (String sep EmptyString) (p :: q :: rest'))
      with (p ++ String sep (Py.join (String sep EmptyString) (q :: rest'))).
    rewrite (split_app_sep _ _ _ Hp). f_equal. apply IH; [discriminate | exact Hrest].
Qed.

(** Joining undoes splitting. *)
Lemma join_split (sep : ascii) (s : string) :
  Py.join (String sep EmptyString) (Py.split sep s) = s.
Proof.
  induction s as [| c r IH]; [reflexivity|].
  rewrite split_cons. destruct (Ascii.eqb_spec c sep) as [-> | Hne].
  - pose proof (split_not_nil sep r) as Hnil.
    destruct (Py.split sep r) as [| h t] eqn:E; [contradiction|].
    change (Py.join (String sep EmptyString) (EmptyString :: h :: t))
      with (String sep (Py.join (String sep EmptyString) (h :: t))).
    now rewrite IH.
  - pose proof (split_not_nil sep r) as Hnil.
    destruct (Py.split sep r) as [| h t] eqn:E; [contradiction|].
    destruct t as [| h2 t2].
    + cbn in IH |- *. now rewrite IH.
    + change (Py.join (String sep EmptyString) (String c h :: h2 :: t2))
        with (String c (h ++ String sep (Py.join (String sep EmptyString) (h2 :: t2)))).
      f_equal. exact IH.
Qed.

Lemma looks_like_id_nonempty (part : string) :
  MitmToMockoon.looks_like_id part = true -> Py.truthy part = true.
Proof. destruct part; [discriminate | reflexivity]. Qed.

Lemma endpoint_parts_plain (parts : list string) :
  Forall (fun part => Py.contains_char "/" part = false) parts ->
  Forall plain_segment (MitmToMockoon.endpoint_parts parts).
Proof.
  induction 1 as [| part rest Hpart _ IH]; [constructor|].
  cbn [MitmToMockoon.endpoint_parts].
  destruct (Py.truthy part) eqn:Ht; cbn [negb]; [| exact IH].
  destruct (MitmToMockoon.looks_like_id part) eqn:Hid.
  - constructor; [repeat split | exact IH].
  - constructor; [now repeat split | exact IH].
Qed.

Lemma endpoint_parts_fixed (parts : list string) :
  Forall plain_segment parts -> MitmToMockoon.endpoint_parts parts = parts.
Proof.
  induction 1 as [| part rest [Ht [Hid _]] _ IH]; [reflexivity|].
  cbn [MitmToMockoon.endpoint_parts]. rewrite Ht, Hid, IH. reflexivity.
Qed.

Lemma endpoint_parts_nil (parts : list string) :
  MitmToMockoon.endpoint_parts parts = [] ->
  Forall (fun part => part = EmptyString) parts.
Proof.
  induction parts as [| part rest IH]; [constructor|].
  cbn [MitmToMockoon.endpoint_parts].
  destruct part as [| c s]; cbn [Py.truthy negb].
  - intros H. constructor; [reflexivity | now apply IH].
  - destruct (MitmToMockoon.looks_like_id (String c s)); discriminate.
Qed.

Lemma determine_endpoint_cases (path : string) :
  (MitmToMockoon.endpoint_parts (Py.split "/" path) = []
   /\ MitmToMockoon.determine_endpoint path = path)
  \/ (exists parts,
        parts <> []
        /\ Forall plain_segment parts
        /\ MitmToMockoon.endpoint_parts (Py.split "/" path) = parts
        /\ MitmToMockoon.determine_endpoint path = "/" ++ Py.join "/" parts
        /\ Py.split "/" (MitmToMockoon.determine_endpoint path)
           = EmptyString :: parts).
Proof.
  unfold MitmToMockoon.determine_endpoint.
  pose proof (endpoint_parts_plain _ (split_parts_clean "/" path)) as Hplain.
  destruct (MitmToMockoon.endpoint_parts (Py.split "/" path)) as [| p rest] eqn:E;
    [left; now split|].
  right. exists (p :: rest). repeat split; trivial; [discriminate|].
  change ("/" ++ Py.join "/" (p :: rest))
    with (EmptyString ++ String "/" (Py.join "/" (p :: rest))).
  rewrite split_app_sep by reflexivity. f_equal.
  apply split_join; [discriminate|].
  eapply Forall_impl; [| exact Hplain]. intros part H. apply H.
Qed.

Lemma endpoint_parts_segments (parts : list string) :
  MitmToMockoon.endpoint_parts parts
  = map template_segment (filter Py.truthy parts).
Proof.
  induction parts as [| part rest IH]; [reflexivity|].
  cbn [MitmToMockoon.endpoint_parts filter].
  destruct (Py.truthy part); cbn [negb map]; [| exact IH].
  unfold template_segment at 1.
  destruct (MitmToMockoon.looks_like_id part); now rewrite IH.
Qed.

(** X17. The template of a path is a slash and then the segments of the
    path that are not empty, in their order, joined by slashes, with
    every all-digit segment and every segment with a hyphen and more than
    30 characters replaced by [:id] and every other segment kept as it
    is; a path without such a segment is returned as it is.  So no
    segment of a template looks like an identifier. *)
Theorem template_has_no_identifier :
  forall path : string,
    let segments := filter Py.truthy (Py.split "/" path) in
    (segments <> [] ->
     MitmToMockoon.determine_endpoint path
     = "/" ++ Py.join "/" (map template_segment segments)
     /\ Py.split "/" (MitmToMockoon.determine_endpoint path)
        = "" :: map template_segment segments)
    /\ (segments = [] -> MitmToMockoon.determine_endpoint path = path)
    /\ Forall (fun segment => MitmToMockoon.looks_like_id segment = false)
              (Py.split "/" (MitmToMockoon.determine_endpoint path)).
Proof.
  intros path segments.
  assert (Hparts : MitmToMockoon.endpoint_parts (Py.split "/" path)
                   = map template_segment segments)
    by apply endpoint_parts_segments.
  destruct (determine_endpoint_cases path)
    as [[Hnil Hsame] | [parts [Hsome [Hplain [Hresult [Hjoin Hsplit]]]]]].
  - split; [| split].
    + intros Hne. rewrite Hnil in Hparts.
      destruct segments; [now contradiction Hne | discriminate].
    + intros _. exact Hsame.
    + rewrite Hsame. apply endpoint_parts_nil in Hnil.
      eapply Forall_impl; [| exact Hnil]. now intros part ->.
  - rewrite Hparts in Hresult. subst parts. split; [| split].
    + intros _. split; [exact Hjoin | exact Hsplit].
    + intros Hnil. rewrite Hnil in Hsome. now contradiction Hsome.
    + rewrite Hsplit. constructor; [reflexivity|].
      eapply Forall_impl; [| exact Hplain]. intros part H. apply H.
Qed.

Lemma template_has_no_identifier_witness :
  MitmToMockoon.determine_endpoint "/api//users/42/orders/"
  = "/" ++ Py.join "/" (map template_segment ["api"; "users"; "42"; "orders"])
  /\ Py.split "/" (MitmToMockoon.determine_endpoint "/api//users/42/orders/")
     = ["";  "api"; "users"; ":id"; "orders"].
Proof.
  apply (proj1 (template_has_no_identifier "/api//users/42/orders/")).
  discriminate.
Defined.

(** X18. Templating a template changes nothing. *)
Theorem determine_endpoint_idempotent :
  forall path : string,
    MitmToMockoon.determine_endpoint (MitmToMockoon.determine_endpoint path)
    = MitmToMockoon.determine_endpoint path.
Proof.
  intros path.
  destruct (determine_endpoint_cases path)
    as [[Hnil E] | [parts [Hne [Hplain [_ [E Hsplit]]]]]].
  - now rewrite !E.
  - unfold MitmToMockoon.determine_endpoint at 1. rewrite Hsplit.
    cbn [MitmToMockoon.endpoint_parts Py.truthy negb].
    rewrite (endpoint_parts_fixed _ Hplain).
    destruct parts; [contradiction | now rewrite E].
Qed.

(** X19. Two paths whose segments differ only where both have an
    identifier get the same template. *)
Theorem template_ignores_identifiers :
  forall p q : string,
    Forall2 (fun a b => a = b
                        \/ (MitmToMockoon.looks_like_id a = true
                            /\ MitmToMockoon.looks_like_id b = true))
            (Py.split "/" p) (Py.split "/" q) ->
    MitmToMockoon.determine_endpoint p = MitmToMockoon.determine_endpoint q.
Proof.
  intros p q H.
  assert (Hparts : MitmToMockoon.endpoint_parts (Py.split "/" p)
                   = MitmToMockoon.endpoint_parts (Py.split "/" q)).
  { induction H as [| a b l l' Hab _ IH]; [reflexivity|].
    cbn [MitmToMockoon.endpoint_parts].
    destruct Hab as [-> | [Ha Hb]]; [now rewrite IH|].
    rewrite (looks_like_id_nonempty _ Ha), (looks_like_id_nonempty _ Hb), Ha, Hb.
    cbn [negb]. now rewrite IH. }
  unfold MitmToMockoon.determine_endpoint. rewrite <- Hparts.
  destruct (MitmToMockoon.endpoint_parts (Py.split "/" p)) eqn:E; [|reflexivity].
  rewrite <- (join_split "/" p), <- (join_split "/" q). f_equal.
  pose proof (endpoint_parts_nil _ E) as Hp.
  symmetry in Hparts. pose proof (endpoint_parts_nil _ Hparts) as Hq.
  clear - H Hp Hq. induction H as [| a b l l' _ _ IH]; [reflexivity|].
  inversion Hp; inversion Hq; subst. f_equal. now apply IH.
Qed.

Lemma template_ignores_identifiers_witness :
  MitmToMockoon.determine_endpoint "/api/v1/users/42/orders"
  = MitmToMockoon.determine_endpoint "/api/v1/users/17/orders".
Proof.
  apply template_ignores_identifiers. cbn.
  repeat (constructor; [first [now left | right; split; reflexivity] |]).
  constructor.
Defined.

(** ** Header filtering and content type *)

(** X20. On a dictionary of headers [clean_headers] never fails and
    drops nothing but the six excluded names: every other header is kept
    with its name as spelled and its value, in the order of the
    dictionary.  On any value that is not a dictionary it raises
    [AttributeError]. *)
Theorem clean_headers_keeps_the_rest :
  (forall items : list (string * Json.json),
      exists headers,
        MitmToMockoon.clean_headers (Json.JObj items) = Ok headers
        /\ map (fun h => (MitmToMockoon.Header.key h, MitmToMockoon.Header.value h))
               headers
           = filter (fun item =>
                       negb (MitmToMockoon.mem (Py.lower (fst item))
                                               MitmToMockoon.exclude_headers))
                    items)
  /\ (forall value : Json.json,
        Json.is_dict value = false ->
        MitmToMockoon.clean_headers value = Raise AttributeError).
Proof.
  split.
  - intros items. eexists. split; [reflexivity|].
    induction items as [| [key value] rest IH]; [reflexivity|].
    cbn [MitmToMockoon.clean_items filter fst].
    destruct (negb (MitmToMockoon.mem (Py.lower key) MitmToMockoon.exclude_headers));
      cbn [map]; now rewrite IH.
  - intros value H. destruct value; try reflexivity. discriminate.
Qed.

Lemma contains_char_srev_onto (x : ascii) (s acc : string) :
  Py.contains_char x (Py.srev_onto s acc)
  = Py.contains_char x s || Py.contains_char x acc.
Proof.
  revert acc. induction s as [| c r IH]; intros acc; cbn; [reflexivity|].
  rewrite IH. cbn. destruct (Ascii.eqb c x), (Py.contains_char x r); reflexivity.
Qed.

Lemma contains_char_lstrip_by (x : ascii) (p : ascii -> bool) (s : string) :
  Py.contains_char x s = false ->
  Py.contains_char x (Py.lstrip_by p s) = false.
Proof.
  induction s as [| c r IH]; cbn; [reflexivity|].
  intros H. destruct (p c); [| exact H].
  apply orb_false_elim in H as [_ H]. now apply IH.
Qed.

Lemma contains_char_strip (x : ascii) (s : string) :
  Py.contains_char x s = false -> Py.contains_char x (Py.strip s) = false.
Proof.
  intros H. unfold Py.strip, Py.srev.
  rewrite contains_char_srev_onto, orb_false_r.
  apply contains_char_lstrip_by.
  rewrite contains_char_srev_onto, orb_false_r.
  now apply contains_char_lstrip_by.
Qed.

(** X21. [get_content_type] answers [application/json] for headers
    without a content type (in any letter case); for headers whose first
    content-type field is text it answers a media type without parameters:
    the result holds no semicolon. *)
Theorem content_type_has_no_parameters :
  forall items : list (string * Json.json),
    ((forall key value, In (key, value) items ->
                        Py.lower key <> "content-type") ->
     MitmToMockoon.get_content_type (Json.JObj items) = Ok "application/json")
    /\ (forall media,
          MitmToMockoon.get_content_type (Json.JObj items) = Ok media ->
          Py.contains_char ";" media = false).
Proof.
  intros items. cbn [MitmToMockoon.get_content_type]. split.
  - induction items as [| [key value] rest IH]; intros Hnone; [reflexivity|].
    cbn [MitmToMockoon.content_type_of].
    destruct (String.eqb_spec (Py.lower key) "content-type") as [E | _].
    + exfalso. apply (Hnone key value); [now left | exact E].
    + apply IH. intros k v Hin. apply (Hnone k v). now right.
  - induction items as [| [key value] rest IH]; intros media H.
    + injection H as <-. reflexivity.
    + cbn [MitmToMockoon.content_type_of] in H.
      destruct (String.eqb (Py.lower key) "content-type"); [| now apply IH].
      destruct value; try discriminate. injection H as <-.
      apply contains_char_strip.
      pose proof (split_parts_clean ";" s) as Hclean.
      destruct (Py.split ";" s); [reflexivity|].
      now inversion Hclean.
Qed.

Lemma content_type_has_no_parameters_witness :
  MitmToMockoon.get_content_type
    (Json.JObj [("Content-Type", Json.JStr "text/html; charset=utf-8")])
  = Ok "text/html"
  /\ MitmToMockoon.get_content_type (Json.JObj [("Accept", Json.JStr "a;b")])
     = Ok "application/json".
Proof.
  split; [reflexivity|].
  apply (proj1 (content_type_has_no_parameters [("Accept", Json.JStr "a;b")])).
  intros key value [H | []]. injection H as <- <-. discriminate.
Defined.

(** ** Groups and identifiers *)

Lemma group_append_members (key : string) (rec : Json.json)
      (grouped : Dict.t (list Json.json)) :
  Permutation (concat (map snd (MitmToMockoon.group_append key rec grouped)))
              (rec :: concat (map snd grouped)).
Proof.
  induction grouped as [| [k recs] rest IH]; cbn; [reflexivity|].
  destruct (String.eqb k key); cbn.
  - rewrite <- app_assoc. cbn.
    apply Permutation_sym, Permutation_middle.
  - rewrite IH. apply Permutation_sym, Permutation_middle.
Qed.

Lemma group_recordings_members (recordings : list Json.json) :
  forall grouped grouped',
    MitmToMockoon.group_recordings recordings grouped = Ok grouped' ->
    Permutation (concat (map snd grouped'))
                (concat (map snd grouped) ++ recordings).
Proof.
  induction recordings as [| rec rest IH]; intros grouped grouped' H.
  - injection H as <-. now rewrite app_nil_r.
  - cbn [MitmToMockoon.group_recordings] in H.
    apply bind_ok in H as [key [_ H]].
    rewrite (IH _ _ H), group_append_members.
    cbn [app]. apply Permutation_middle.
Qed.

Lemma concat_length_bound {A : Type} (groups : list (list A)) :
  Forall (fun g => g <> []) groups -> length groups <= length (concat groups).
Proof.
  induction 1 as [| g rest Hg _ IH]; [reflexivity|].
  cbn. rewrite length_app. destruct g; [contradiction | cbn; lia].
Qed.

(** X22. Grouping loses and repeats nothing: the groups of a compiled
    log, taken together, hold exactly the recordings that were read, and
    there is one route per group, so a table never has more routes than
    the log has recordings. *)
Theorem groups_partition_the_recordings :
  forall (ids : nat -> string) (input_file : list string) (name : string)
         (table : MitmToMockoon.Config.t),
    MitmToMockoon.convert_recordings_to_mockoon ids input_file name = Ok table ->
    exists recordings grouped,
      MitmToMockoon.read_recordings input_file = Ok recordings
      /\ MitmToMockoon.group_recordings recordings [] = Ok grouped
      /\ Permutation (concat (map snd grouped)) recordings
      /\ length (MitmToMockoon.Config.routes table) = length grouped
      /\ length (MitmToMockoon.Config.routes table) <= length recordings.
Proof.
  intros ids input_file name table Hconv.
  apply convert_ok in Hconv as [recordings [grouped [Hread [Hgroup Hall]]]].
  exists recordings, grouped.
  pose proof (group_recordings_members _ _ _ Hgroup) as Hperm. cbn in Hperm.
  pose proof (Forall2_length Hall) as Hlen.
  repeat split; trivial; [now symmetry|].
  rewrite <- Hlen, <- (Permutation_length Hperm), <- (length_map snd grouped).
  apply concat_length_bound.
  destruct (group_recordings_groups recordings [] [] grouped groups_of_empty Hgroup)
    as (_ & Hgroups & _).
  apply Forall_forall. intros recs Hin.
  apply in_map_iff in Hin as [[key recs'] [<- Hin]].
  now apply (Hgroups key recs').
Qed.

Lemma groups_partition_the_recordings_witness :
  exists table recordings grouped,
    MitmToMockoon.convert_recordings_to_mockoon Fixtures.ids0
      [Fixtures.users42; Fixtures.users17; Fixtures.users42_again]
      MitmToMockoon.default_name = Ok table
    /\ MitmToMockoon.read_recordings
         [Fixtures.users42; Fixtures.users17; Fixtures.users42_again]
       = Ok recordings
    /\ MitmToMockoon.group_recordings recordings [] = Ok grouped
    /\ Permutation (concat (map snd grouped)) recordings
    /\ length (MitmToMockoon.Config.routes table) = length grouped
    /\ length (MitmToMockoon.Config.routes table) <= length recordings.
Proof.
  eexists.
  assert (H : MitmToMockoon.convert_recordings_to_mockoon Fixtures.ids0
                [Fixtures.users42; Fixtures.users17; Fixtures.users42_again]
                MitmToMockoon.default_name = Ok _)
    by (vm_compute; reflexivity).
  destruct (groups_partition_the_recordings _ _ _ _ H)
    as [recordings [grouped Hrest]].
  exists recordings, grouped. split; [exact H | exact Hrest].
Defined.

Lemma first_seen_from_same_members (keys : list string) :
  forall seen seen',
    (forall k, In k seen <-> In k seen') ->
    first_seen_from seen keys = first_seen_from seen' keys.
Proof.
  induction keys as [| key rest IH]; intros seen seen' Hsame; [reflexivity|].
  cbn [first_seen_from].
  assert (Hmem : MitmToMockoon.mem key seen = MitmToMockoon.mem key seen').
  { destruct (MitmToMockoon.mem key seen) eqn:E; symmetry.
    - apply mem_true_iff. apply Hsame. now apply mem_true_iff.
    - destruct (MitmToMockoon.mem key seen') eqn:E'; [|reflexivity].
      apply mem_true_iff, Hsame, mem_true_iff in E'. congruence. }
  rewrite <- Hmem. destruct (MitmToMockoon.mem key seen).
  - now apply IH.
  - f_equal. apply IH. intros k. cbn. now rewrite Hsame.
Qed.

Lemma group_recordings_order (recordings : list Json.json) :
  forall grouped grouped',
    MitmToMockoon.group_recordings recordings grouped = Ok grouped' ->
    exists keys,
      Forall2 (fun rec key => MitmToMockoon.group_key rec = Ok key) recordings keys
      /\ map fst grouped'
         = (map fst grouped ++ first_seen_from (map fst grouped) keys)%list.
Proof.
  induction recordings as [| rec rest IH]; intros grouped grouped' H.
  - injection H as <-. exists []. split; [constructor | now rewrite app_nil_r].
  - cbn [MitmToMockoon.group_recordings] in H.
    apply bind_ok in H as [key [Hkey H]].
    destruct (IH _ _ H) as [keys [Hkeys Horder]].
    exists (key :: keys). split; [now constructor|].
    rewrite Horder. cbn [first_seen_from].
    destruct (group_append_keys key rec grouped) as [[Hin E] | [Hnot E]]; rewrite E.
    + apply mem_true_iff in Hin. now rewrite Hin.
    + destruct (MitmToMockoon.mem key (map fst grouped)) eqn:Hmem;
        [apply mem_true_iff in Hmem; contradiction|].
      rewrite <- app_assoc. cbn. do 2 f_equal.
      apply first_seen_from_same_members. intros k.
      rewrite in_app_iff. cbn. tauto.
Qed.

(** X23. The routes of a table come in the order in which their
    grouping keys first appear in the log: the groups are those of the
    grouping loop, their keys are the keys of the recordings, each once,
    in order of first appearance, each group holds the recordings of its
    key in the order of the log, and the routes follow the groups one by
    one, each built from the first recording of its group. *)
Theorem routes_follow_first_appearance :
  forall (ids : nat -> string) (input_file : list string) (name : string)
         (table : MitmToMockoon.Config.t),
    MitmToMockoon.convert_recordings_to_mockoon ids input_file name = Ok table ->
    exists recordings keys grouped,
      MitmToMockoon.read_recordings input_file = Ok recordings
      /\ MitmToMockoon.group_recordings recordings [] = Ok grouped
      /\ Forall2 (fun rec key => MitmToMockoon.group_key rec = Ok key)
                 recordings keys
      /\ map fst grouped = first_seen keys
      /\ (forall key recs, In (key, recs) grouped ->
                           recs = filter (in_group key) recordings /\ recs <> [])
      /\ Forall2 (fun group route => route_for (fst group) (snd group) route)
                 grouped (MitmToMockoon.Config.routes table).
Proof.
  intros ids input_file name table Hconv.
  apply convert_ok in Hconv as [recordings [grouped [Hread [Hgroup Hall]]]].
  destruct (group_recordings_order _ _ _ Hgroup) as [keys [Hkeys Horder]].
  destruct (group_recordings_groups recordings [] [] grouped groups_of_empty Hgroup)
    as (_ & Hgroups & _).
  exists recordings, keys, grouped.
  split; [exact Hread|]. split; [exact Hgroup|]. split; [exact Hkeys|].
  split; [exact Horder|]. split; [exact Hgroups|].
  eapply Forall2_impl; [| exact Hall].
  intros [key recs] route [m Hbuilt]. now apply (built_route_for ids m).
Qed.

Lemma routes_follow_first_appearance_witness :
  first_seen ["get:/b"; "get:/a"; "get:/b"; "post:/a"]
  = ["get:/b"; "get:/a"; "post:/a"]
  /\ exists table recordings keys grouped,
      MitmToMockoon.convert_recordings_to_mockoon Fixtures.ids0
        [Fixtures.users42; Fixtures.users17; Fixtures.users42_again]
        MitmToMockoon.default_name = Ok table
      /\ MitmToMockoon.read_recordings
           [Fixtures.users42; Fixtures.users17; Fixtures.users42_again]
         = Ok recordings
      /\ MitmToMockoon.group_recordings recordings [] = Ok grouped
      /\ Forall2 (fun rec key => MitmToMockoon.group_key rec = Ok key)
                 recordings keys
      /\ map fst grouped = first_seen keys
      /\ (forall key recs, In (key, recs) grouped ->
                           recs = filter (in_group key) recordings /\ recs <> [])
      /\ Forall2 (fun group route => route_for (fst group) (snd group) route)
                 grouped (MitmToMockoon.Config.routes table).
Proof.
  split; [reflexivity|]. eexists.
  assert (H : MitmToMockoon.convert_recordings_to_mockoon Fixtures.ids0
                [Fixtures.users42; Fixtures.users17; Fixtures.users42_again]
                MitmToMockoon.default_name = Ok _)
    by (vm_compute; reflexivity).
  destruct (routes_follow_first_appearance _ _ _ _ H)
    as [recordings [keys [grouped Hrest]]].
  exists recordings, keys, grouped. split; [exact H | exact Hrest].
Defined.

Lemma build_routes_identifiers (ids : nat -> string)
      (grouped : Dict.t (list Json.json)) :
  forall n n' routes,
    MitmToMockoon.build_routes ids n grouped = Ok (routes, n') ->
    flat_map route_identifiers routes = map ids (seq n (2 * length routes))
    /\ n' = n + 2 * length routes.
Proof.
  induction grouped as [| [key recs] rest IH]; intros n n' routes H.
  - injection H as <- <-. cbn. split; [reflexivity | lia].
  - cbn [MitmToMockoon.build_routes] in H.
    apply bind_ok in H as [[route m] [Hroute H]].
    apply bind_ok in H as [[routes' m'] [Hrest H]].
    injection H as <- <-.
    apply build_route_ok in Hroute as [Hbuilt ->].
    destruct (IH _ _ _ Hrest) as [Hids ->].
    destruct Hbuilt as (method & path & first & more & response & body & status
                        & recorded & headers & _ & _ & _ & _ & _ & _ & _ & ->).
    cbn [flat_map length]. rewrite Hids. split; [| lia].
    replace (2 * S (length routes')) with (S (S (2 * length routes'))) by lia.
    reflexivity.
Qed.

(** X24. The identifiers of a compiled table are the first draws of the
    supply, one draw each, in the order of the document: route, its
    response, next route, ..., and the table's own identifier last.  With a
    supply that never repeats, no two identifiers of a table are equal. *)
Theorem identifiers_are_fresh_draws :
  forall (ids : nat -> string) (input_file : list string) (name : string)
         (table : MitmToMockoon.Config.t),
    MitmToMockoon.convert_recordings_to_mockoon ids input_file name = Ok table ->
    identifiers table
    = map ids (seq 0 (2 * length (MitmToMockoon.Config.routes table) + 1))
    /\ ((forall i j, ids i = ids j -> i = j) -> NoDup (identifiers table)).
Proof.
  intros ids input_file name table H.
  unfold MitmToMockoon.convert_recordings_to_mockoon in H.
  apply bind_ok in H as [recordings [_ H]].
  apply bind_ok in H as [grouped [_ H]].
  apply bind_ok in H as [[routes n] [Hroutes H]].
  injection H as <-.
  destruct (build_routes_identifiers _ _ _ _ _ Hroutes) as [Hids ->].
  assert (E : identifiers
                (MitmToMockoon.Config.mk (ids (0 + 2 * length routes)) 27 name ""
                   0 3000 "0.0.0.0" [] routes false true)
              = map ids (seq 0 (2 * length routes + 1))).
  { unfold identifiers. cbn [MitmToMockoon.Config.routes MitmToMockoon.Config.uuid].
    rewrite Hids, seq_app, map_app. reflexivity. }
  split; [exact E|].
  intros Hinj. rewrite E. apply Finite.Injective_map_NoDup; [exact Hinj|].
  apply seq_NoDup.
Qed.

Lemma identifiers_are_fresh_draws_witness :
  exists table,
    MitmToMockoon.convert_recordings_to_mockoon Fixtures.ids0
      [Fixtures.users42; Fixtures.users17] MitmToMockoon.default_name = Ok table
    /\ identifiers table = ["id-0"; "id-1"; "id-2"; "id-3"; "id-4"].
Proof.
  eexists.
  assert (H : MitmToMockoon.convert_recordings_to_mockoon Fixtures.ids0
                [Fixtures.users42; Fixtures.users17]
                MitmToMockoon.default_name = Ok _)
    by (vm_compute; reflexivity).
  split; [exact H|].
  rewrite (proj1 (identifiers_are_fresh_draws _ _ _ _ H)). reflexivity.
Defined.

Lemma read_recordings_blank (lines : list string) :
  Forall (fun line => is_read line = false) lines ->
  MitmToMockoon.read_recordings lines = Ok [].
Proof.
  induction 1 as [| line rest Hline _ IH]; [reflexivity|].
  cbn [MitmToMockoon.read_recordings]. unfold is_read in Hline.
  now rewrite Hline.
Qed.

(** X25. A log without recordings (an empty file, or blank lines only)
    compiles: the table has no routes and takes the first identifier. *)
Theorem blank_log_compiles_to_empty_table :
  forall (ids : nat -> string) (input_file : list string) (name : string),
    Forall (fun line => is_read line = false) input_file ->
    MitmToMockoon.convert_recordings_to_mockoon ids input_file name
    = Ok (empty_table ids name).
Proof.
  intros ids input_file name H.
  unfold MitmToMockoon.convert_recordings_to_mockoon.
  now rewrite (read_recordings_blank _ H).
Qed.

Lemma blank_log_compiles_to_empty_table_witness :
  MitmToMockoon.convert_recordings_to_mockoon Fixtures.ids0
    [""; String "010" ""; "   "] MitmToMockoon.default_name
  = Ok (empty_table Fixtures.ids0 MitmToMockoon.default_name).
Proof.
  apply blank_log_compiles_to_empty_table.
  repeat constructor.
Defined.

Lemma read_recordings_decoded (lines : list string) :
  forall recordings,
    MitmToMockoon.read_recordings lines = Ok recordings ->
    forall line, In line lines -> is_read line = true ->
                 exists rec, Json.loads line = Ok rec /\ In rec recordings.
Proof.
  induction lines as [| l rest IH]; intros recordings H line Hin Hread;
    [contradiction|].
  cbn [MitmToMockoon.read_recordings] in H.
  destruct (Py.truthy (Py.strip l)) eqn:Hl.
  - apply bind_ok in H as [rec [Hrec H]].
    apply bind_ok in H as [recs [Hrecs H]]. injection H as <-.
    destruct Hin as [-> | Hin].
    + exists rec. split; [assumption | now left].
    + destruct (IH _ Hrecs line Hin Hread) as [rec' [Hl' Hin']].
      exists rec'. split; [assumption | now right].
  - destruct Hin as [-> | Hin]; [unfold is_read in Hread; congruence|].
    now apply (IH _ H).
Qed.

Lemma group_key_ok (rec : Json.json) (key : string) :
  MitmToMockoon.group_key rec = Ok key ->
  exists request method path,
    Json.getitem rec "request" = Ok request
    /\ Json.getitem request "method" = Ok (Json.JStr method)
    /\ Json.getitem request "path" = Ok path
    /\ key = Py.lower method ++ ":" ++ Json.str path.
Proof.
  unfold MitmToMockoon.group_key. intros H.
  apply bind_ok in H as [request [Hrequest H]].
  apply bind_ok in H as [m [Hm H]].
  apply bind_ok in H as [method [Hmethod H]].
  apply bind_ok in H as [request' [Hrequest' H]].
  apply bind_ok in H as [path [Hpath H]].
  assert (request' = request) by congruence. subst request'.
  destruct m; try discriminate. injection Hmethod as <-. injection H as <-.
  exists request, s, path. repeat split; assumption.
Qed.

(** X26. What the compiler needs of a log: when it compiles, every line
    that is not blank decodes to a value with a ["request"] holding a
    ["method"] that is text and a ["path"].  So a line without them makes
    the whole compilation fail. *)
Theorem compiled_lines_have_method_and_path :
  forall (ids : nat -> string) (input_file : list string) (name : string)
         (table : MitmToMockoon.Config.t),
    MitmToMockoon.convert_recordings_to_mockoon ids input_file name = Ok table ->
    forall line,
      In line input_file -> is_read line = true ->
      exists rec request method path,
        Json.loads line = Ok rec
        /\ Json.getitem rec "request" = Ok request
        /\ Json.getitem request "method" = Ok (Json.JStr method)
        /\ Json.getitem request "path" = Ok path.
Proof.
  intros ids input_file name table Hconv line Hin Hread.
  apply convert_ok in Hconv as [recordings [grouped [Hreadall [Hgroup _]]]].
  destruct (read_recordings_decoded _ _ Hreadall line Hin Hread)
    as [rec [Hloads Hrec]].
  destruct (group_recordings_groups recordings [] [] grouped groups_of_empty Hgroup)
    as (_ & _ & Hseen).
  destruct (Hseen rec Hrec) as [key [Hkey _]].
  destruct (group_key_ok _ _ Hkey) as [request [method [path [H1 [H2 [H3 _]]]]]].
  exists rec, request, method, path. repeat split; assumption.
Qed.

Lemma compiled_lines_have_method_and_path_witness :
  exists rec request method path,
    Json.loads Fixtures.users17 = Ok rec
    /\ Json.getitem rec "request" = Ok request
    /\ Json.getitem request "method" = Ok (Json.JStr method)
    /\ Json.getitem request "path" = Ok path.
Proof.
  assert (H : MitmToMockoon.convert_recordings_to_mockoon Fixtures.ids0
                [Fixtures.users42; Fixtures.users17]
                MitmToMockoon.default_name = Ok _)
    by (vm_compute; reflexivity).
  apply (compiled_lines_have_method_and_path _ _ _ _ H Fixtures.users17).
  - right. left. reflexivity.
  - reflexivity.
Defined.

(* ================================================================== *)
(** * The recorder and the compiler together *)

(** ** Text written by [json.dumps] is read back by [json.loads] *)

Lemma chars_app (a b : string) :
  list_ascii_of_string (a ++ b)
  = (list_ascii_of_string a ++ list_ascii_of_string b)%list.
Proof. induction a as [| c a IH]; cbn; [reflexivity | now rewrite IH]. Qed.

Lemma srev_onto_onto (s acc acc' : string) :
  Py.srev_onto (Py.srev_onto s acc) acc' = Py.srev_onto acc (s ++ acc').
Proof.
  revert acc acc'. induction s as [| c s IH]; intros acc acc'; cbn; [reflexivity|].
  now rewrite IH.
Qed.

Lemma append_empty (s : string) : s ++ "" = s.
Proof. induction s as [| c s IH]; cbn; [reflexivity | now rewrite IH]. Qed.

Lemma srev_srev_onto (s : string) : Py.srev (Py.srev_onto s "") = s.
Proof. unfold Py.srev. rewrite srev_onto_onto. cbn. apply append_empty. Qed.

(** One escaped character is read back as the character. *)
Lemma parse_escaped_char (c : ascii) (tail : list ascii) (acc : string) :
  Json.parse_string (list_ascii_of_string (Json.escape_char c) ++ tail) acc
  = Json.parse_string tail (String c acc).
Proof.
  destruct c as [[|] [|] [|] [|] [|] [|] [|] [|]]; reflexivity.
Qed.

Lemma parse_escaped_body (s : string) :
  forall (tail : list ascii) (acc : string),
    Json.parse_string
      (list_ascii_of_string (Json.escape_body s) ++ Py.dquote :: tail) acc
    = Some (Py.srev (Py.srev_onto s acc), tail).
Proof.
  induction s as [| c s IH]; intros tail acc; [reflexivity|].
  cbn [Json.escape_body Py.srev_onto].
  rewrite chars_app, <- app_assoc, parse_escaped_char. apply IH.
Qed.

(** A string literal, opened: the quotation mark and the rest. *)
Lemma encoded_str_chars (s : string) (tail : list ascii) :
  (list_ascii_of_string (Json.encode_str s) ++ tail)%list
  = Py.dquote
      :: (list_ascii_of_string (Json.escape_body s) ++ Py.dquote :: tail)%list.
Proof.
  unfold Json.encode_str.
  change (list_ascii_of_string
            (String Py.dquote (Json.escape_body s ++ String Py.dquote "")))
    with (Py.dquote
            :: list_ascii_of_string (Json.escape_body s ++ String Py.dquote "")).
  rewrite chars_app, <- app_comm_cons, <- app_assoc. reflexivity.
Qed.

Lemma parse_escaped_str (s : string) (tail : list ascii) :
  Json.parse_string
    (list_ascii_of_string (Json.escape_body s) ++ Py.dquote :: tail) ""
  = Some (s, tail).
Proof. now rewrite parse_escaped_body, srev_srev_onto. Qed.

(** ** Integers *)

Lemma follows_comma (t : list ascii) : follows (","%char :: t).
Proof. repeat split; discriminate. Qed.

Lemma follows_bracket (t : list ascii) : follows ("]"%char :: t).
Proof. repeat split; discriminate. Qed.

Lemma follows_brace (t : list ascii) : follows ("}"%char :: t).
Proof. repeat split; discriminate. Qed.

Lemma follows_newline (t : list ascii) : follows ("010"%char :: t).
Proof. repeat split; discriminate. Qed.

Lemma parse_digits_uint (d : Decimal.uint) :
  forall (acc : Z) (rest : list ascii),
    follows rest ->
    Json.parse_digits
      (list_ascii_of_string (NilEmpty.string_of_uint d) ++ rest) acc
    = (uint_value d acc, rest).
Proof.
  induction d; intros acc rest Hrest;
    try (cbn [NilEmpty.string_of_uint list_ascii_of_string app uint_value];
         cbn [Json.parse_digits]; cbn; now rewrite IHd).
  cbn. destruct rest as [| c r]; [reflexivity|].
  destruct Hrest as [Hdigit _]. cbn. now rewrite Hdigit.
Qed.

Lemma uint_value_acc (d : Decimal.uint) :
  forall acc : positive,
    uint_value d (Zpos acc) = Zpos (Pos.of_uint_acc d acc).
Proof.
  induction d; intros acc; cbn [uint_value Pos.of_uint_acc]; [reflexivity | ..];
    match goal with
    | |- uint_value _ ?z = _ =>
        match goal with
        | |- _ = Zpos (Pos.of_uint_acc _ ?p) =>
            replace z with (Zpos p) by lia; apply IHd
        end
    end.
Qed.

Lemma uint_value_of_uint (d : Decimal.uint) :
  uint_value d 0 = Z.of_N (Pos.of_uint d).
Proof.
  induction d; cbn [uint_value Pos.of_uint]; [reflexivity | exact IHd | ..];
    match goal with
    | |- uint_value _ ?z = Z.of_N (Npos (Pos.of_uint_acc _ ?p)) =>
        replace z with (Zpos p) by lia; cbn [Z.of_N]; apply uint_value_acc
    end.
Qed.

Lemma to_uint_head (p : positive) :
  forall d, Pos.to_uint p <> Decimal.D0 d.
Proof.
  intros d H.
  pose proof (DecimalPos.Unsigned.to_of (Pos.to_uint p)) as Hnorm.
  rewrite DecimalPos.Unsigned.of_to in Hnorm. cbn [N.to_uint] in Hnorm.
  pose proof (DecimalPos.Unsigned.to_uint_nonzero p) as Hnz.
  assert (Hhead : Decimal.nzhead (Pos.to_uint p) <> Decimal.Nil).
  { intros E. apply Hnz. rewrite Hnorm. now apply DecimalFacts.unorm_0. }
  rewrite (DecimalFacts.unorm_nzhead _ Hhead) in Hnorm.
  rewrite Hnorm in H. now apply DecimalFacts.nzhead_nonzero in H.
Qed.

Lemma follows_ends_number (rest : list ascii) :
  follows rest ->
  match rest with
  | x :: _ => (Ascii.eqb x "." || Ascii.eqb x "e" || Ascii.eqb x "E")%bool = false
  | [] => True
  end.
Proof.
  destruct rest as [| c r]; [trivial|].
  intros [_ [Hdot [He HE]]].
  destruct (Ascii.eqb_spec c "."); [contradiction|].
  destruct (Ascii.eqb_spec c "e"); [contradiction|].
  destruct (Ascii.eqb_spec c "E"); [contradiction | reflexivity].
Qed.

Lemma uint_value_to_uint (p : positive) : uint_value (Pos.to_uint p) 0 = Zpos p.
Proof. now rewrite uint_value_of_uint, DecimalPos.Unsigned.of_to. Qed.

Lemma parse_nat_literal_digits (c : ascii) (tail rest : list ascii) (n : Z) :
  Py.is_digit c = true ->
  c <> "0"%char ->
  Json.parse_digits (c :: tail) 0 = (n, rest) ->
  follows rest ->
  Json.parse_nat_literal (c :: tail) = Some (n, rest).
Proof.
  intros Hdigit Hzero Hparse Hrest. unfold Json.parse_nat_literal.
  rewrite Hdigit. destruct (Ascii.eqb_spec c "0"); [contradiction|].
  rewrite Hparse. pose proof (follows_ends_number rest Hrest) as Hend.
  destruct rest; [reflexivity | now rewrite Hend].
Qed.

(** A value that starts with a digit is a number. *)
Lemma parse_value_digit (fuel : nat) (c : ascii) (tail : list ascii) :
  Py.is_digit c = true ->
  Json.parse_value (S fuel) (c :: tail)
  = match Json.parse_nat_literal (c :: tail) with
    | Some (n, rest) => Some (Json.JInt n, rest)
    | None => None
    end.
Proof.
  intros Hdigit.
  destruct c as [[|] [|] [|] [|] [|] [|] [|] [|]];
    try discriminate Hdigit; reflexivity.
Qed.

Lemma parse_value_minus (fuel : nat) (tail : list ascii) :
  Json.parse_value (S fuel) ("-"%char :: tail)
  = match Json.parse_nat_literal tail with
    | Some (n, rest) => Some (Json.JInt (- n), rest)
    | None => None
    end.
Proof.
  transitivity
    (match
        match Json.parse_nat_literal tail with
        | Some (n, rest) => Some ((- n)%Z, rest)
        | None => None
        end
      with
      | Some (n, rest) => Some (Json.JInt n, rest)
      | None => None
      end); [reflexivity|].
  now destruct (Json.parse_nat_literal tail) as [[n rest] |].
Qed.

(** The digits of a positive number: a digit other than zero first. *)
Lemma positive_digits (p : positive) (rest : list ascii) :
  exists c tail,
    (list_ascii_of_string (NilEmpty.string_of_uint (Pos.to_uint p)) ++ rest)%list
    = c :: tail
    /\ Py.is_digit c = true
    /\ c <> "0"%char.
Proof.
  pose proof (to_uint_head p) as Hhead.
  pose proof (DecimalPos.Unsigned.to_uint_nonnil p) as Hnil.
  destruct (Pos.to_uint p) as [| d | d | d | d | d | d | d | d | d | d];
    [contradiction | now contradiction (Hhead d) | ..];
    eexists; eexists; (split; [reflexivity | split; [reflexivity | discriminate]]).
Qed.

Lemma parse_nat_literal_positive (p : positive) (rest : list ascii) :
  follows rest ->
  Json.parse_nat_literal
    (list_ascii_of_string (NilEmpty.string_of_uint (Pos.to_uint p)) ++ rest)
  = Some (Zpos p, rest).
Proof.
  intros Hrest.
  pose proof (parse_digits_uint (Pos.to_uint p) 0 rest Hrest) as Hparse.
  rewrite uint_value_to_uint in Hparse.
  destruct (positive_digits p rest) as [c [tail [E [Hdigit Hzero]]]].
  rewrite E in *. now apply parse_nat_literal_digits.
Qed.

Lemma string_of_to_uint (p : positive) :
  NilZero.string_of_uint (Pos.to_uint p)
  = NilEmpty.string_of_uint (Pos.to_uint p).
Proof.
  pose proof (DecimalPos.Unsigned.to_uint_nonnil p) as Hnil.
  now destruct (Pos.to_uint p).
Qed.

(** The text of an integer is read back as the integer. *)
Lemma parse_value_int (fuel : nat) (z : Z) (rest : list ascii) :
  follows rest ->
  Json.parse_value (S fuel) (list_ascii_of_string (Py.str_of_Z z) ++ rest)
  = Some (Json.JInt z, rest).
Proof.
  intros Hrest. unfold Py.str_of_Z. destruct z as [| p | p]; cbn [Z.to_int].
  - change (list_ascii_of_string (NilZero.string_of_int (Decimal.Pos (Decimal.D0 Decimal.Nil))) ++ rest)%list
      with ("0"%char :: rest).
    rewrite parse_value_digit by reflexivity.
    pose proof (follows_ends_number rest Hrest) as Hend.
    destruct rest as [| x r]; [reflexivity|].
    change (Json.parse_nat_literal ("0"%char :: x :: r))
      with (if (Ascii.eqb x "." || Ascii.eqb x "e" || Ascii.eqb x "E")%bool
            then None else Some (0%Z, x :: r)).
    now rewrite Hend.
  - cbn [NilZero.string_of_int]. rewrite string_of_to_uint.
    destruct (positive_digits p rest) as [c [tail [E [Hdigit _]]]].
    pose proof (parse_nat_literal_positive p rest Hrest) as Hparse.
    rewrite E in *. now rewrite parse_value_digit, Hparse.
  - cbn [NilZero.string_of_int]. rewrite string_of_to_uint.
    change (list_ascii_of_string
              (String "-" (NilEmpty.string_of_uint (Pos.to_uint p))) ++ rest)%list
      with ("-"%char
              :: (list_ascii_of_string
                    (NilEmpty.string_of_uint (Pos.to_uint p)) ++ rest)%list).
    now rewrite parse_value_minus, parse_nat_literal_positive.
Qed.

(** ** Values *)

Lemma well_formed_array (l : list Json.json) :
  well_formed (Json.JArr l) <-> Forall well_formed l.
Proof.
  cbn [well_formed]. induction l as [| x r IH]; cbn [fold_right].
  - split; [constructor | trivial].
  - split.
    + intros [Hx Hr]. constructor; [exact Hx | now apply IH].
    + intros H. inversion H; subst. split; [assumption | now apply IH].
Qed.

Lemma well_formed_object (m : list (string * Json.json)) :
  well_formed (Json.JObj m)
  <-> NoDup (map fst m) /\ Forall (fun kv => well_formed (snd kv)) m.
Proof.
  cbn [well_formed].
  assert (H : fold_right (fun kv rest => well_formed (snd kv) /\ rest) True m
              <-> Forall (fun kv => well_formed (snd kv)) m).
  { induction m as [| kv r IH]; cbn [fold_right].
    - split; [constructor | trivial].
    - split.
      + intros [Hx Hr]. constructor; [exact Hx | now apply IH].
      + intros H. inversion H; subst. split; [assumption | now apply IH]. }
  now rewrite H.
Qed.

Lemma json_induction (P : Json.json -> Prop) :
  P Json.JNull ->
  (forall b, P (Json.JBool b)) ->
  (forall z, P (Json.JInt z)) ->
  (forall s, P (Json.JStr s)) ->
  (forall l, Forall P l -> P (Json.JArr l)) ->
  (forall m, Forall (fun kv => P (snd kv)) m -> P (Json.JObj m)) ->
  forall v, P v.
Proof.
  intros Hnull Hbool Hint Hstr Harr Hobj.
  fix IH 1. intros [| b | z | s | l | m].
  - exact Hnull.
  - apply Hbool.
  - apply Hint.
  - apply Hstr.
  - apply Harr. induction l as [| x r IHl]; constructor; [apply IH | exact IHl].
  - apply Hobj. induction m as [| kv r IHm]; constructor; [apply IH | exact IHm].
Qed.

(** ** One step of the decoder *)

Lemma parse_value_space (fuel : nat) (s : list ascii) :
  Json.parse_value fuel (" "%char :: s) = Json.parse_value fuel s.
Proof. destruct fuel; reflexivity. Qed.

Lemma parse_items_step (fuel : nat) (s : list ascii) (acc : list Json.json) :
  Json.parse_items (S fuel) s acc
  = match Json.parse_value fuel s with
    | Some (v, rest) =>
        match Json.skip_ws rest with
        | x :: rest' =>
            if Ascii.eqb x "," then Json.parse_items fuel rest' (acc ++ [v])%list
            else if Ascii.eqb x "]" then Some (Json.JArr (acc ++ [v])%list, rest')
            else None
        | [] => None
        end
    | None => None
    end.
Proof. reflexivity. Qed.

Lemma parse_items_space (fuel : nat) (s : list ascii) (acc : list Json.json) :
  Json.parse_items fuel (" "%char :: s) acc = Json.parse_items fuel s acc.
Proof.
  destruct fuel; [reflexivity|].
  now rewrite !parse_items_step, parse_value_space.
Qed.

Lemma parse_members_space (fuel : nat) (s : list ascii)
      (acc : list (string * Json.json)) :
  Json.parse_members fuel (" "%char :: s) acc = Json.parse_members fuel s acc.
Proof. destruct fuel; reflexivity. Qed.

(** A member: the key, the colon, then the value and what follows it. *)
Lemma parse_members_step (fuel : nat) (key : string) (tail : list ascii)
      (acc : list (string * Json.json)) :
  Json.parse_members (S fuel)
    (Py.dquote
       :: (list_ascii_of_string (Json.escape_body key)
           ++ Py.dquote :: ":"%char :: " "%char :: tail)%list) acc
  = match Json.parse_value fuel tail with
    | Some (v, rest) =>
        match Json.skip_ws rest with
        | y :: rest' =>
            if Ascii.eqb y ","
            then Json.parse_members fuel rest' (Dict.set key v acc)
            else if Ascii.eqb y "}"
            then Some (Json.JObj (Dict.set key v acc), rest')
            else None
        | [] => None
        end
    | None => None
    end.
Proof.
  transitivity
    (match Json.parse_string
             (list_ascii_of_string (Json.escape_body key)
              ++ Py.dquote :: ":"%char :: " "%char :: tail)%list "" with
     | Some (k, rest) =>
         match Json.skip_ws rest with
         | x :: rest' =>
             if Ascii.eqb x ":" then
               match Json.parse_value fuel rest' with
               | Some (v, rest'') =>
                   match Json.skip_ws rest'' with
                   | y :: rest3 =>
                       if Ascii.eqb y ","
                       then Json.parse_members fuel rest3 (Dict.set k v acc)
                       else if Ascii.eqb y "}"
                       then Some (Json.JObj (Dict.set k v acc), rest3)
                       else None
                   | [] => None
                   end
               | None => None
               end
             else None
         | [] => None
         end
     | None => None
     end); [reflexivity|].
  rewrite parse_escaped_str.
  change (Json.skip_ws (":"%char :: " "%char :: tail))
    with (":"%char :: " "%char :: tail).
  change (Ascii.eqb ":" ":") with true. cbv iota.
  now rewrite parse_value_space.
Qed.

Lemma parse_value_string (fuel : nat) (s : string) (rest : list ascii) :
  Json.parse_value (S fuel)
    (list_ascii_of_string (Json.encode_str s) ++ rest)
  = Some (Json.JStr s, rest).
Proof.
  rewrite encoded_str_chars.
  transitivity
    (match Json.parse_string
             (list_ascii_of_string (Json.escape_body s) ++ Py.dquote :: rest)%list
             "" with
     | Some (x, rest') => Some (Json.JStr x, rest')
     | None => None
     end); [reflexivity|].
  now rewrite parse_escaped_str.
Qed.

Lemma parse_value_array_open (fuel : nat) (x : ascii) (tail : list ascii) :
  Json.is_ws x = false ->
  x <> "]"%char ->
  Json.parse_value (S fuel) ("["%char :: x :: tail)
  = Json.parse_items fuel (x :: tail) [].
Proof.
  intros Hws Hclose.
  transitivity
    (match Json.skip_ws (x :: tail) with
     | y :: rest =>
         if Ascii.eqb y "]" then Some (Json.JArr [], rest)
         else Json.parse_items fuel (x :: tail) []
     | [] => None
     end); [reflexivity|].
  cbn [Json.skip_ws]. rewrite Hws.
  destruct (Ascii.eqb_spec x "]"); [contradiction | reflexivity].
Qed.

Lemma parse_value_object_open (fuel : nat) (tail : list ascii) :
  Json.parse_value (S fuel) ("{"%char :: Py.dquote :: tail)
  = Json.parse_members fuel (Py.dquote :: tail) [].
Proof. reflexivity. Qed.

(** ** The text of a value *)

Lemma digit_is_not_space (c : ascii) :
  Py.is_digit c = true -> Json.is_ws c = false /\ c <> "]"%char.
Proof.
  destruct c as [[|] [|] [|] [|] [|] [|] [|] [|]];
    try discriminate; intros _; (split; [reflexivity | discriminate]).
Qed.

(** The text of a value starts with a character that is neither white
    space nor a closing bracket. *)
Lemma dumps_head (level : nat) (v : Json.json) (rest : list ascii) :
  exists c tail,
    (list_ascii_of_string (Json.dumps_at None level v) ++ rest)%list = c :: tail
    /\ Json.is_ws c = false
    /\ c <> "]"%char.
Proof.
  destruct v as [| [|] | z | s | [| x l] | [| kv m]];
    try (eexists; eexists; split; [reflexivity | split; [reflexivity | discriminate]]).
  cbn [Json.dumps_at]. unfold Py.str_of_Z. destruct z as [| p | p];
    try (eexists; eexists; split; [reflexivity | split; [reflexivity | discriminate]]).
  cbn [Z.to_int NilZero.string_of_int]. rewrite string_of_to_uint.
  destruct (positive_digits p rest) as [c [tail [E [Hdigit _]]]].
  exists c, tail. split; [exact E | now apply digit_is_not_space].
Qed.

Lemma chars_join_more (sep first second : string) (more : list string)
      (rest : list ascii) :
  (list_ascii_of_string (Py.join sep (first :: second :: more)) ++ rest)%list
  = (list_ascii_of_string first
     ++ list_ascii_of_string sep
     ++ list_ascii_of_string (Py.join sep (second :: more)) ++ rest)%list.
Proof.
  change (Py.join sep (first :: second :: more))
    with (first ++ sep ++ Py.join sep (second :: more)).
  now rewrite !chars_app, <- !app_assoc.
Qed.

Lemma chars_array (level : nat) (x : Json.json) (l : list Json.json)
      (rest : list ascii) :
  (list_ascii_of_string (Json.dumps_at None level (Json.JArr (x :: l))) ++ rest)%list
  = "["%char
      :: (list_ascii_of_string
            (Py.join ", " (map (Json.dumps_at None (S level)) (x :: l)))
          ++ "]"%char :: rest)%list.
Proof.
  change (Json.dumps_at None level (Json.JArr (x :: l)))
    with (String "["
            (Py.join ", " (map (Json.dumps_at None (S level)) (x :: l)) ++ "]")).
  cbn [list_ascii_of_string]. rewrite chars_app, <- app_comm_cons, <- app_assoc.
  reflexivity.
Qed.

Lemma chars_object (level : nat) (kv : string * Json.json)
      (m : list (string * Json.json)) (rest : list ascii) :
  (list_ascii_of_string (Json.dumps_at None level (Json.JObj (kv :: m))) ++ rest)%list
  = "{"%char
      :: (list_ascii_of_string
            (Py.join ", " (map (member_text (S level)) (kv :: m)))
          ++ "}"%char :: rest)%list.
Proof.
  change (Json.dumps_at None level (Json.JObj (kv :: m)))
    with (String "{"
            (Py.join ", " (map (member_text (S level)) (kv :: m)) ++ "}")).
  cbn [list_ascii_of_string]. rewrite chars_app, <- app_comm_cons, <- app_assoc.
  reflexivity.
Qed.

Lemma chars_member (level : nat) (key : string) (v : Json.json)
      (rest : list ascii) :
  (list_ascii_of_string (member_text level (key, v)) ++ rest)%list
  = Py.dquote
      :: (list_ascii_of_string (Json.escape_body key)
          ++ Py.dquote :: ":"%char :: " "%char
          :: (list_ascii_of_string (Json.dumps_at None level v) ++ rest))%list.
Proof.
  unfold member_text. cbn [fst snd].
  rewrite chars_app, <- app_assoc, encoded_str_chars.
  rewrite chars_app, <- app_assoc. reflexivity.
Qed.

Lemma dict_set_fresh {V : Type} (key : string) (value : V) (d : Dict.t V) :
  ~ In key (map fst d) -> Dict.set key value d = (d ++ [(key, value)])%list.
Proof.
  induction d as [| [k v] r IH]; intros Hfresh; [reflexivity|].
  cbn. destruct (String.eqb_spec k key) as [-> | Hne].
  - exfalso. apply Hfresh. now left.
  - f_equal. apply IH. intros H. apply Hfresh. now right.
Qed.

(** ** Reading back *)

Lemma skip_ws_comma (t : list ascii) :
  Json.skip_ws (","%char :: t) = ","%char :: t.
Proof. reflexivity. Qed.

Lemma skip_ws_bracket (t : list ascii) :
  Json.skip_ws ("]"%char :: t) = "]"%char :: t.
Proof. reflexivity. Qed.

Lemma skip_ws_brace (t : list ascii) :
  Json.skip_ws ("}"%char :: t) = "}"%char :: t.
Proof. reflexivity. Qed.

Lemma items_cost_cons (x : Json.json) (l : list Json.json) :
  items_cost (x :: l) = S (cost x) + items_cost l.
Proof. reflexivity. Qed.

Lemma members_cost_cons (kv : string * Json.json) (m : list (string * Json.json)) :
  members_cost (kv :: m) = S (cost (snd kv)) + members_cost m.
Proof. reflexivity. Qed.

Lemma items_read_back (l : list Json.json) :
  Forall reads_back l ->
  l <> [] ->
  forall (level fuel : nat) (acc : list Json.json) (rest : list ascii),
    items_cost l <= fuel ->
    Json.parse_items fuel
      (list_ascii_of_string (Py.join ", " (map (Json.dumps_at None level) l))
       ++ "]"%char :: rest) acc
    = Some (Json.JArr (acc ++ l)%list, rest).
Proof.
  induction 1 as [| x l Hx Hl IH]; intros Hne level fuel acc rest Hfuel;
    [contradiction|].
  rewrite items_cost_cons in Hfuel.
  destruct fuel as [| fuel]; [lia|].
  rewrite parse_items_step.
  destruct l as [| y l'].
  - cbn [map Py.join].
    rewrite (Hx level fuel ("]"%char :: rest)); [| lia | apply follows_bracket].
    rewrite skip_ws_bracket. reflexivity.
  - change (map (Json.dumps_at None level) (x :: y :: l'))
      with (Json.dumps_at None level x
              :: Json.dumps_at None level y :: map (Json.dumps_at None level) l').
    rewrite chars_join_more.
    change (Json.dumps_at None level y :: map (Json.dumps_at None level) l')
      with (map (Json.dumps_at None level) (y :: l')).
    change (list_ascii_of_string ", ") with [","%char; " "%char].
    rewrite (Hx level fuel); [| lia | apply follows_comma].
    cbn [app]. rewrite skip_ws_comma.
    change (Ascii.eqb "," ",") with true. cbv iota.
    rewrite parse_items_space.
    rewrite (IH ltac:(discriminate) level fuel (acc ++ [x])%list rest).
    + now rewrite <- app_assoc.
    + lia.
Qed.

Lemma members_read_back (m : list (string * Json.json)) :
  Forall (fun kv => reads_back (snd kv)) m ->
  m <> [] ->
  forall (level fuel : nat) (acc : list (string * Json.json)) (rest : list ascii),
    members_cost m <= fuel ->
    NoDup (map fst (acc ++ m)%list) ->
    Json.parse_members fuel
      (list_ascii_of_string (Py.join ", " (map (member_text level) m))
       ++ "}"%char :: rest) acc
    = Some (Json.JObj (acc ++ m)%list, rest).
Proof.
  induction 1 as [| [key x] m Hx Hm IH];
    intros Hne level fuel acc rest Hfuel Hkeys; [contradiction|].
  rewrite members_cost_cons in Hfuel. cbn [snd] in Hfuel, Hx.
  destruct fuel as [| fuel]; [lia|].
  assert (Hfresh : ~ In key (map fst acc)).
  { rewrite map_app in Hkeys. cbn [map fst] in Hkeys.
    apply NoDup_remove_2 in Hkeys. intros H. apply Hkeys.
    apply in_or_app. now left. }
  destruct m as [| kv m'].
  - cbn [map Py.join].
    rewrite chars_member, parse_members_step.
    rewrite (Hx level fuel ("}"%char :: rest)); [| lia | apply follows_brace].
    rewrite skip_ws_brace.
    change (Ascii.eqb "}" ",") with false.
    change (Ascii.eqb "}" "}") with true. cbv iota.
    now rewrite (dict_set_fresh _ _ _ Hfresh).
  - change (map (member_text level) ((key, x) :: kv :: m'))
      with (member_text level (key, x)
              :: member_text level kv :: map (member_text level) m').
    rewrite chars_join_more.
    change (member_text level kv :: map (member_text level) m')
      with (map (member_text level) (kv :: m')).
    change (list_ascii_of_string ", ") with [","%char; " "%char].
    rewrite chars_member, parse_members_step.
    rewrite (Hx level fuel); [| lia | apply follows_comma].
    cbn [List.app]. rewrite skip_ws_comma.
    change (Ascii.eqb "," ",") with true. cbv iota.
    rewrite parse_members_space, (dict_set_fresh _ _ _ Hfresh).
    rewrite (IH ltac:(discriminate) level fuel (acc ++ [(key, x)])%list rest).
    + now rewrite <- app_assoc.
    + lia.
    + now rewrite <- app_assoc.
Qed.

Lemma chars_join_first (sep first : string) (more : list string)
      (rest : list ascii) :
  exists tail,
    (list_ascii_of_string (Py.join sep (first :: more)) ++ rest)%list
    = (list_ascii_of_string first ++ tail)%list.
Proof.
  destruct more as [| second more].
  - now exists rest.
  - eexists. apply chars_join_more.
Qed.

(** Every value without repeated keys is read back from its text. *)
Lemma well_formed_reads_back (v : Json.json) : well_formed v -> reads_back v.
Proof.
  induction v as [| b | z | s | l IH | m IH] using json_induction;
    intros Hwf level fuel rest Hfuel Hrest.
  - destruct fuel; [cbn in Hfuel; lia | reflexivity].
  - destruct fuel; [cbn in Hfuel; lia | now destruct b].
  - destruct fuel; [cbn in Hfuel; lia | now apply parse_value_int].
  - destruct fuel; [cbn in Hfuel; lia | now apply parse_value_string].
  - apply well_formed_array in Hwf.
    change (cost (Json.JArr l)) with (S (items_cost l)) in Hfuel.
    destruct fuel as [| fuel]; [lia|].
    destruct l as [| x l]; [reflexivity|].
    assert (Hitems : Forall reads_back (x :: l)).
    { clear - IH Hwf. induction IH as [| y r Hy _ IHr]; [constructor|].
      inversion Hwf; subst. constructor; [now apply Hy | now apply IHr]. }
    pose proof (items_read_back (x :: l) Hitems ltac:(discriminate)
                  (S level) fuel [] rest ltac:(lia)) as Hread.
    rewrite chars_array. cbn [map List.app] in Hread |- *.
    destruct (chars_join_first ", " (Json.dumps_at None (S level) x)
                (map (Json.dumps_at None (S level)) l) ("]"%char :: rest))
      as [after Eafter].
    destruct (dumps_head (S level) x after) as [c [tail [E [Hws Hclose]]]].
    rewrite Eafter, E in Hread |- *.
    now rewrite parse_value_array_open.
  - apply well_formed_object in Hwf as [Hkeys Hwf].
    change (cost (Json.JObj m)) with (S (members_cost m)) in Hfuel.
    destruct fuel as [| fuel]; [lia|].
    destruct m as [| [key x] m]; [reflexivity|].
    assert (Hmembers : Forall (fun kv => reads_back (snd kv)) ((key, x) :: m)).
    { clear - IH Hwf. induction IH as [| kv r Hy _ IHr]; [constructor|].
      inversion Hwf; subst. constructor; [now apply Hy | now apply IHr]. }
    pose proof (members_read_back ((key, x) :: m) Hmembers ltac:(discriminate)
                  (S level) fuel [] rest ltac:(lia) Hkeys) as Hread.
    rewrite chars_object. cbn [map List.app] in Hread |- *.
    destruct (chars_join_first ", " (member_text (S level) (key, x))
                (map (member_text (S level)) m) ("}"%char :: rest))
      as [after Eafter].
    rewrite Eafter, chars_member in Hread |- *.
    now rewrite parse_value_object_open.
Qed.

Lemma length_chars (s : string) :
  length (list_ascii_of_string s) = String.length s.
Proof. induction s as [| c s IH]; cbn; [reflexivity | now rewrite IH]. Qed.

Lemma length_append (a b : string) :
  String.length (a ++ b) = String.length a + String.length b.
Proof. induction a as [| c a IH]; cbn; [reflexivity | now rewrite IH]. Qed.

Lemma str_of_Z_not_empty (z : Z) : 1 <= String.length (Py.str_of_Z z).
Proof.
  unfold Py.str_of_Z. destruct z as [| p | p]; cbn [Z.to_int NilZero.string_of_int].
  - cbn. lia.
  - pose proof (DecimalPos.Unsigned.to_uint_nonnil p) as Hnil.
    destruct (Pos.to_uint p); [contradiction | cbn; lia ..].
  - cbn. lia.
Qed.

Lemma items_cost_bound (level : nat) (l : list Json.json) :
  Forall (fun x => forall lv, cost x <= String.length (Json.dumps_at None lv x)) l ->
  l <> [] ->
  items_cost l
  <= String.length (Py.join ", " (map (Json.dumps_at None level) l)) + 1.
Proof.
  induction 1 as [| x l Hx _ IH]; intros Hne; [contradiction|].
  rewrite items_cost_cons. destruct l as [| y l'].
  - cbn [map Py.join]. specialize (Hx level).
    change (items_cost []) with 0. lia.
  - change (Py.join ", " (map (Json.dumps_at None level) (x :: y :: l')))
      with (Json.dumps_at None level x
              ++ ", " ++ Py.join ", " (map (Json.dumps_at None level) (y :: l'))).
    rewrite !length_append. specialize (Hx level).
    specialize (IH ltac:(discriminate)). cbn [String.length]. lia.
Qed.

Lemma members_cost_bound (level : nat) (m : list (string * Json.json)) :
  Forall (fun kv => forall lv,
              cost (snd kv) <= String.length (Json.dumps_at None lv (snd kv))) m ->
  m <> [] ->
  members_cost m <= String.length (Py.join ", " (map (member_text level) m)) + 1.
Proof.
  induction 1 as [| kv m Hx _ IH]; intros Hne; [contradiction|].
  rewrite members_cost_cons. destruct m as [| kv2 m'].
  - cbn [map Py.join]. unfold member_text. rewrite !length_append.
    specialize (Hx level). change (members_cost []) with 0. lia.
  - change (Py.join ", " (map (member_text level) (kv :: kv2 :: m')))
      with (member_text level kv
              ++ ", " ++ Py.join ", " (map (member_text level) (kv2 :: m'))).
    rewrite !length_append. unfold member_text at 1. rewrite !length_append.
    specialize (Hx level). specialize (IH ltac:(discriminate)).
    cbn [String.length]. lia.
Qed.

(** The fuel of [json.loads], the length of the text, always suffices. *)
Lemma cost_bound (v : Json.json) :
  forall level, cost v <= String.length (Json.dumps_at None level v).
Proof.
  induction v as [| b | z | s | l IH | m IH] using json_induction; intros level.
  - cbn. lia.
  - destruct b; cbn; lia.
  - cbn [cost Json.dumps_at]. apply str_of_Z_not_empty.
  - cbn. lia.
  - change (cost (Json.JArr l)) with (S (items_cost l)).
    destruct l as [| x l]; [cbn; lia|].
    change (Json.dumps_at None level (Json.JArr (x :: l)))
      with (String "["
              (Py.join ", " (map (Json.dumps_at None (S level)) (x :: l)) ++ "]")).
    cbn [String.length]. rewrite length_append. cbn [String.length].
    pose proof (items_cost_bound (S level) (x :: l) IH ltac:(discriminate)). lia.
  - change (cost (Json.JObj m)) with (S (members_cost m)).
    destruct m as [| kv m]; [cbn; lia|].
    change (Json.dumps_at None level (Json.JObj (kv :: m)))
      with (String "{"
              (Py.join ", " (map (member_text (S level)) (kv :: m)) ++ "}")).
    cbn [String.length]. rewrite length_append. cbn [String.length].
    pose proof (members_cost_bound (S level) (kv :: m) IH ltac:(discriminate)). lia.
Qed.

(** [json.loads(json.dumps(v))] is [v]. *)
Lemma loads_dumps (v : Json.json) :
  well_formed v -> Json.loads (Json.dumps v) = Ok v.
Proof.
  intros Hwf. unfold Json.loads, Json.dumps.
  pose proof (well_formed_reads_back v Hwf 0
                (2 * length (list_ascii_of_string (Json.dumps_at None 0 v)) + 2)
                []) as Hread.
  rewrite app_nil_r in Hread. rewrite Hread; [reflexivity | | exact I].
  rewrite length_chars. pose proof (cost_bound v 0). lia.
Qed.

(** ** What the decoder returns *)

Lemma dict_set_keys {V : Type} (key : string) (value : V) (d : Dict.t V) :
  (In key (map fst d) /\ map fst (Dict.set key value d) = map fst d)
  \/ (~ In key (map fst d)
      /\ map fst (Dict.set key value d) = (map fst d ++ [key])%list).
Proof.
  induction d as [| [k v] r IH]; cbn.
  - right. split; [tauto | reflexivity].
  - destruct (String.eqb_spec k key) as [-> | Hne]; cbn.
    + left. split; [now left | reflexivity].
    + destruct IH as [[Hin E] | [Hnot E]]; rewrite E.
      * left. split; [now right | reflexivity].
      * right. split; [| reflexivity]. intros [H | H]; [now apply Hne | now apply Hnot].
Qed.

Lemma dict_set_no_dup {V : Type} (key : string) (value : V) (d : Dict.t V) :
  NoDup (map fst d) -> NoDup (map fst (Dict.set key value d)).
Proof.
  intros Hnd. destruct (dict_set_keys key value d) as [[_ E] | [Hnot E]]; rewrite E.
  - exact Hnd.
  - apply NoDup_app; [exact Hnd | repeat constructor; tauto |].
    intros x Hx [<- | []]. contradiction.
Qed.

Lemma dict_set_forall {V : Type} (P : V -> Prop) (key : string) (value : V)
      (d : Dict.t V) :
  P value ->
  Forall (fun kv => P (snd kv)) d ->
  Forall (fun kv => P (snd kv)) (Dict.set key value d).
Proof.
  intros Hvalue. induction 1 as [| [k v] r Hv Hr IH]; cbn.
  - now repeat constructor.
  - destruct (String.eqb k key); constructor; trivial.
Qed.

Ltac split_match H :=
  repeat match type of H with
         | context [match ?x with _ => _ end] =>
             destruct x eqn:?; try discriminate H
         end.

(** The decoder builds dictionaries with [Dict.set], so no value it
    returns has a key twice. *)
Lemma parser_well_formed (fuel : nat) :
  (forall s v rest,
      Json.parse_value fuel s = Some (v, rest) -> well_formed v)
  /\ (forall s acc v rest,
        Json.parse_items fuel s acc = Some (v, rest) ->
        Forall well_formed acc -> well_formed v)
  /\ (forall s acc v rest,
        Json.parse_members fuel s acc = Some (v, rest) ->
        NoDup (map fst acc) ->
        Forall (fun kv => well_formed (snd kv)) acc ->
        well_formed v).
Proof.
  induction fuel as [| fuel [IHvalue [IHitems IHmembers]]];
    [repeat split; intros; discriminate|].
  split; [| split].
  - intros s v rest H. cbn [Json.parse_value] in H.
    split_match H; unfold option_map in H; split_match H;
      first
        [ now apply (IHitems _ _ _ _ H)
        | apply (IHmembers _ _ _ _ H); constructor
        | injection H as <- _;
          first [ exact I
                | apply well_formed_array; constructor
                | apply well_formed_object; split; constructor ] ].
  - intros s acc v rest H Hacc. rewrite parse_items_step in H.
    destruct (Json.parse_value fuel s) as [[x rest1] |] eqn:Hx; [| discriminate].
    pose proof (IHvalue _ _ _ Hx) as Hwf.
    assert (Hall : Forall well_formed (acc ++ [x])%list)
      by (apply Forall_app; split; [assumption | now constructor]).
    split_match H.
    + now apply (IHitems _ _ _ _ H).
    + injection H as <- _. now apply well_formed_array.
  - intros s acc v rest H Hkeys Hacc. cbn [Json.parse_members] in H.
    split_match H.
    + match goal with
      | Hv : Json.parse_value fuel _ = Some (?x, _) |- _ =>
          pose proof (IHvalue _ _ _ Hv) as Hwf
      end.
      apply (IHmembers _ _ _ _ H);
        [now apply dict_set_no_dup | now apply dict_set_forall].
    + match goal with
      | Hv : Json.parse_value fuel _ = Some (?x, _) |- _ =>
          pose proof (IHvalue _ _ _ Hv) as Hwf
      end.
      injection H as <- _. apply well_formed_object.
      split; [now apply dict_set_no_dup | now apply dict_set_forall].
Qed.

Lemma loads_well_formed (text : string) (v : Json.json) :
  Json.loads text = Ok v -> well_formed v.
Proof.
  unfold Json.loads. intros H.
  destruct (Json.parse_value _ _) as [[x rest] |] eqn:Hx; [| discriminate].
  destruct (Json.skip_ws rest); [| discriminate].
  injection H as <-. now apply (proj1 (parser_well_formed _) _ _ _ Hx).
Qed.

(** ** Lines *)

Lemma loads_dumps_line (v : Json.json) :
  well_formed v -> Json.loads (Json.dumps v ++ Json.newline) = Ok v.
Proof.
  intros Hwf. unfold Json.loads, Json.dumps.
  rewrite chars_app.
  change (list_ascii_of_string Json.newline) with ["010"%char].
  pose proof (well_formed_reads_back v Hwf 0
                (2 * length (list_ascii_of_string (Json.dumps_at None 0 v)
                             ++ ["010"%char])%list + 2)
                ["010"%char]) as Hread.
  rewrite Hread; [reflexivity | | apply follows_newline].
  rewrite length_app, length_chars. pose proof (cost_bound v 0). lia.
Qed.

Lemma contains_char_append (x : ascii) (a b : string) :
  Py.contains_char x (a ++ b) = Py.contains_char x a || Py.contains_char x b.
Proof.
  induction a as [| c a IH]; cbn; [reflexivity|].
  rewrite IH. now destruct (Ascii.eqb c x).
Qed.

Lemma contains_char_join (x : ascii) (sep : string) (parts : list string) :
  Py.contains_char x sep = false ->
  Forall (fun part => Py.contains_char x part = false) parts ->
  Py.contains_char x (Py.join sep parts) = false.
Proof.
  intros Hsep. induction 1 as [| p rest Hp Hrest IH]; [reflexivity|].
  destruct rest as [| q rest']; [exact Hp|].
  change (Py.join sep (p :: q :: rest')) with (p ++ sep ++ Py.join sep (q :: rest')).
  now rewrite !contains_char_append, Hp, Hsep, IH.
Qed.

Lemma escape_char_one_line (x c : ascii) :
  x = "010"%char \/ x = "013"%char ->
  Py.contains_char x (Json.escape_char c) = false.
Proof.
  intros [-> | ->]; destruct c as [[|] [|] [|] [|] [|] [|] [|] [|]]; reflexivity.
Qed.

Lemma encode_str_one_line (x : ascii) (s : string) :
  x = "010"%char \/ x = "013"%char ->
  Py.contains_char x (Json.encode_str s) = false.
Proof.
  intros Hx. unfold Json.encode_str.
  assert (Hquote : Ascii.eqb Py.dquote x = false) by (destruct Hx as [-> | ->]; reflexivity).
  cbn [Py.contains_char]. rewrite Hquote, contains_char_append.
  cbn [Py.contains_char]. rewrite Hquote. cbn [orb].
  rewrite orb_false_r.
  induction s as [| c s IH]; [reflexivity|].
  cbn [Json.escape_body]. rewrite contains_char_append, escape_char_one_line by exact Hx.
  exact IH.
Qed.

Lemma digits_one_line (x : ascii) (d : Decimal.uint) :
  x = "010"%char \/ x = "013"%char ->
  Py.contains_char x (NilEmpty.string_of_uint d) = false.
Proof. intros [-> | ->]; induction d; cbn; trivial. Qed.

Lemma str_of_Z_one_line (x : ascii) (z : Z) :
  x = "010"%char \/ x = "013"%char ->
  Py.contains_char x (Py.str_of_Z z) = false.
Proof.
  intros Hx.
  unfold Py.str_of_Z. destruct z as [| p | p]; cbn [Z.to_int NilZero.string_of_int].
  - destruct Hx as [-> | ->]; reflexivity.
  - rewrite string_of_to_uint. now apply digits_one_line.
  - rewrite string_of_to_uint. cbn [Py.contains_char].
    rewrite digits_one_line by exact Hx.
    destruct Hx as [-> | ->]; reflexivity.
Qed.

(** The compact text of a value holds no line break. *)
Lemma dumps_one_line (x : ascii) (v : Json.json) :
  x = "010"%char \/ x = "013"%char ->
  forall level, Py.contains_char x (Json.dumps_at None level v) = false.
Proof.
  intros Hx.
  assert (Hsep : Py.contains_char x ", " = false)
    by (destruct Hx as [-> | ->]; reflexivity).
  induction v as [| b | z | s | l IH | m IH] using json_induction; intros level.
  - destruct Hx as [-> | ->]; reflexivity.
  - destruct Hx as [-> | ->]; now destruct b.
  - now apply str_of_Z_one_line.
  - now apply encode_str_one_line.
  - destruct l as [| y l]; [destruct Hx as [-> | ->]; reflexivity|].
    change (Json.dumps_at None level (Json.JArr (y :: l)))
      with (String "["
              (Py.join ", " (map (Json.dumps_at None (S level)) (y :: l)) ++ "]")).
    cbn [Py.contains_char]. rewrite contains_char_append.
    rewrite contains_char_join.
    + destruct Hx as [-> | ->]; reflexivity.
    + exact Hsep.
    + apply Forall_map. eapply Forall_impl; [| exact IH]. intros w Hw. apply Hw.
  - destruct m as [| kv m]; [destruct Hx as [-> | ->]; reflexivity|].
    change (Json.dumps_at None level (Json.JObj (kv :: m)))
      with (String "{"
              (Py.join ", " (map (member_text (S level)) (kv :: m)) ++ "}")).
    cbn [Py.contains_char]. rewrite contains_char_append.
    rewrite contains_char_join.
    + destruct Hx as [-> | ->]; reflexivity.
    + exact Hsep.
    + apply Forall_map. eapply Forall_impl; [| exact IH]. intros w Hw.
      unfold member_text.
      rewrite !contains_char_append, encode_str_one_line by exact Hx.
      rewrite Hw. destruct Hx as [-> | ->]; reflexivity.
Qed.

Lemma sforall_srev_onto (p : ascii -> bool) (s acc : string) :
  Py.sforall p (Py.srev_onto s acc) = Py.sforall p s && Py.sforall p acc.
Proof.
  revert acc. induction s as [| c s IH]; intros acc; cbn; [reflexivity|].
  rewrite IH. cbn. destruct (p c), (Py.sforall p s); reflexivity.
Qed.

Lemma sforall_lstrip_by (p : ascii -> bool) (s : string) :
  Py.sforall p s = false -> Py.sforall p (Py.lstrip_by p s) = false.
Proof.
  induction s as [| c s IH]; cbn; [trivial|].
  destruct (p c) eqn:Hc; cbn; [exact IH | now rewrite Hc].
Qed.

(** A text with a character that is not white space is not blank. *)
Lemma not_blank (s : string) :
  Py.sforall Py.is_space s = false -> is_read s = true.
Proof.
  intros H. unfold is_read, Py.strip, Py.srev.
  assert (Hstrip : Py.sforall Py.is_space
                     (Py.srev_onto
                        (Py.lstrip_by Py.is_space
                           (Py.srev_onto (Py.lstrip_by Py.is_space s) "")) "")
                   = false).
  { rewrite sforall_srev_onto, andb_true_r. apply sforall_lstrip_by.
    rewrite sforall_srev_onto, andb_true_r. now apply sforall_lstrip_by. }
  now destruct (Py.srev_onto _ "").
Qed.

Lemma dumps_first (level : nat) (v : Json.json) :
  exists c tail,
    Json.dumps_at None level v = String c tail /\ Py.is_space c = false.
Proof.
  destruct v as [| [|] | z | s | [| x l] | [| kv m]];
    try (eexists; eexists; split; reflexivity).
  cbn [Json.dumps_at]. unfold Py.str_of_Z.
  destruct z as [| p | p]; try (eexists; eexists; split; reflexivity).
  cbn [Z.to_int NilZero.string_of_int]. rewrite string_of_to_uint.
  pose proof (DecimalPos.Unsigned.to_uint_nonnil p) as Hnil.
  destruct (Pos.to_uint p); [contradiction | ..];
    eexists; eexists; split; reflexivity.
Qed.

Lemma dumps_line_is_read (v : Json.json) :
  is_read (Json.dumps v ++ Json.newline) = true.
Proof.
  apply not_blank. unfold Json.dumps.
  destruct (dumps_first 0 v) as [c [tail [-> Hc]]]. cbn. now rewrite Hc.
Qed.

(** ** Recordings *)

Lemma keys_from_fresh (q : Query.t) :
  forall seen,
    NoDup (Query.keys_from seen q)
    /\ (forall k, In k (Query.keys_from seen q) -> ~ In k seen).
Proof.
  induction q as [| [k v] r IH]; intros seen; cbn.
  - split; [constructor | intros k []].
  - destruct (existsb (String.eqb k) seen) eqn:Hseen; [apply IH|].
    destruct (IH (k :: seen)) as [Hnd Hfresh]. split.
    + constructor; [| exact Hnd].
      intros Hin. apply (Hfresh k Hin). now left.
    + intros k' [<- | Hin].
      * intros Hk.
        assert (Hex : existsb (String.eqb k) seen = true).
        { apply existsb_exists. exists k. split; [assumption|].
          apply String.eqb_refl. }
        congruence.
      * intros Hk. apply (Hfresh k' Hin). now right.
Qed.

Lemma strings_well_formed (d : Dict.t string) :
  NoDup (map fst d) -> well_formed (SelectiveRecord.strings d).
Proof.
  intros Hnd. unfold SelectiveRecord.strings. apply well_formed_object. split.
  - rewrite map_map. cbn. exact Hnd.
  - apply Forall_map. apply Forall_forall. intros kv _. exact I.
Qed.

Lemma headers_to_dict_keys (h : Headers.t) : NoDup (map fst (Headers.to_dict h)).
Proof.
  unfold Headers.to_dict. rewrite map_map. cbn. rewrite map_id.
  apply names_from_fresh.
Qed.

Lemma query_to_dict_keys (q : Query.t) : NoDup (map fst (Query.to_dict q)).
Proof.
  unfold Query.to_dict. rewrite map_map. cbn. rewrite map_id.
  apply keys_from_fresh.
Qed.

Lemma decoded_or_text_well_formed (text : string) :
  well_formed (SelectiveRecord.decoded_or_text text).
Proof.
  unfold SelectiveRecord.decoded_or_text.
  destruct (Json.loads text) as [v | e] eqn:E; [| exact I].
  now apply (loads_well_formed text).
Qed.

Lemma fixed_keys_distinct_3 (a b c : string) :
  a <> b -> a <> c -> b <> c -> NoDup [a; b; c].
Proof.
  intros Hab Hac Hbc. repeat constructor; cbn; intuition congruence.
Qed.

Lemma recording_well_formed (now url : string) (flow : Flow.t) :
  well_formed (SelectiveRecord.recording now url flow).
Proof.
  unfold SelectiveRecord.recording.
  apply well_formed_object. split.
  - cbn [map fst]. repeat constructor; cbn; intuition discriminate.
  - apply Forall_cons; [exact I|].
    apply Forall_cons; [| apply Forall_cons; [| apply Forall_nil]]; cbn [snd].
    + apply well_formed_object. split.
      * cbn [map fst]. repeat constructor; cbn; intuition discriminate.
      * repeat (apply Forall_cons; [cbn [snd] |]); try apply Forall_nil;
          try exact I.
        -- apply strings_well_formed, query_to_dict_keys.
        -- apply strings_well_formed, headers_to_dict_keys.
        -- apply decoded_or_text_well_formed.
    + apply well_formed_object. split.
      * cbn [map fst]. repeat constructor; cbn; intuition discriminate.
      * repeat (apply Forall_cons; [cbn [snd] |]); try apply Forall_nil;
          try exact I.
        -- apply strings_well_formed, headers_to_dict_keys.
        -- apply decoded_or_text_well_formed.
Qed.

(** ** The lines of the recordings file *)

Lemma append_assoc (a b c : string) : (a ++ b) ++ c = a ++ b ++ c.
Proof. induction a as [| x a IH]; cbn; [reflexivity | now rewrite IH]. Qed.

(** A text without line break, then a line feed: one line. *)
Lemma lines_from_plain (s rest : string) :
  Py.contains_char "010" s = false ->
  Py.contains_char "013" s = false ->
  forall line,
    Py.lines_from (s ++ String "010" rest) line
    = Py.srev (String "010" (Py.srev_onto s line)) :: Py.lines_from rest "".
Proof.
  induction s as [| c s IH]; intros Hlf Hcr line.
  - reflexivity.
  - cbn [Py.contains_char] in Hlf, Hcr.
    apply orb_false_iff in Hlf as [Hc Hlf].
    apply orb_false_iff in Hcr as [Hc' Hcr].
    cbn [append Py.lines_from]. rewrite Hc, Hc'. cbn [Py.srev_onto].
    now apply IH.
Qed.

Lemma line_text (s : string) :
  Py.srev (String "010" (Py.srev_onto s "")) = s ++ Json.newline.
Proof.
  unfold Py.srev. cbn [Py.srev_onto]. rewrite srev_onto_onto. reflexivity.
Qed.

(** After a complete line the reader starts afresh. *)
Lemma lines_from_complete (n : nat) :
  forall body rest line,
    String.length body <= n ->
    Py.lines_from ((body ++ Json.newline) ++ rest) line
    = (Py.lines_from (body ++ Json.newline) line ++ Py.lines_from rest "")%list.
Proof.
  induction n as [| n IH]; intros body rest line Hlen.
  - destruct body; [reflexivity | cbn in Hlen; lia].
  - destruct body as [| c body]; [reflexivity|].
    cbn [append Py.lines_from].
    destruct (Ascii.eqb c "010").
    + cbn [List.app]. f_equal. apply IH. cbn in Hlen. lia.
    + destruct (Ascii.eqb c "013").
      * destruct body as [| c' body'].
        -- reflexivity.
        -- cbn [append]. destruct (Ascii.eqb c' "010").
           ++ cbn [List.app]. f_equal. apply IH. cbn in Hlen. lia.
           ++ cbn [List.app]. f_equal. apply (IH (String c' body')).
              cbn in Hlen |- *. lia.
      * apply IH. cbn in Hlen. lia.
Qed.

Lemma file_lines_app (a b : string) :
  complete a ->
  Py.file_lines (a ++ b) = (Py.file_lines a ++ Py.file_lines b)%list.
Proof.
  intros [-> | [body ->]]; [reflexivity|].
  unfold Py.file_lines. now apply (lines_from_complete (String.length body)).
Qed.

Lemma file_lines_line (v : Json.json) :
  Py.file_lines (Json.dumps v ++ Json.newline) = [Json.dumps v ++ Json.newline].
Proof.
  unfold Py.file_lines, Json.dumps.
  change Json.newline with (String "010" "").
  rewrite lines_from_plain by (apply dumps_one_line; auto).
  now rewrite line_text.
Qed.

Lemma response_lines (now url log : string) (flow : Flow.t) :
  complete log ->
  Py.file_lines (SelectiveRecord.response now url log flow)
  = (Py.file_lines log
     ++ (if SelectiveRecord.should_record (Request.path (Flow.request flow))
         then [line_of (now, url, flow)]
         else []))%list.
Proof.
  intros Hlog. unfold SelectiveRecord.response.
  destruct (SelectiveRecord.should_record _); cbn [negb].
  - rewrite file_lines_app by exact Hlog. now rewrite file_lines_line.
  - now rewrite app_nil_r.
Qed.

Lemma response_complete (now url log : string) (flow : Flow.t) :
  complete log -> complete (SelectiveRecord.response now url log flow).
Proof.
  intros Hlog. unfold SelectiveRecord.response.
  destruct (SelectiveRecord.should_record _); cbn [negb]; [| exact Hlog].
  right. exists (log ++ Json.dumps (SelectiveRecord.recording now url flow)).
  now rewrite append_assoc.
Qed.

Lemma record_all_complete (entries : list (string * string * Flow.t)) :
  forall log, complete log -> complete (record_all entries log).
Proof.
  induction entries as [| [[now url] flow] rest IH]; intros log Hlog; [exact Hlog|].
  cbn [record_all fold_left fst snd]. apply IH. now apply response_complete.
Qed.

Lemma record_all_lines (entries : list (string * string * Flow.t)) :
  forall log,
    complete log ->
    Py.file_lines (record_all entries log)
    = (Py.file_lines log ++ map line_of (filter recorded entries))%list.
Proof.
  induction entries as [| [[now url] flow] rest IH]; intros log Hlog.
  - cbn. now rewrite app_nil_r.
  - cbn [record_all fold_left fst snd].
    change (fold_left _ rest ?l) with (record_all rest l).
    rewrite IH by now apply response_complete.
    rewrite response_lines by exact Hlog.
    cbn [filter]. unfold recorded at 2. cbn [snd].
    destruct (SelectiveRecord.should_record _).
    + rewrite <- app_assoc. reflexivity.
    + now rewrite app_nil_r.
Qed.

(** A text that cannot be JSON does not decode, and the recorder keeps it
    as text. *)
Lemma starts_no_value_raises (text : string) :
  starts_no_value text = true -> Json.loads text = Raise JSONDecodeError.
Proof.
  unfold starts_no_value, Json.loads. intros H.
  replace (2 * length (list_ascii_of_string text) + 2)
    with (S (2 * length (list_ascii_of_string text) + 1)) by lia.
  cbn [Json.parse_value].
  destruct (Json.skip_ws (list_ascii_of_string text)) as [| c r]; [reflexivity|].
  destruct c as [[|] [|] [|] [|] [|] [|] [|] [|]];
    first [discriminate H | reflexivity].
Qed.

Lemma plain_body_kept (text : string) :
  starts_no_value text = true ->
  SelectiveRecord.decoded_or_text text = Json.JStr text.
Proof.
  intros H. unfold SelectiveRecord.decoded_or_text.
  now rewrite (starts_no_value_raises text H).
Qed.

Lemma append_cancel (log added : string) : log ++ added = log -> added = "".
Proof.
  induction log as [| c log IH]; cbn; [trivial|].
  intros H. injection H as H. now apply IH.
Qed.

Lemma line_is_appended (log : string) (value : Json.json) :
  log ++ Json.dumps value ++ Json.newline <> log.
Proof.
  intros H. apply append_cancel in H.
  destruct (Json.dumps value); discriminate.
Qed.

Lemma stored_body_decoded (text : string) (body : Json.json) :
  stored_body text body -> SelectiveRecord.decoded_or_text text = body.
Proof.
  intros [Hvalue | [Htext ->]].
  - unfold SelectiveRecord.decoded_or_text. now rewrite Hvalue.
  - now apply plain_body_kept.
Qed.

(** C8. The recorder records an exchange exactly when its path clears
    the filter: no exclusion pattern matches the path (ignoring case) and
    some record pattern matches it (case respected).  For such a path the
    hook appends one whole line to the recordings file, and for bodies of
    the fragment the line is the entry of the exchange: time, method,
    URL, path, query, headers, status code, and the two bodies, decoded
    when they decode and as text when they cannot be JSON.  For every
    other path the hook leaves the file as it is.  So an exchange whose
    path an exclusion pattern matches is not recorded whatever the record
    patterns say, as for a path with [analytics] under [/api/v1/]. *)
Theorem recorder_records_iff :
  forall (now url log : string) (flow : Flow.t),
    let path := Request.path (Flow.request flow) in
    (SelectiveRecord.response now url log flow <> log <-> clears_filter path)
    /\ (clears_filter path ->
        (exists line,
            SelectiveRecord.response now url log flow
            = log ++ line ++ Json.newline
            /\ Py.contains_char "010" line = false
            /\ Py.contains_char "013" line = false)
        /\ (forall request_body response_body,
              stored_body (Request.content (Flow.request flow)) request_body ->
              stored_body (Response.content (Flow.response flow)) response_body ->
              SelectiveRecord.response now url log flow
              = log ++ Json.dumps (SelectiveRecord.entry now url flow
                                     request_body response_body)
                    ++ Json.newline))
    /\ (forall p, In p SelectiveRecord.EXCLUDE_PATTERNS ->
                  Re.matches true p path = true ->
                  SelectiveRecord.response now url log flow = log)
    /\ (SelectiveRecord.should_record path = true <-> clears_filter path)
    /\ Re.matches false "^/api/v1/.*" "/api/v1/Analytics/events" = true
    /\ SelectiveRecord.response now url log Fixtures.analytics = log
    /\ SelectiveRecord.response now url log Fixtures.orders <> log.
Proof.
  intros now url log flow path.
  destruct (should_record_iff path) as [Hiff [Hdeny _]].
  fold (clears_filter path) in Hiff.
  assert (Hhook : SelectiveRecord.response now url log flow
                  = if SelectiveRecord.should_record path
                    then log ++ Json.dumps (SelectiveRecord.recording now url flow)
                             ++ Json.newline
                    else log).
  { unfold SelectiveRecord.response. fold path.
    now destruct (SelectiveRecord.should_record path). }
  split; [| split; [| split; [| split; [exact Hiff | split; [reflexivity | split]]]]].
  - rewrite Hhook. destruct (SelectiveRecord.should_record path) eqn:Hrecord.
    + split; [intros _; now apply Hiff | intros _; apply line_is_appended].
    + split; [intros H; now contradiction H |].
      intros Hclear. apply Hiff in Hclear. discriminate.
  - intros Hclear. apply Hiff in Hclear. rewrite Hhook, Hclear. split.
    + exists (Json.dumps (SelectiveRecord.recording now url flow)).
      split; [reflexivity|]. unfold Json.dumps.
      split; apply dumps_one_line; auto.
    + intros request_body response_body Hrequest Hresponse.
      unfold SelectiveRecord.recording.
      now rewrite (stored_body_decoded _ _ Hrequest),
        (stored_body_decoded _ _ Hresponse).
  - intros p Hin Hmatch. rewrite Hhook, (Hdeny p Hin Hmatch). reflexivity.
  - reflexivity.
  - change (SelectiveRecord.response now url log Fixtures.orders)
      with (log ++ Json.dumps (SelectiveRecord.recording now url Fixtures.orders)
                ++ Json.newline).
    apply line_is_appended.
Qed.

Lemma recorder_records_iff_witness :
  SelectiveRecord.response "t2" "https://api.test/api/v1/metrics" ""
    Fixtures.metrics = ""
  /\ SelectiveRecord.response "t1" "https://api.test/api/v1/orders" ""
       Fixtures.orders
     = Json.dumps (SelectiveRecord.entry "t1" "https://api.test/api/v1/orders"
                     Fixtures.orders (Json.JStr "")
                     (Json.JArr [Json.JInt 1; Json.JInt 2]))
       ++ Json.newline.
Proof.
  split.
  - apply (proj1 (proj2 (proj2 (recorder_records_iff
                                  "t2" "https://api.test/api/v1/metrics" ""
                                  Fixtures.metrics)))
             ".*metrics.*").
    + right. right. right. left. reflexivity.
    + reflexivity.
  - assert (Hclear : clears_filter "/api/v1/orders").
    { split.
      - intros p [<- | [<- | [<- | [<- | []]]]]; reflexivity.
      - exists "^/api/v1/.*". split; [now left | reflexivity]. }
    apply (proj2 (proj1 (proj2 (recorder_records_iff
                                  "t1" "https://api.test/api/v1/orders" ""
                                  Fixtures.orders))
                    Hclear)).
    + right. split; reflexivity.
    + left. vm_compute. reflexivity.
Defined.

(** X27. The recorder only appends whole lines: on a file whose lines
    are complete, the flows that are recorded add one line each, in
    order, the others add nothing, the earlier lines stay as they were
    and the file is complete again. *)
Theorem recorder_appends_whole_lines :
  forall (entries : list (string * string * Flow.t)) (log : string),
    complete log ->
    Py.file_lines (record_all entries log)
    = (Py.file_lines log ++ map line_of (filter recorded entries))%list
    /\ complete (record_all entries log).
Proof.
  intros entries log Hlog. split.
  - now apply record_all_lines.
  - now apply record_all_complete.
Qed.

Lemma recorder_appends_whole_lines_witness :
  Py.file_lines (record_all Fixtures.session (Fixtures.users42 ++ Json.newline))
  = (Py.file_lines (Fixtures.users42 ++ Json.newline)
     ++ map line_of (filter recorded Fixtures.session))%list
  /\ complete (record_all Fixtures.session (Fixtures.users42 ++ Json.newline)).
Proof.
  apply recorder_appends_whole_lines.
  right. now exists Fixtures.users42.
Defined.

(** ** From the recorder to the compiler *)

Lemma entry_well_formed (entry : string * string * Flow.t) :
  well_formed (entry_of entry).
Proof. apply recording_well_formed. Qed.

Lemma read_recordings_lines (values : list Json.json) :
  Forall well_formed values ->
  MitmToMockoon.read_recordings
    (map (fun v => Json.dumps v ++ Json.newline) values)
  = Ok values.
Proof.
  induction 1 as [| v rest Hv _ IH]; [reflexivity|].
  cbn [map MitmToMockoon.read_recordings].
  pose proof (dumps_line_is_read v) as Hread. unfold is_read in Hread.
  rewrite Hread, (loads_dumps_line v Hv). cbn [bind]. now rewrite IH.
Qed.

Lemma recorded_log_read (entries : list (string * string * Flow.t)) :
  MitmToMockoon.read_recordings (Py.file_lines (record_all entries ""))
  = Ok (entries_of entries).
Proof.
  rewrite record_all_lines by now left.
  cbn [Py.file_lines Py.lines_from List.app]. unfold entries_of.
  rewrite <- (read_recordings_lines (map entry_of (filter recorded entries))).
  - now rewrite map_map.
  - apply Forall_map, Forall_forall. intros entry _. apply entry_well_formed.
Qed.

Lemma group_key_entry (entry : string * string * Flow.t) :
  MitmToMockoon.group_key (entry_of entry)
  = Ok (Py.lower (Request.method (Flow.request (snd entry)))
        ++ ":" ++ Request.path (Flow.request (snd entry))).
Proof. destruct entry as [[now url] flow]. reflexivity. Qed.

Lemma group_recordings_succeeds (recordings : list Json.json) :
  Forall (fun rec => exists key, MitmToMockoon.group_key rec = Ok key) recordings ->
  forall grouped,
    exists grouped', MitmToMockoon.group_recordings recordings grouped = Ok grouped'.
Proof.
  induction 1 as [| rec rest [key Hkey] _ IH]; intros grouped.
  - now exists grouped.
  - cbn [MitmToMockoon.group_recordings]. rewrite Hkey. cbn [bind]. apply IH.
Qed.

(** A key with a colon splits in two. *)
Lemma split1_two (sep : ascii) (a b : string) :
  exists a' b', Py.split1 sep (a ++ String sep b) = [a'; b'].
Proof.
  induction a as [| c a [a' [b' IH]]]; cbn [append Py.split1].
  - rewrite Ascii.eqb_refl. now exists "", b.
  - destruct (Ascii.eqb c sep); [now exists "", (a ++ String sep b)|].
    rewrite IH. now exists (String c a'), b'.
Qed.

Lemma split1_first (sep : ascii) (a b : string) :
  Py.contains_char sep a = false ->
  Py.split1 sep (a ++ String sep b) = [a; b].
Proof.
  induction a as [| c a IH]; intros Hfree; cbn [append Py.split1].
  - now rewrite Ascii.eqb_refl.
  - cbn [Py.contains_char] in Hfree. apply orb_false_iff in Hfree as [Hc Hfree].
    now rewrite Hc, (IH Hfree).
Qed.

Lemma lower_char_colon (c : ascii) :
  Ascii.eqb (Py.lower_char c) ":" = Ascii.eqb c ":".
Proof. destruct c as [[|] [|] [|] [|] [|] [|] [|] [|]]; reflexivity. Qed.

Lemma lower_keeps_colons (s : string) :
  Py.contains_char ":" (Py.lower s) = Py.contains_char ":" s.
Proof.
  unfold Py.lower. induction s as [| c s IH]; [reflexivity|].
  cbn [Py.smap Py.contains_char]. now rewrite lower_char_colon, IH.
Qed.

Lemma build_route_entry (ids : nat -> string) (n : nat) (key a b : string)
      (entry : string * string * Flow.t) (rest : list Json.json) :
  Py.split1 ":" key = [a; b] ->
  exists route,
    MitmToMockoon.build_route ids n key (entry_of entry :: rest)
    = Ok (route, S (S n)).
Proof.
  intros Hsplit. unfold MitmToMockoon.build_route. rewrite Hsplit.
  destruct entry as [[now url] flow]. eexists. reflexivity.
Qed.

Lemma build_routes_succeed (ids : nat -> string)
      (grouped : Dict.t (list Json.json)) :
  Forall (fun group =>
            (exists a b, Py.split1 ":" (fst group) = [a; b])
            /\ exists entry rest, snd group = entry_of entry :: rest)
         grouped ->
  forall n, exists routes n',
    MitmToMockoon.build_routes ids n grouped = Ok (routes, n').
Proof.
  induction 1 as [| [key recs] rest [[a [b Hsplit]] [entry [more Hrecs]]] _ IH];
    intros n.
  - now exists [], n.
  - cbn [fst snd] in Hsplit, Hrecs. subst recs.
    cbn [MitmToMockoon.build_routes].
    destruct (build_route_entry ids n key a b entry more Hsplit) as [route ->].
    cbn [bind]. destruct (IH (S (S n))) as [routes [n' ->]]. cbn [bind].
    now exists (route :: routes), n'.
Qed.

Lemma entries_have_keys (entries : list (string * string * Flow.t)) :
  Forall (fun rec => exists key, MitmToMockoon.group_key rec = Ok key)
         (entries_of entries).
Proof.
  apply Forall_map, Forall_forall. intros entry _.
  eexists. apply group_key_entry.
Qed.

(** The groups of a recorded log are ready for the route loop. *)
Lemma recorded_groups_ready (entries : list (string * string * Flow.t))
      (grouped : Dict.t (list Json.json)) :
  groups_of (entries_of entries) grouped ->
  Forall (fun group =>
            (exists a b, Py.split1 ":" (fst group) = [a; b])
            /\ exists entry rest, snd group = entry_of entry :: rest)
         grouped.
Proof.
  intros (_ & Hgroups & _). apply Forall_forall. intros [key recs] Hin.
  destruct (Hgroups key recs Hin) as [Hrecs Hsome]. cbn [fst snd].
  destruct recs as [| first more]; [contradiction|].
  assert (Hfirst : In first (filter (in_group key) (entries_of entries)))
    by (rewrite <- Hrecs; now left).
  apply filter_In in Hfirst as [Hseen Hkey].
  apply in_map_iff in Hseen as [entry [<- _]].
  unfold in_group in Hkey. rewrite group_key_entry in Hkey.
  apply String.eqb_eq in Hkey. split.
  - rewrite <- Hkey. apply split1_two.
  - now exists entry, more.
Qed.

Lemma recorded_log_compiles (ids : nat -> string)
      (entries : list (string * string * Flow.t)) (name : string) :
  exists table grouped,
    MitmToMockoon.convert_recordings_to_mockoon ids
      (Py.file_lines (record_all entries "")) name = Ok table
    /\ MitmToMockoon.group_recordings (entries_of entries) [] = Ok grouped.
Proof.
  unfold MitmToMockoon.convert_recordings_to_mockoon.
  rewrite recorded_log_read. cbn [bind].
  destruct (group_recordings_succeeds _ (entries_have_keys entries) [])
    as [grouped Hgrouped].
  rewrite Hgrouped. cbn [bind].
  pose proof (group_recordings_groups _ [] [] grouped groups_of_empty Hgrouped)
    as Hgroups.
  cbn [List.app] in Hgroups.
  destruct (build_routes_succeed ids grouped
              (recorded_groups_ready entries grouped Hgroups) 0)
    as [routes [n ->]].
  cbn [bind]. eexists. exists grouped. split; reflexivity.
Qed.

(** X28. What the recorder writes, the compiler reads back: for flows
    whose bodies decode to values of the fragment (then the entry holds
    the value) or cannot be JSON at all (then the entry holds the text),
    the file of a session, read line by line, decodes to the entries of
    the recorded flows, in order, and the conversion ends with a table. *)
Theorem recorder_log_is_accepted :
  forall (ids : nat -> string) (entries : list (string * string * Flow.t))
         (name : string),
    Forall plain_bodies entries ->
    MitmToMockoon.read_recordings (Py.file_lines (record_all entries ""))
    = Ok (entries_of entries)
    /\ exists table,
         MitmToMockoon.convert_recordings_to_mockoon ids
           (Py.file_lines (record_all entries "")) name = Ok table.
Proof.
  intros ids entries name _. split.
  - apply recorded_log_read.
  - destruct (recorded_log_compiles ids entries name) as [table [_ [H _]]].
    now exists table.
Qed.

Lemma recorder_log_is_accepted_witness :
  MitmToMockoon.read_recordings (Py.file_lines (record_all Fixtures.session ""))
  = Ok (entries_of Fixtures.session)
  /\ exists table,
       MitmToMockoon.convert_recordings_to_mockoon Fixtures.ids0
         (Py.file_lines (record_all Fixtures.session ""))
         MitmToMockoon.default_name = Ok table.
Proof.
  assert (Hplain : Forall plain_bodies Fixtures.session).
  { unfold Fixtures.session.
    repeat (apply Forall_cons; [split |]); try apply Forall_nil;
      first [ right; reflexivity
            | left; eexists; vm_compute; reflexivity ]. }
  exact (recorder_log_is_accepted Fixtures.ids0 Fixtures.session
           MitmToMockoon.default_name Hplain).
Defined.

Lemma Forall2_from_left {A B : Type} (R : A -> B -> Prop)
      (xs : list A) (ys : list B) :
  Forall2 R xs ys -> forall x, In x xs -> exists y, In y ys /\ R x y.
Proof.
  induction 1 as [| x' y xs ys Hxy _ IH]; intros x Hin; [contradiction|].
  destruct Hin as [<- | Hin].
  - exists y. split; [now left | assumption].
  - destruct (IH x Hin) as [y' [Hy' HR]]. exists y'. split; [now right | assumption].
Qed.

(** X29. Every recorded flow is served: when the methods hold no colon,
    the table compiled from the file of a session has, for each flow
    that was recorded, a route with the method in lower case and the
    template of the path. *)
Theorem recorded_flows_get_routes :
  forall (ids : nat -> string) (entries : list (string * string * Flow.t))
         (name : string),
    Forall plain_method entries ->
    exists table,
      MitmToMockoon.convert_recordings_to_mockoon ids
        (Py.file_lines (record_all entries "")) name = Ok table
      /\ forall entry,
           In entry entries ->
           recorded entry = true ->
           exists route,
             In route (MitmToMockoon.Config.routes table)
             /\ MitmToMockoon.Route.method route
                = Py.lower (Request.method (Flow.request (snd entry)))
             /\ MitmToMockoon.Route.endpoint route
                = Py.lstrip "/"
                    (MitmToMockoon.determine_endpoint
                       (Request.path (Flow.request (snd entry)))).
Proof.
  intros ids entries name Hplain.
  destruct (recorded_log_compiles ids entries name)
    as [table [grouped [Hconv Hgrouped]]].
  exists table. split; [exact Hconv|].
  intros entry Hin Hrecorded.
  apply convert_ok in Hconv as [recordings [grouped' [Hread [Hgrouped' Hroutes]]]].
  rewrite recorded_log_read in Hread. injection Hread as <-.
  rewrite Hgrouped in Hgrouped'. injection Hgrouped' as <-.
  pose proof (group_recordings_groups _ [] [] grouped groups_of_empty Hgrouped)
    as (_ & _ & Hseen).
  cbn [List.app] in Hseen.
  assert (Hentry : In (entry_of entry) (entries_of entries)).
  { apply in_map, filter_In. now split. }
  destruct (Hseen _ Hentry) as [key [Hkey Hmember]].
  rewrite group_key_entry in Hkey. injection Hkey as <-.
  apply in_map_iff in Hmember as [[key recs] [Hfst Hgroup]].
  cbn [fst] in Hfst. subst key.
  destruct (Forall2_from_left _ _ _ Hroutes _ Hgroup) as [route [Hroute [m Hbuilt]]].
  cbn [fst snd] in Hbuilt.
  destruct Hbuilt as (method & path & first & rest & response & body & status
                      & recorded_headers & headers & Hsplit & _ & _ & _ & _ & _ & _
                      & ->).
  rewrite split1_first in Hsplit.
  - injection Hsplit as <- <-.
    eexists. split; [exact Hroute | split; reflexivity].
  - rewrite lower_keeps_colons.
    rewrite Forall_forall in Hplain. apply (Hplain entry Hin).
Qed.

Lemma recorded_flows_get_routes_witness :
  exists table,
    MitmToMockoon.convert_recordings_to_mockoon Fixtures.ids0
      (Py.file_lines (record_all Fixtures.session ""))
      MitmToMockoon.default_name = Ok table
    /\ forall entry,
         In entry Fixtures.session ->
         recorded entry = true ->
         exists route,
           In route (MitmToMockoon.Config.routes table)
           /\ MitmToMockoon.Route.method route
              = Py.lower (Request.method (Flow.request (snd entry)))
           /\ MitmToMockoon.Route.endpoint route
              = Py.lstrip "/"
                  (MitmToMockoon.determine_endpoint
                     (Request.path (Flow.request (snd entry)))).
Proof.
  apply recorded_flows_get_routes.
  repeat constructor.
Defined.
